(** * GridMap.cpp: terrain tiles, height and liquid queries, tile cache

    A shallow embedding of [src/game/Maps/GridMap.cpp] (CMaNGOS, TBC branch)
    and the properties its specification states about it.

    Conventions of the embedding
    - [float] is IEEE-754 binary32 with round-to-nearest-even on every
      operation ([SpecFloat] at precision 24, maximal exponent 128);
    - every buffer ([new T[n]], the hole table, a stack header) is the list
      of its bytes that hold a determinate value, read back little-endian;
    - undefined behaviour of the C++ (an index outside an array, a value
      read before it was written, a float that does not fit the [int] it is
      cast to, a failed [MANGOS_ASSERT]) is the explicit result [Fault];
    - the host is little-endian with a 64-bit [long], as the tile format
      and [fseek] on a uint32 offset assume;
    - the code is modelled as run by one thread: the mutexes are no-ops. *)

From Stdlib Require Import ZArith List String Ascii Bool Lia.
From Stdlib Require Import Floats.SpecFloat.
From Stdlib Require Strings.Byte.
From stdpp Require Import base option list gmap strings pretty.

Local Open Scope Z_scope.

(** ** Results of code that may run into undefined behaviour *)

Inductive fault : Type :=
| OutOfBounds        (* index outside an array *)
| Indeterminate      (* read of bytes that were never written *)
| BadConversion      (* float to int conversion of an unrepresentable value *)
| UndefinedShift     (* shift by at least the width of the type *)
| AssertionFailed.   (* MANGOS_ASSERT *)

Inductive outcome (A : Type) : Type :=
| Ret (a : A)
| Fault (f : fault).
Arguments Ret {A} a.
Arguments Fault {A} f.

#[global] Instance outcome_ret : MRet outcome := fun A a => Ret a.
#[global] Instance outcome_bind : MBind outcome := fun A B k m =>
  match m with
  | Ret a => k a
  | Fault f => Fault f
  end.

#[global] Instance outcome_fmap : FMap outcome := fun A B f m =>
  match m with
  | Ret a => Ret (f a)
  | Fault e => Fault e
  end.

Definition returns {A} (m : outcome A) : Prop := exists a, m = Ret a.

Definition MANGOS_ASSERT (b : bool) : outcome unit :=
  if b then Ret tt else Fault AssertionFailed.

(** ** binary32 *)

Module F32.

Definition prec : Z := 24.
Definition emax : Z := 128.

Definition float : Type := spec_float.

Definition add : float -> float -> float := SFadd prec emax.
Definition sub : float -> float -> float := SFsub prec emax.
Definition mul : float -> float -> float := SFmul prec emax.
Definition div : float -> float -> float := SFdiv prec emax.
Definition ltb : float -> float -> bool := SFltb.
Definition gtb (a b : float) : bool := SFltb b a.

(** [(float)z] for an integer [z], and the dyadic literal [m * 2^e]. *)
Definition of_dyadic (m e : Z) : float := binary_normalize prec emax m e false.
Definition of_int (z : Z) : float := of_dyadic z 0.

(** The integer part of a finite float, rounded toward zero. *)
Definition trunc (f : float) : option Z :=
  match f with
  | S754_zero _ => Some 0
  | S754_finite s m e =>
      let mag := if 0 <=? e then Z.pos m * 2 ^ e else Z.pos m / 2 ^ (- e) in
      Some (if s then - mag else mag)
  | S754_infinity _ | S754_nan => None
  end.

(** [(int)f]: defined when the truncated value fits a 32-bit int. *)
Definition to_int (f : float) : outcome Z :=
  match trunc f with
  | Some z => if (- 2 ^ 31 <=? z) && (z <? 2 ^ 31) then Ret z else Fault BadConversion
  | None => Fault BadConversion
  end.

(** The float whose object representation is the 32-bit pattern [w]. *)
Definition of_bits (w : Z) : float :=
  let s := Z.testbit w 31 in
  let e := Z.land (Z.shiftr w 23) 255 in
  let m := Z.land w (2 ^ 23 - 1) in
  if e =? 0 then
    match m with
    | Z.pos p => S754_finite s p (- 149)
    | _ => S754_zero s
    end
  else if e =? 255 then
    (if m =? 0 then S754_infinity s else S754_nan)
  else
    match m + 2 ^ 23 with
    | Z.pos p => S754_finite s p (e - 150)
    | _ => S754_nan
    end.

End F32.

Abbreviation float := F32.float.

Declare Scope f32_scope.
Delimit Scope f32_scope with f32.
Infix "+" := F32.add : f32_scope.
Infix "-" := F32.sub : f32_scope.
Infix "*" := F32.mul : f32_scope.
Infix "/" := F32.div : f32_scope.
Infix "<?" := F32.ltb : f32_scope.
Infix ">?" := F32.gtb : f32_scope.

(** ** Memory as bytes *)

Module Mem.

Definition byte : Type := Byte.byte.
Definition buffer : Type := list byte.

Definition byte_val (b : byte) : Z := Z.of_N (Byte.to_N b).

Definition byte_of (z : Z) : byte :=
  match Byte.of_N (Z.to_N (z mod 256)) with
  | Some b => b
  | None => Byte.x00
  end.

(** Little-endian value of a run of bytes. *)
Fixpoint le_val (bs : list byte) : Z :=
  match bs with
  | [] => 0
  | b :: bs' => byte_val b + 256 * le_val bs'
  end.

(** The [n] little-endian bytes of [z]. *)
Fixpoint le_bytes (n : nat) (z : Z) : list byte :=
  match n with
  | O => []
  | S n' => byte_of z :: le_bytes n' (z / 256)
  end.

(** [width] bytes at byte offset [off]; a fault when the object there is
    not wholly determinate. *)
Definition bytes_at (buf : buffer) (off : Z) (width : nat) : outcome (list byte) :=
  if off <? 0 then Fault OutOfBounds
  else
    let bs := take width (drop (Z.to_nat off) buf) in
    if Nat.eqb (length bs) width then Ret bs else Fault OutOfBounds.

(** Element [i] of the buffer seen as an array of uint8, uint16, uint32
    or float. *)
Definition read_u8 (buf : buffer) (i : Z) : outcome Z :=
  bs ← bytes_at buf i 1; Ret (le_val bs).
Definition read_u16 (buf : buffer) (i : Z) : outcome Z :=
  bs ← bytes_at buf (2 * i) 2; Ret (le_val bs).
Definition read_u32 (buf : buffer) (i : Z) : outcome Z :=
  bs ← bytes_at buf (4 * i) 4; Ret (le_val bs).
Definition read_f32 (buf : buffer) (i : Z) : outcome float :=
  bs ← bytes_at buf (4 * i) 4; Ret (F32.of_bits (le_val bs)).

(** A struct field of [width] bytes at byte offset [off]. *)
Definition field (buf : buffer) (off : Z) (width : nat) : outcome Z :=
  match bytes_at buf off width with
  | Ret bs => Ret (le_val bs)
  | Fault _ => Fault Indeterminate
  end.
Definition field_f32 (buf : buffer) (off : Z) : outcome float :=
  w ← field buf off 4; Ret (F32.of_bits w).

End Mem.

(** ** Files *)

Module Stdio.
Import Mem.

(** An open stream: the bytes of the file and the position indicator. *)
Record FILE : Type := { contents : buffer; position : Z }.

Definition filesystem : Type := string -> option buffer.

Definition fopen (fs : filesystem) (filename : string) : option FILE :=
  match fs filename with
  | Some bs => Some {| contents := bs; position := 0 |}
  | None => None
  end.

(** [fseek(in, offset, SEEK_SET)] with an unsigned 32-bit [offset]: it
    succeeds, also past the end of the file. *)
Definition fseek (f : FILE) (offset : Z) : FILE :=
  {| contents := contents f; position := offset |}.

(** [fread(dst, size, nmemb, in)]: the bytes delivered to [dst], the
    number of complete elements, and the stream afterwards. *)
Definition fread (f : FILE) (size nmemb : nat) : buffer * Z * FILE :=
  let bs := take (size * nmemb) (drop (Z.to_nat (position f)) (contents f)) in
  (bs,
   Z.of_nat (length bs) / Z.of_nat size,
   {| contents := contents f; position := position f + Z.of_nat (length bs) |}).

End Stdio.

(** ** Constants of the headers that are not part of GridMap.cpp *)

(** Modelled from the spec: the world is a 64 x 64 grid of tiles and a tile
    has resolution 128 (GridDefines.h and GridMap.h are not among the
    sources; GridMap.cpp itself hard-codes 129 * 129 and 128 * 128). *)
Definition MAX_NUMBER_OF_GRIDS : Z := 64.
Definition MAP_RESOLUTION : Z := 128.

(** The remaining macros of GridMap.h and GridDefines.h are parameters. *)
Class GridDefines : Type := {
  SIZE_OF_GRIDS : float;
  INVALID_HEIGHT_VALUE : float;
  MAP_AREA_NO_AREA : Z;
  MAP_HEIGHT_NO_HEIGHT : Z;
  MAP_HEIGHT_AS_INT16 : Z;
  MAP_HEIGHT_AS_INT8 : Z;
  MAP_LIQUID_NO_TYPE : Z;
  MAP_LIQUID_NO_HEIGHT : Z;
  MAP_LIQUID_TYPE_DEEP_WATER : Z
}.

(** The values upstream gives them: 533.33333f, -200000.0f and the flag
    bits. *)
Definition upstream_defines : GridDefines := {|
  SIZE_OF_GRIDS := F32.of_bits 0x44055555;
  INVALID_HEIGHT_VALUE := F32.of_int (-200000);
  MAP_AREA_NO_AREA := 0x0001;
  MAP_HEIGHT_NO_HEIGHT := 0x0001;
  MAP_HEIGHT_AS_INT16 := 0x0002;
  MAP_HEIGHT_AS_INT8 := 0x0004;
  MAP_LIQUID_NO_TYPE := 0x0001;
  MAP_LIQUID_NO_HEIGHT := 0x0002;
  MAP_LIQUID_TYPE_DEEP_WATER := 0x10
|}.

(** The value of the four characters of a tag read as a uint32. *)
Definition magic32 (tag : string) : Z :=
  Mem.le_val (take 4 (list_byte_of_string tag)).

Definition MAP_MAGIC : string := "MAPS".
Definition MAP_VERSION_MAGIC : string := "s1.4".
Definition MAP_AREA_MAGIC : string := "AREA".
Definition MAP_HEIGHT_MAGIC : string := "MHGT".
Definition MAP_LIQUID_MAGIC : string := "MLIQ".

Definition holetab_h : list Z := [0x1111; 0x2222; 0x4444; 0x8888].
Definition holetab_v : list Z := [0x000F; 0x00F0; 0x0F00; 0xF000].

(** [!p] for a pointer [p]. *)
Definition is_null {A} (p : option A) : bool :=
  match p with Some _ => false | None => true end.

(** Element [i] of a constant table. *)
Definition table_at (t : list Z) (i : Z) : outcome Z :=
  if i <? 0 then Fault OutOfBounds
  else match t !! Z.to_nat i with
       | Some v => Ret v
       | None => Fault OutOfBounds
       end.

(** ** The tile store *)

(** The member function [m_gridGetHeight] points to. *)
Inductive GetHeightPtr : Type :=
| getHeightFromFlat_ptr
| getHeightFromFloat_ptr
| getHeightFromUint8_ptr
| getHeightFromUint16_ptr.

(** [m_V9] stands for the union of [m_V9], [m_uint16_V9] and [m_uint8_V9],
    [m_V8] likewise; [None] is the null pointer. *)
Record GridMap : Type := {
  m_flags : Z;
  m_gridArea : Z;
  m_area_map : option Mem.buffer;
  m_gridHeight : float;
  m_gridIntHeightMultiplier : float;
  m_gridGetHeight : GetHeightPtr;
  m_V9 : option Mem.buffer;
  m_V8 : option Mem.buffer;
  m_holes : Mem.buffer;
  m_liquidGlobalEntry : Z;
  m_liquidGlobalFlags : Z;
  m_liquid_offX : Z;
  m_liquid_offY : Z;
  m_liquid_width : Z;
  m_liquid_height : Z;
  m_liquidLevel : float;
  m_liquidFlags : option Mem.buffer;
  m_liquidEntry : option Mem.buffer;
  m_liquid_map : option Mem.buffer;
  m_fullyLoaded : bool
}.

(** Assignments to one member: [set_m g v] is [g] after [m = v]. *)
Definition set_m_gridArea (g : GridMap) (v : Z) : GridMap :=
  {| m_flags := m_flags g; m_gridArea := v; m_area_map := m_area_map g;
     m_gridHeight := m_gridHeight g;
     m_gridIntHeightMultiplier := m_gridIntHeightMultiplier g;
     m_gridGetHeight := m_gridGetHeight g; m_V9 := m_V9 g; m_V8 := m_V8 g;
     m_holes := m_holes g; m_liquidGlobalEntry := m_liquidGlobalEntry g;
     m_liquidGlobalFlags := m_liquidGlobalFlags g;
     m_liquid_offX := m_liquid_offX g; m_liquid_offY := m_liquid_offY g;
     m_liquid_width := m_liquid_width g;
     m_liquid_height := m_liquid_height g; m_liquidLevel := m_liquidLevel g;
     m_liquidFlags := m_liquidFlags g; m_liquidEntry := m_liquidEntry g;
     m_liquid_map := m_liquid_map g; m_fullyLoaded := m_fullyLoaded g |}.
Definition set_m_area_map (g : GridMap) (v : option Mem.buffer) : GridMap :=
  {| m_flags := m_flags g; m_gridArea := m_gridArea g; m_area_map := v;
     m_gridHeight := m_gridHeight g;
     m_gridIntHeightMultiplier := m_gridIntHeightMultiplier g;
     m_gridGetHeight := m_gridGetHeight g; m_V9 := m_V9 g; m_V8 := m_V8 g;
     m_holes := m_holes g; m_liquidGlobalEntry := m_liquidGlobalEntry g;
     m_liquidGlobalFlags := m_liquidGlobalFlags g;
     m_liquid_offX := m_liquid_offX g; m_liquid_offY := m_liquid_offY g;
     m_liquid_width := m_liquid_width g;
     m_liquid_height := m_liquid_height g; m_liquidLevel := m_liquidLevel g;
     m_liquidFlags := m_liquidFlags g; m_liquidEntry := m_liquidEntry g;
     m_liquid_map := m_liquid_map g; m_fullyLoaded := m_fullyLoaded g |}.
Definition set_m_gridHeight (g : GridMap) (v : float) : GridMap :=
  {| m_flags := m_flags g; m_gridArea := m_gridArea g;
     m_area_map := m_area_map g; m_gridHeight := v;
     m_gridIntHeightMultiplier := m_gridIntHeightMultiplier g;
     m_gridGetHeight := m_gridGetHeight g; m_V9 := m_V9 g; m_V8 := m_V8 g;
     m_holes := m_holes g; m_liquidGlobalEntry := m_liquidGlobalEntry g;
     m_liquidGlobalFlags := m_liquidGlobalFlags g;
     m_liquid_offX := m_liquid_offX g; m_liquid_offY := m_liquid_offY g;
     m_liquid_width := m_liquid_width g;
     m_liquid_height := m_liquid_height g; m_liquidLevel := m_liquidLevel g;
     m_liquidFlags := m_liquidFlags g; m_liquidEntry := m_liquidEntry g;
     m_liquid_map := m_liquid_map g; m_fullyLoaded := m_fullyLoaded g |}.
Definition set_m_gridIntHeightMultiplier (g : GridMap) (v : float) : GridMap :=
  {| m_flags := m_flags g; m_gridArea := m_gridArea g;
     m_area_map := m_area_map g; m_gridHeight := m_gridHeight g;
     m_gridIntHeightMultiplier := v; m_gridGetHeight := m_gridGetHeight g;
     m_V9 := m_V9 g; m_V8 := m_V8 g; m_holes := m_holes g;
     m_liquidGlobalEntry := m_liquidGlobalEntry g;
     m_liquidGlobalFlags := m_liquidGlobalFlags g;
     m_liquid_offX := m_liquid_offX g; m_liquid_offY := m_liquid_offY g;
     m_liquid_width := m_liquid_width g;
     m_liquid_height := m_liquid_height g; m_liquidLevel := m_liquidLevel g;
     m_liquidFlags := m_liquidFlags g; m_liquidEntry := m_liquidEntry g;
     m_liquid_map := m_liquid_map g; m_fullyLoaded := m_fullyLoaded g |}.
Definition set_m_gridGetHeight (g : GridMap) (v : GetHeightPtr) : GridMap :=
  {| m_flags := m_flags g; m_gridArea := m_gridArea g;
     m_area_map := m_area_map g; m_gridHeight := m_gridHeight g;
     m_gridIntHeightMultiplier := m_gridIntHeightMultiplier g;
     m_gridGetHeight := v; m_V9 := m_V9 g; m_V8 := m_V8 g;
     m_holes := m_holes g; m_liquidGlobalEntry := m_liquidGlobalEntry g;
     m_liquidGlobalFlags := m_liquidGlobalFlags g;
     m_liquid_offX := m_liquid_offX g; m_liquid_offY := m_liquid_offY g;
     m_liquid_width := m_liquid_width g;
     m_liquid_height := m_liquid_height g; m_liquidLevel := m_liquidLevel g;
     m_liquidFlags := m_liquidFlags g; m_liquidEntry := m_liquidEntry g;
     m_liquid_map := m_liquid_map g; m_fullyLoaded := m_fullyLoaded g |}.
Definition set_m_V9 (g : GridMap) (v : option Mem.buffer) : GridMap :=
  {| m_flags := m_flags g; m_gridArea := m_gridArea g;
     m_area_map := m_area_map g; m_gridHeight := m_gridHeight g;
     m_gridIntHeightMultiplier := m_gridIntHeightMultiplier g;
     m_gridGetHeight := m_gridGetHeight g; m_V9 := v; m_V8 := m_V8 g;
     m_holes := m_holes g; m_liquidGlobalEntry := m_liquidGlobalEntry g;
     m_liquidGlobalFlags := m_liquidGlobalFlags g;
     m_liquid_offX := m_liquid_offX g; m_liquid_offY := m_liquid_offY g;
     m_liquid_width := m_liquid_width g;
     m_liquid_height := m_liquid_height g; m_liquidLevel := m_liquidLevel g;
     m_liquidFlags := m_liquidFlags g; m_liquidEntry := m_liquidEntry g;
     m_liquid_map := m_liquid_map g; m_fullyLoaded := m_fullyLoaded g |}.
Definition set_m_V8 (g : GridMap) (v : option Mem.buffer) : GridMap :=
  {| m_flags := m_flags g; m_gridArea := m_gridArea g;
     m_area_map := m_area_map g; m_gridHeight := m_gridHeight g;
     m_gridIntHeightMultiplier := m_gridIntHeightMultiplier g;
     m_gridGetHeight := m_gridGetHeight g; m_V9 := m_V9 g; m_V8 := v;
     m_holes := m_holes g; m_liquidGlobalEntry := m_liquidGlobalEntry g;
     m_liquidGlobalFlags := m_liquidGlobalFlags g;
     m_liquid_offX := m_liquid_offX g; m_liquid_offY := m_liquid_offY g;
     m_liquid_width := m_liquid_width g;
     m_liquid_height := m_liquid_height g; m_liquidLevel := m_liquidLevel g;
     m_liquidFlags := m_liquidFlags g; m_liquidEntry := m_liquidEntry g;
     m_liquid_map := m_liquid_map g; m_fullyLoaded := m_fullyLoaded g |}.
Definition set_m_holes (g : GridMap) (v : Mem.buffer) : GridMap :=
  {| m_flags := m_flags g; m_gridArea := m_gridArea g;
     m_area_map := m_area_map g; m_gridHeight := m_gridHeight g;
     m_gridIntHeightMultiplier := m_gridIntHeightMultiplier g;
     m_gridGetHeight := m_gridGetHeight g; m_V9 := m_V9 g; m_V8 := m_V8 g;
     m_holes := v; m_liquidGlobalEntry := m_liquidGlobalEntry g;
     m_liquidGlobalFlags := m_liquidGlobalFlags g;
     m_liquid_offX := m_liquid_offX g; m_liquid_offY := m_liquid_offY g;
     m_liquid_width := m_liquid_width g;
     m_liquid_height := m_liquid_height g; m_liquidLevel := m_liquidLevel g;
     m_liquidFlags := m_liquidFlags g; m_liquidEntry := m_liquidEntry g;
     m_liquid_map := m_liquid_map g; m_fullyLoaded := m_fullyLoaded g |}.
Definition set_m_liquidGlobalEntry (g : GridMap) (v : Z) : GridMap :=
  {| m_flags := m_flags g; m_gridArea := m_gridArea g;
     m_area_map := m_area_map g; m_gridHeight := m_gridHeight g;
     m_gridIntHeightMultiplier := m_gridIntHeightMultiplier g;
     m_gridGetHeight := m_gridGetHeight g; m_V9 := m_V9 g; m_V8 := m_V8 g;
     m_holes := m_holes g; m_liquidGlobalEntry := v;
     m_liquidGlobalFlags := m_liquidGlobalFlags g;
     m_liquid_offX := m_liquid_offX g; m_liquid_offY := m_liquid_offY g;
     m_liquid_width := m_liquid_width g;
     m_liquid_height := m_liquid_height g; m_liquidLevel := m_liquidLevel g;
     m_liquidFlags := m_liquidFlags g; m_liquidEntry := m_liquidEntry g;
     m_liquid_map := m_liquid_map g; m_fullyLoaded := m_fullyLoaded g |}.
Definition set_m_liquidGlobalFlags (g : GridMap) (v : Z) : GridMap :=
  {| m_flags := m_flags g; m_gridArea := m_gridArea g;
     m_area_map := m_area_map g; m_gridHeight := m_gridHeight g;
     m_gridIntHeightMultiplier := m_gridIntHeightMultiplier g;
     m_gridGetHeight := m_gridGetHeight g; m_V9 := m_V9 g; m_V8 := m_V8 g;
     m_holes := m_holes g; m_liquidGlobalEntry := m_liquidGlobalEntry g;
     m_liquidGlobalFlags := v; m_liquid_offX := m_liquid_offX g;
     m_liquid_offY := m_liquid_offY g; m_liquid_width := m_liquid_width g;
     m_liquid_height := m_liquid_height g; m_liquidLevel := m_liquidLevel g;
     m_liquidFlags := m_liquidFlags g; m_liquidEntry := m_liquidEntry g;
     m_liquid_map := m_liquid_map g; m_fullyLoaded := m_fullyLoaded g |}.
Definition set_m_liquid_offX (g : GridMap) (v : Z) : GridMap :=
  {| m_flags := m_flags g; m_gridArea := m_gridArea g;
     m_area_map := m_area_map g; m_gridHeight := m_gridHeight g;
     m_gridIntHeightMultiplier := m_gridIntHeightMultiplier g;
     m_gridGetHeight := m_gridGetHeight g; m_V9 := m_V9 g; m_V8 := m_V8 g;
     m_holes := m_holes g; m_liquidGlobalEntry := m_liquidGlobalEntry g;
     m_liquidGlobalFlags := m_liquidGlobalFlags g; m_liquid_offX := v;
     m_liquid_offY := m_liquid_offY g; m_liquid_width := m_liquid_width g;
     m_liquid_height := m_liquid_height g; m_liquidLevel := m_liquidLevel g;
     m_liquidFlags := m_liquidFlags g; m_liquidEntry := m_liquidEntry g;
     m_liquid_map := m_liquid_map g; m_fullyLoaded := m_fullyLoaded g |}.
Definition set_m_liquid_offY (g : GridMap) (v : Z) : GridMap :=
  {| m_flags := m_flags g; m_gridArea := m_gridArea g;
     m_area_map := m_area_map g; m_gridHeight := m_gridHeight g;
     m_gridIntHeightMultiplier := m_gridIntHeightMultiplier g;
     m_gridGetHeight := m_gridGetHeight g; m_V9 := m_V9 g; m_V8 := m_V8 g;
     m_holes := m_holes g; m_liquidGlobalEntry := m_liquidGlobalEntry g;
     m_liquidGlobalFlags := m_liquidGlobalFlags g;
     m_liquid_offX := m_liquid_offX g; m_liquid_offY := v;
     m_liquid_width := m_liquid_width g;
     m_liquid_height := m_liquid_height g; m_liquidLevel := m_liquidLevel g;
     m_liquidFlags := m_liquidFlags g; m_liquidEntry := m_liquidEntry g;
     m_liquid_map := m_liquid_map g; m_fullyLoaded := m_fullyLoaded g |}.
Definition set_m_liquid_width (g : GridMap) (v : Z) : GridMap :=
  {| m_flags := m_flags g; m_gridArea := m_gridArea g;
     m_area_map := m_area_map g; m_gridHeight := m_gridHeight g;
     m_gridIntHeightMultiplier := m_gridIntHeightMultiplier g;
     m_gridGetHeight := m_gridGetHeight g; m_V9 := m_V9 g; m_V8 := m_V8 g;
     m_holes := m_holes g; m_liquidGlobalEntry := m_liquidGlobalEntry g;
     m_liquidGlobalFlags := m_liquidGlobalFlags g;
     m_liquid_offX := m_liquid_offX g; m_liquid_offY := m_liquid_offY g;
     m_liquid_width := v; m_liquid_height := m_liquid_height g;
     m_liquidLevel := m_liquidLevel g; m_liquidFlags := m_liquidFlags g;
     m_liquidEntry := m_liquidEntry g; m_liquid_map := m_liquid_map g;
     m_fullyLoaded := m_fullyLoaded g |}.
Definition set_m_liquid_height (g : GridMap) (v : Z) : GridMap :=
  {| m_flags := m_flags g; m_gridArea := m_gridArea g;
     m_area_map := m_area_map g; m_gridHeight := m_gridHeight g;
     m_gridIntHeightMultiplier := m_gridIntHeightMultiplier g;
     m_gridGetHeight := m_gridGetHeight g; m_V9 := m_V9 g; m_V8 := m_V8 g;
     m_holes := m_holes g; m_liquidGlobalEntry := m_liquidGlobalEntry g;
     m_liquidGlobalFlags := m_liquidGlobalFlags g;
     m_liquid_offX := m_liquid_offX g; m_liquid_offY := m_liquid_offY g;
     m_liquid_width := m_liquid_width g; m_liquid_height := v;
     m_liquidLevel := m_liquidLevel g; m_liquidFlags := m_liquidFlags g;
     m_liquidEntry := m_liquidEntry g; m_liquid_map := m_liquid_map g;
     m_fullyLoaded := m_fullyLoaded g |}.
Definition set_m_liquidLevel (g : GridMap) (v : float) : GridMap :=
  {| m_flags := m_flags g; m_gridArea := m_gridArea g;
     m_area_map := m_area_map g; m_gridHeight := m_gridHeight g;
     m_gridIntHeightMultiplier := m_gridIntHeightMultiplier g;
     m_gridGetHeight := m_gridGetHeight g; m_V9 := m_V9 g; m_V8 := m_V8 g;
     m_holes := m_holes g; m_liquidGlobalEntry := m_liquidGlobalEntry g;
     m_liquidGlobalFlags := m_liquidGlobalFlags g;
     m_liquid_offX := m_liquid_offX g; m_liquid_offY := m_liquid_offY g;
     m_liquid_width := m_liquid_width g;
     m_liquid_height := m_liquid_height g; m_liquidLevel := v;
     m_liquidFlags := m_liquidFlags g; m_liquidEntry := m_liquidEntry g;
     m_liquid_map := m_liquid_map g; m_fullyLoaded := m_fullyLoaded g |}.
Definition set_m_liquidFlags (g : GridMap) (v : option Mem.buffer) : GridMap :=
  {| m_flags := m_flags g; m_gridArea := m_gridArea g;
     m_area_map := m_area_map g; m_gridHeight := m_gridHeight g;
     m_gridIntHeightMultiplier := m_gridIntHeightMultiplier g;
     m_gridGetHeight := m_gridGetHeight g; m_V9 := m_V9 g; m_V8 := m_V8 g;
     m_holes := m_holes g; m_liquidGlobalEntry := m_liquidGlobalEntry g;
     m_liquidGlobalFlags := m_liquidGlobalFlags g;
     m_liquid_offX := m_liquid_offX g; m_liquid_offY := m_liquid_offY g;
     m_liquid_width := m_liquid_width g;
     m_liquid_height := m_liquid_height g; m_liquidLevel := m_liquidLevel g;
     m_liquidFlags := v; m_liquidEntry := m_liquidEntry g;
     m_liquid_map := m_liquid_map g; m_fullyLoaded := m_fullyLoaded g |}.
Definition set_m_liquidEntry (g : GridMap) (v : option Mem.buffer) : GridMap :=
  {| m_flags := m_flags g; m_gridArea := m_gridArea g;
     m_area_map := m_area_map g; m_gridHeight := m_gridHeight g;
     m_gridIntHeightMultiplier := m_gridIntHeightMultiplier g;
     m_gridGetHeight := m_gridGetHeight g; m_V9 := m_V9 g; m_V8 := m_V8 g;
     m_holes := m_holes g; m_liquidGlobalEntry := m_liquidGlobalEntry g;
     m_liquidGlobalFlags := m_liquidGlobalFlags g;
     m_liquid_offX := m_liquid_offX g; m_liquid_offY := m_liquid_offY g;
     m_liquid_width := m_liquid_width g;
     m_liquid_height := m_liquid_height g; m_liquidLevel := m_liquidLevel g;
     m_liquidFlags := m_liquidFlags g; m_liquidEntry := v;
     m_liquid_map := m_liquid_map g; m_fullyLoaded := m_fullyLoaded g |}.
Definition set_m_liquid_map (g : GridMap) (v : option Mem.buffer) : GridMap :=
  {| m_flags := m_flags g; m_gridArea := m_gridArea g;
     m_area_map := m_area_map g; m_gridHeight := m_gridHeight g;
     m_gridIntHeightMultiplier := m_gridIntHeightMultiplier g;
     m_gridGetHeight := m_gridGetHeight g; m_V9 := m_V9 g; m_V8 := m_V8 g;
     m_holes := m_holes g; m_liquidGlobalEntry := m_liquidGlobalEntry g;
     m_liquidGlobalFlags := m_liquidGlobalFlags g;
     m_liquid_offX := m_liquid_offX g; m_liquid_offY := m_liquid_offY g;
     m_liquid_width := m_liquid_width g;
     m_liquid_height := m_liquid_height g; m_liquidLevel := m_liquidLevel g;
     m_liquidFlags := m_liquidFlags g; m_liquidEntry := m_liquidEntry g;
     m_liquid_map := v; m_fullyLoaded := m_fullyLoaded g |}.
Definition set_m_fullyLoaded (g : GridMap) (v : bool) : GridMap :=
  {| m_flags := m_flags g; m_gridArea := m_gridArea g;
     m_area_map := m_area_map g; m_gridHeight := m_gridHeight g;
     m_gridIntHeightMultiplier := m_gridIntHeightMultiplier g;
     m_gridGetHeight := m_gridGetHeight g; m_V9 := m_V9 g; m_V8 := m_V8 g;
     m_holes := m_holes g; m_liquidGlobalEntry := m_liquidGlobalEntry g;
     m_liquidGlobalFlags := m_liquidGlobalFlags g;
     m_liquid_offX := m_liquid_offX g; m_liquid_offY := m_liquid_offY g;
     m_liquid_width := m_liquid_width g;
     m_liquid_height := m_liquid_height g; m_liquidLevel := m_liquidLevel g;
     m_liquidFlags := m_liquidFlags g; m_liquidEntry := m_liquidEntry g;
     m_liquid_map := m_liquid_map g; m_fullyLoaded := v |}.

(** ** Loading a tile file *)

Section Loader.
Context `{GridDefines}.
Import Mem Stdio.

(** Size of the hole table [uint16 m_holes[16][16]] in bytes. *)
Definition sizeof_holes : nat := 512.

(** [GridMap::GridMap()] *)
Definition GridMap_new : GridMap := {|
  m_flags := 0;
  m_gridArea := 0;
  m_area_map := None;
  m_gridHeight := INVALID_HEIGHT_VALUE;
  m_gridIntHeightMultiplier := F32.of_int 0;
  m_gridGetHeight := getHeightFromFlat_ptr;
  m_V9 := None;
  m_V8 := None;
  m_holes := replicate sizeof_holes Byte.x00;
  m_liquidGlobalEntry := 0;
  m_liquidGlobalFlags := 0;
  m_liquid_offX := 0;
  m_liquid_offY := 0;
  m_liquid_width := 0;
  m_liquid_height := 0;
  m_liquidLevel := INVALID_HEIGHT_VALUE;
  m_liquidFlags := None;
  m_liquidEntry := None;
  m_liquid_map := None;
  m_fullyLoaded := false
|}.

(** [GridMap::unloadData] *)
Definition unloadData (g : GridMap) : GridMap :=
  let g := set_m_area_map g None in
  let g := set_m_V9 g None in
  let g := set_m_V8 g None in
  let g := set_m_liquidEntry g None in
  let g := set_m_liquidFlags g None in
  let g := set_m_liquid_map g None in
  set_m_gridGetHeight g getHeightFromFlat_ptr.

(** Modelled from the spec: the layout of the headers (GridMap.h is not
    among the sources). The root header is the ten uint32 of the spec's
    external interface, in that order; every sub-block header starts with
    its 4-byte tag, followed by the fields the loader reads, in upstream's
    declaration order. *)
Definition sizeof_GridMapFileHeader : nat := 40.
Definition sizeof_GridMapAreaHeader : nat := 8.
Definition sizeof_GridMapHeightHeader : nat := 16.
Definition sizeof_GridMapLiquidHeader : nat := 16.

(** [GridMap::loadAreaData] *)
Definition loadAreaData (in_ : FILE) (offset : Z) (g : GridMap)
  : outcome (bool * GridMap * FILE) :=
  let in_ := fseek in_ offset in
  let '(header, _, in_) := fread in_ sizeof_GridMapAreaHeader 1 in
  fourcc ← field header 0 4;
  if negb (fourcc =? magic32 MAP_AREA_MAGIC) then Ret (false, g, in_)
  else
    gridArea ← field header 6 2;
    let g := set_m_gridArea g gridArea in
    flags ← field header 4 2;
    if Z.land flags MAP_AREA_NO_AREA =? 0 then
      let '(area_map, _, in_) := fread in_ 2 (16 * 16) in
      Ret (true, set_m_area_map g (Some area_map), in_)
    else Ret (true, g, in_).

(** [GridMap::loadHeightData] *)
Definition loadHeightData (in_ : FILE) (offset : Z) (g : GridMap)
  : outcome (bool * GridMap * FILE) :=
  let in_ := fseek in_ offset in
  let '(header, _, in_) := fread in_ sizeof_GridMapHeightHeader 1 in
  fourcc ← field header 0 4;
  if negb (fourcc =? magic32 MAP_HEIGHT_MAGIC) then Ret (false, g, in_)
  else
    gridHeight ← field_f32 header 8;
    let g := set_m_gridHeight g gridHeight in
    flags ← field header 4 4;
    if Z.land flags MAP_HEIGHT_NO_HEIGHT =? 0 then
      if negb (Z.land flags MAP_HEIGHT_AS_INT16 =? 0) then
        let '(v9, _, in_) := fread in_ 2 (129 * 129) in
        let '(v8, _, in_) := fread in_ 2 (128 * 128) in
        let g := set_m_V9 g (Some v9) in
        let g := set_m_V8 g (Some v8) in
        gridMaxHeight ← field_f32 header 12;
        let g := set_m_gridIntHeightMultiplier g
                   ((gridMaxHeight - gridHeight) / F32.of_int 65535)%f32 in
        Ret (true, set_m_gridGetHeight g getHeightFromUint16_ptr, in_)
      else if negb (Z.land flags MAP_HEIGHT_AS_INT8 =? 0) then
        let '(v9, _, in_) := fread in_ 1 (129 * 129) in
        let '(v8, _, in_) := fread in_ 1 (128 * 128) in
        let g := set_m_V9 g (Some v9) in
        let g := set_m_V8 g (Some v8) in
        gridMaxHeight ← field_f32 header 12;
        let g := set_m_gridIntHeightMultiplier g
                   ((gridMaxHeight - gridHeight) / F32.of_int 255)%f32 in
        Ret (true, set_m_gridGetHeight g getHeightFromUint8_ptr, in_)
      else
        let '(v9, _, in_) := fread in_ 4 (129 * 129) in
        let '(v8, _, in_) := fread in_ 4 (128 * 128) in
        let g := set_m_V9 g (Some v9) in
        let g := set_m_V8 g (Some v8) in
        Ret (true, set_m_gridGetHeight g getHeightFromFloat_ptr, in_)
    else Ret (true, set_m_gridGetHeight g getHeightFromFlat_ptr, in_).

(** [GridMap::loadHolesData]. The bytes that were read overwrite the
    start of the table also when the read is short. *)
Definition loadHolesData (in_ : FILE) (offset : Z) (g : GridMap)
  : outcome (bool * GridMap * FILE) :=
  let in_ := fseek in_ offset in
  let '(bs, n, in_) := fread in_ sizeof_holes 1 in
  let g := set_m_holes g (bs ++ drop (length bs) (m_holes g)) in
  if negb (n =? 1) then Ret (false, g, in_)
  else Ret (true, g, in_).

(** [GridMap::loadGridMapLiquidData] *)
Definition loadGridMapLiquidData (in_ : FILE) (offset : Z) (g : GridMap)
  : outcome (bool * GridMap * FILE) :=
  let in_ := fseek in_ offset in
  let '(header, _, in_) := fread in_ sizeof_GridMapLiquidHeader 1 in
  fourcc ← field header 0 4;
  if negb (fourcc =? magic32 MAP_LIQUID_MAGIC) then Ret (false, g, in_)
  else
    liquidType ← field header 6 2;
    let g := set_m_liquidGlobalEntry g liquidType in
    liquidFlags ← field header 5 1;
    let g := set_m_liquidGlobalFlags g liquidFlags in
    offsetX ← field header 8 1;
    let g := set_m_liquid_offX g offsetX in
    offsetY ← field header 9 1;
    let g := set_m_liquid_offY g offsetY in
    width ← field header 10 1;
    let g := set_m_liquid_width g width in
    height ← field header 11 1;
    let g := set_m_liquid_height g height in
    liquidLevel ← field_f32 header 12;
    let g := set_m_liquidLevel g liquidLevel in
    flags ← field header 4 1;
    '(g, in_) ←
      (if Z.land flags MAP_LIQUID_NO_TYPE =? 0 then
         let '(liquidEntry, _, in_) := fread in_ 2 (16 * 16) in
         let g := set_m_liquidEntry g (Some liquidEntry) in
         let '(liquidFlags, _, in_) := fread in_ 1 (16 * 16) in
         Ret (set_m_liquidFlags g (Some liquidFlags), in_)
       else Ret (g, in_));
    if Z.land flags MAP_LIQUID_NO_HEIGHT =? 0 then
      let '(liquid_map, _, in_) :=
        fread in_ 4 (Z.to_nat (m_liquid_width g * m_liquid_height g)) in
      Ret (true, set_m_liquid_map g (Some liquid_map), in_)
    else Ret (true, g, in_).

(** One [if (header.xOffset && !loadX(in, header.xOffset, header.xSize))]
    of [loadData]: the block is skipped when its offset is 0; its size is
    evaluated as an argument when it is not. *)
Definition load_section
    (load : FILE -> Z -> GridMap -> outcome (bool * GridMap * FILE))
    (header : buffer) (field_offset : Z) (in_ : FILE) (g : GridMap)
  : outcome (bool * GridMap * FILE) :=
  offset ← field header field_offset 4;
  if offset =? 0 then Ret (true, g, in_)
  else
    _ ← field header (field_offset + 4) 4;
    load in_ offset g.

(** [GridMap::loadData] *)
Definition loadData (fs : filesystem) (filename : string) (g : GridMap)
  : outcome (bool * GridMap) :=
  let g := unloadData g in
  match fopen fs filename with
  | None => Ret (true, g)
  | Some in_ =>
      let '(header, _, in_) := fread in_ sizeof_GridMapFileHeader 1 in
      mapMagic ← field header 0 4;
      if negb (mapMagic =? magic32 MAP_MAGIC) then Ret (false, g)
      else
        versionMagic ← field header 4 4;
        if negb (versionMagic =? magic32 MAP_VERSION_MAGIC) then Ret (false, g)
        else
          '(ok, g, in_) ← load_section loadAreaData header 8 in_ g;
          if negb ok then Ret (false, g)
          else
            '(ok, g, in_) ← load_section loadHolesData header 32 in_ g;
            if negb ok then Ret (false, g)
            else
              '(ok, g, in_) ← load_section loadHeightData header 16 in_ g;
              if negb ok then Ret (false, g)
              else
                '(ok, g, in_) ← load_section loadGridMapLiquidData header 24 in_ g;
                if negb ok then Ret (false, g)
                else Ret (true, g)
  end.

End Loader.

(** ** Client database tables used by the liquid query *)

(** The members of [LiquidTypeEntry] and [AreaTableEntry] that GridMap.cpp
    reads ([Type_] is the member [Type]). *)
Record LiquidTypeEntry : Type := { Id : Z; Type_ : Z }.
Record AreaTableEntry : Type := { zone : Z; LiquidTypeOverride : list Z }.

(** [sLiquidTypeStore.LookupEntry], [sAreaStore.LookupEntry] and
    [GetAreaEntryByAreaID]; [None] is the null pointer. *)
Class DBCStores : Type := {
  sLiquidTypeStore_LookupEntry : Z -> option LiquidTypeEntry;
  sAreaStore_LookupEntry : Z -> option AreaTableEntry;
  GetAreaEntryByAreaID : Z -> option AreaTableEntry
}.

Inductive GridMapLiquidStatus : Type :=
| LIQUID_MAP_NO_WATER
| LIQUID_MAP_ABOVE_WATER
| LIQUID_MAP_WATER_WALK
| LIQUID_MAP_IN_WATER
| LIQUID_MAP_UNDER_WATER.

Record GridMapLiquidData : Type := {
  entry : Z;
  type_flags : Z;
  level : float;
  depth_level : float
}.

(** ** Queries on one tile *)

Section Queries.
Context `{GridDefines} `{DBCStores}.
Import Mem.

(** [res * (32 - x / SIZE_OF_GRIDS)] *)
Definition cell_coord (res : Z) (x : float) : float :=
  (F32.of_int res * (F32.of_int 32 - x / SIZE_OF_GRIDS))%f32.

(** [GridMap::getArea] *)
Definition getArea (g : GridMap) (x y : float) : outcome Z :=
  match m_area_map g with
  | None => Ret (m_gridArea g)
  | Some area_map =>
      let x := cell_coord 16 x in
      let y := cell_coord 16 y in
      xi ← F32.to_int x;
      let lx := Z.land xi 15 in
      yi ← F32.to_int y;
      let ly := Z.land yi 15 in
      read_u16 area_map (lx * 16 + ly)
  end.

(** [GridMap::getHeightFromFlat] *)
Definition getHeightFromFlat (g : GridMap) (x y : float) : outcome float :=
  Ret (m_gridHeight g).

(** [GridMap::isHole] *)
Definition isHole (g : GridMap) (row col : Z) : outcome bool :=
  let cellRow := Z.quot row 8 in
  let cellCol := Z.quot col 8 in
  let holeRow := Z.quot (Z.rem row 8) 2 in
  let holeCol := Z.quot (col - cellCol * 8) 2 in
  hole ← (if (0 <=? cellRow) && (cellRow <? 16) && (0 <=? cellCol) && (cellCol <? 16)
          then read_u16 (m_holes g) (cellRow * 16 + cellCol)
          else Fault OutOfBounds);
  h ← table_at holetab_h holeCol;
  v ← table_at holetab_v holeRow;
  Ret (negb (Z.land (Z.land hole h) v =? 0)).

(** [GridMap::getHeightFromFloat] *)
Definition getHeightFromFloat (g : GridMap) (x y : float) : outcome float :=
  match m_V8 g, m_V9 g with
  | Some v8, Some v9 =>
      let x := cell_coord MAP_RESOLUTION x in
      let y := cell_coord MAP_RESOLUTION y in
      x_int ← F32.to_int x;
      y_int ← F32.to_int y;
      let x := (x - F32.of_int x_int)%f32 in
      let y := (y - F32.of_int y_int)%f32 in
      let x_int := Z.land x_int (MAP_RESOLUTION - 1) in
      let y_int := Z.land y_int (MAP_RESOLUTION - 1) in
      hole ← isHole g x_int y_int;
      if (hole : bool) then Ret INVALID_HEIGHT_VALUE
      else
        '(a, b, c) ←
          (if (x + y <? F32.of_int 1)%f32 then
             if (x >? y)%f32 then
               h1 ← read_f32 v9 (x_int * 129 + y_int);
               h2 ← read_f32 v9 ((x_int + 1) * 129 + y_int);
               v ← read_f32 v8 (x_int * 128 + y_int);
               let h5 := (F32.of_int 2 * v)%f32 in
               Ret ((h2 - h1)%f32, (h5 - h1 - h2)%f32, h1)
             else
               h1 ← read_f32 v9 (x_int * 129 + y_int);
               h3 ← read_f32 v9 (x_int * 129 + y_int + 1);
               v ← read_f32 v8 (x_int * 128 + y_int);
               let h5 := (F32.of_int 2 * v)%f32 in
               Ret ((h5 - h1 - h3)%f32, (h3 - h1)%f32, h1)
           else
             if (x >? y)%f32 then
               h2 ← read_f32 v9 ((x_int + 1) * 129 + y_int);
               h4 ← read_f32 v9 ((x_int + 1) * 129 + y_int + 1);
               v ← read_f32 v8 (x_int * 128 + y_int);
               let h5 := (F32.of_int 2 * v)%f32 in
               Ret ((h2 + h4 - h5)%f32, (h4 - h2)%f32, (h5 - h4)%f32)
             else
               h3 ← read_f32 v9 (x_int * 129 + y_int + 1);
               h4 ← read_f32 v9 ((x_int + 1) * 129 + y_int + 1);
               v ← read_f32 v8 (x_int * 128 + y_int);
               let h5 := (F32.of_int 2 * v)%f32 in
               Ret ((h4 - h3)%f32, (h3 + h4 - h5)%f32, (h5 - h4)%f32));
        Ret (a * x + b * y + c)%f32
  | _, _ => Ret INVALID_HEIGHT_VALUE
  end.

(** The body shared by [GridMap::getHeightFromUint8] and
    [GridMap::getHeightFromUint16], which differ in the element type
    only: [read] fetches one sample. *)
Definition getHeightFromUint (read : buffer -> Z -> outcome Z)
    (g : GridMap) (x y : float) : outcome float :=
  match m_V8 g, m_V9 g with
  | Some v8, Some v9 =>
      let x := cell_coord MAP_RESOLUTION x in
      let y := cell_coord MAP_RESOLUTION y in
      x_int ← F32.to_int x;
      y_int ← F32.to_int y;
      let x := (x - F32.of_int x_int)%f32 in
      let y := (y - F32.of_int y_int)%f32 in
      let x_int := Z.land x_int (MAP_RESOLUTION - 1) in
      let y_int := Z.land y_int (MAP_RESOLUTION - 1) in
      let V9_h1 := x_int * 128 + x_int + y_int in
      '(a, b, c) ←
        (if (x + y <? F32.of_int 1)%f32 then
           if (x >? y)%f32 then
             h1 ← read v9 (V9_h1 + 0);
             h2 ← read v9 (V9_h1 + 129);
             v ← read v8 (x_int * 128 + y_int);
             let h5 := 2 * v in
             Ret (h2 - h1, h5 - h1 - h2, h1)
           else
             h1 ← read v9 (V9_h1 + 0);
             h3 ← read v9 (V9_h1 + 1);
             v ← read v8 (x_int * 128 + y_int);
             let h5 := 2 * v in
             Ret (h5 - h1 - h3, h3 - h1, h1)
         else
           if (x >? y)%f32 then
             h2 ← read v9 (V9_h1 + 129);
             h4 ← read v9 (V9_h1 + 130);
             v ← read v8 (x_int * 128 + y_int);
             let h5 := 2 * v in
             Ret (h2 + h4 - h5, h4 - h2, h5 - h4)
           else
             h3 ← read v9 (V9_h1 + 1);
             h4 ← read v9 (V9_h1 + 130);
             v ← read v8 (x_int * 128 + y_int);
             let h5 := 2 * v in
             Ret (h4 - h3, h3 + h4 - h5, h5 - h4));
      Ret ((F32.of_int a * x + F32.of_int b * y + F32.of_int c)
           * m_gridIntHeightMultiplier g + m_gridHeight g)%f32
  | _, _ => Ret (m_gridHeight g)
  end.

(** [GridMap::getHeightFromUint8] *)
Definition getHeightFromUint8 : GridMap -> float -> float -> outcome float :=
  getHeightFromUint read_u8.

(** [GridMap::getHeightFromUint16] *)
Definition getHeightFromUint16 : GridMap -> float -> float -> outcome float :=
  getHeightFromUint read_u16.

(** [GridMap::getHeight]: the call through [m_gridGetHeight]. *)
Definition getHeight (g : GridMap) (x y : float) : outcome float :=
  match m_gridGetHeight g with
  | getHeightFromFlat_ptr => getHeightFromFlat g x y
  | getHeightFromFloat_ptr => getHeightFromFloat g x y
  | getHeightFromUint8_ptr => getHeightFromUint8 g x y
  | getHeightFromUint16_ptr => getHeightFromUint16 g x y
  end.

(** [GridMap::getTerrainType] *)
Definition getTerrainType (g : GridMap) (x y : float) : outcome Z :=
  match m_liquidFlags g with
  | None => Ret (m_liquidGlobalFlags g mod 256)
  | Some liquidFlags =>
      let x := cell_coord 16 x in
      let y := cell_coord 16 y in
      xi ← F32.to_int x;
      let lx := Z.land xi 15 in
      yi ← F32.to_int y;
      let ly := Z.land yi 15 in
      read_u8 liquidFlags (lx * 16 + ly)
  end.

(** [1 << n] on a 32-bit int. *)
Definition shl1 (n : Z) : outcome Z :=
  if (0 <=? n) && (n <? 32) then Ret (Z.shiftl 1 n) else Fault UndefinedShift.

(** [area->LiquidTypeOverride[entry - 1]] with a uint32 [entry]. *)
Definition override_at (area : AreaTableEntry) (entry : Z) : outcome Z :=
  table_at (LiquidTypeOverride area) ((entry - 1) mod 2 ^ 32).

(** The block of [GridMap::getLiquidStatus] guarded by
    [sLiquidTypeStore.LookupEntry(entry)]: the liquid entry and type
    flags after the area override. *)
Definition resolve_liquid (g : GridMap) (x y : float) (type entry : Z)
  : outcome (Z * Z) :=
  match sLiquidTypeStore_LookupEntry entry with
  | Some liquidEntry =>
      let entry := Id liquidEntry in
      let type := Z.land type MAP_LIQUID_TYPE_DEEP_WATER in
      let liqTypeIdx := Type_ liquidEntry in
      '(entry, liqTypeIdx) ←
        (if entry <? 21 then
           areaId ← getArea g x y;
           match sAreaStore_LookupEntry areaId with
           | Some area =>
               overrideLiquid ← override_at area entry;
               overrideLiquid ←
                 (if (overrideLiquid =? 0) && negb (zone area =? 0) then
                    match GetAreaEntryByAreaID (zone area) with
                    | Some area => override_at area entry
                    | None => Ret overrideLiquid
                    end
                  else Ret overrideLiquid);
               match sLiquidTypeStore_LookupEntry overrideLiquid with
               | Some liq => Ret (overrideLiquid, Type_ liq)
               | None => Ret (entry, liqTypeIdx)
               end
           | None => Ret (entry, liqTypeIdx)
           end
         else Ret (entry, liqTypeIdx));
      bit ← shl1 liqTypeIdx;
      Ret (entry,
           Z.lor type (Z.lor bit (Z.land type MAP_LIQUID_TYPE_DEEP_WATER)) mod 256)
  | None => Ret (entry, type)
  end.

(** [GridMap::getLiquidStatus]. The second component of the result is
    what the call stores through a non-null [data]: [None] when it does
    not write to it. *)
Definition getLiquidStatus (g : GridMap) (x y z : float) (ReqLiquidType : Z)
    (collisionHeight : float)
  : outcome (GridMapLiquidStatus * option GridMapLiquidData) :=
  if is_null (m_liquidFlags g) && (m_liquidGlobalFlags g =? 0)
  then Ret (LIQUID_MAP_NO_WATER, None)
  else
    let cx := cell_coord MAP_RESOLUTION x in
    let cy := cell_coord MAP_RESOLUTION y in
    xi ← F32.to_int cx;
    let x_int := Z.land xi (MAP_RESOLUTION - 1) in
    yi ← F32.to_int cy;
    let y_int := Z.land yi (MAP_RESOLUTION - 1) in
    let idx := Z.shiftr x_int 3 * 16 + Z.shiftr y_int 3 in
    type ← match m_liquidFlags g with
           | Some liquidFlags => read_u8 liquidFlags idx
           | None => Ret (m_liquidGlobalFlags g)
           end;
    entry ← match m_liquidEntry g with
            | Some liquidEntry => read_u16 liquidEntry idx
            | None => Ret (m_liquidGlobalEntry g)
            end;
    '(entry, type) ← resolve_liquid g x y type entry;
    if type =? 0 then Ret (LIQUID_MAP_NO_WATER, None)
    else if negb (ReqLiquidType =? 0) && (Z.land ReqLiquidType type =? 0)
    then Ret (LIQUID_MAP_NO_WATER, None)
    else
      let lx_int := x_int - m_liquid_offY g in
      if (lx_int <? 0) || (m_liquid_height g <=? lx_int)
      then Ret (LIQUID_MAP_NO_WATER, None)
      else
        let ly_int := y_int - m_liquid_offX g in
        if (ly_int <? 0) || (m_liquid_width g <=? ly_int)
        then Ret (LIQUID_MAP_NO_WATER, None)
        else
          liquid_level ← match m_liquid_map g with
                         | Some liquid_map =>
                             read_f32 liquid_map (lx_int * m_liquid_width g + ly_int)
                         | None => Ret (m_liquidLevel g)
                         end;
          ground_level ← getHeight g x y;
          if (liquid_level <? ground_level)%f32
             || (z <? ground_level - F32.of_int 2)%f32
          then Ret (LIQUID_MAP_NO_WATER, None)
          else
            let data := {| entry := entry; type_flags := type;
                           level := liquid_level; depth_level := ground_level |} in
            let delta := (liquid_level - z)%f32 in
            if (delta >? collisionHeight)%f32 then Ret (LIQUID_MAP_UNDER_WATER, Some data)
            else if (delta >? F32.of_int 0)%f32 then Ret (LIQUID_MAP_IN_WATER, Some data)
            else if (delta >? F32.of_int (-1))%f32 then Ret (LIQUID_MAP_WATER_WALK, Some data)
            else Ret (LIQUID_MAP_ABOVE_WATER, Some data).

End Queries.

(** ** External collaborators of the tile cache *)

Inductive VMAPLoadResult : Type :=
| VMAP_LOAD_RESULT_OK
| VMAP_LOAD_RESULT_ERROR
| VMAP_LOAD_RESULT_IGNORED.

(** [VMAP::IVMapManager], as far as the cache uses it, over the state [V]
    of the collision-mesh provider. *)
Class IVMapManager (V : Type) : Type := {
  IsTileLoaded : V -> Z -> Z -> Z -> bool;
  VMAP_loadMap : V -> string -> Z -> Z -> Z -> VMAPLoadResult * V;
  VMAP_unloadMap : V -> Z -> Z -> Z -> V
}.

(** [MMAP::MMapManager] over the state [M] of the navmesh provider. *)
Class MMapManager (M : Type) : Type := {
  IsMMapIsLoaded : M -> Z -> Z -> Z -> bool;
  MMAP_loadMap : M -> Z -> Z -> Z -> bool * M;
  MMAP_unloadMap : M -> Z -> Z -> Z -> M
}.

(** [IntervalTimer] (Timer.h), as far as the cache uses it. *)
Class IntervalTimer (T : Type) : Type := {
  SetInterval : T -> Z -> T;
  SetCurrent : T -> Z -> T;
  Update : T -> Z -> T;
  Passed : T -> bool;
  Reset : T -> T
}.

(** ** The tile cache of one map *)

Record TerrainInfo (V M T : Type) : Type := {
  m_mapId : Z;
  m_GridMaps : gmap (Z * Z) GridMap;
  m_GridRef : gmap (Z * Z) Z;
  m_GridMapsLoadAttempted : gset (Z * Z);
  i_timer : T;
  m_vmgr : V;
  m_mmgr : M
}.
Arguments m_mapId {V M T} _.
Arguments m_GridMaps {V M T} _.
Arguments m_GridRef {V M T} _.
Arguments m_GridMapsLoadAttempted {V M T} _.
Arguments i_timer {V M T} _.
Arguments m_vmgr {V M T} _.
Arguments m_mmgr {V M T} _.

(** The value of an int as int16. *)
Definition wrap16 (z : Z) : Z := (z + 2 ^ 15) mod 2 ^ 16 - 2 ^ 15.

Section Cache.
Context {V M T : Type} `{IVMapManager V} `{MMapManager M} `{IntervalTimer T}.
Context `{GridDefines}.
(** [sWorld.GetDataPath()] and the files under it. *)
Variable dataPath : string.
Variable fs : Stdio.filesystem.

Abbreviation TerrainInfo := (TerrainInfo V M T).

Definition set_m_GridMaps (s : TerrainInfo) (v : gmap (Z * Z) GridMap) : TerrainInfo :=
  {| m_mapId := m_mapId s; m_GridMaps := v; m_GridRef := m_GridRef s;
     m_GridMapsLoadAttempted := m_GridMapsLoadAttempted s;
     i_timer := i_timer s; m_vmgr := m_vmgr s; m_mmgr := m_mmgr s |}.
Definition set_m_GridRef (s : TerrainInfo) (v : gmap (Z * Z) Z) : TerrainInfo :=
  {| m_mapId := m_mapId s; m_GridMaps := m_GridMaps s; m_GridRef := v;
     m_GridMapsLoadAttempted := m_GridMapsLoadAttempted s;
     i_timer := i_timer s; m_vmgr := m_vmgr s; m_mmgr := m_mmgr s |}.
Definition set_m_GridMapsLoadAttempted (s : TerrainInfo) (v : gset (Z * Z)) : TerrainInfo :=
  {| m_mapId := m_mapId s; m_GridMaps := m_GridMaps s; m_GridRef := m_GridRef s;
     m_GridMapsLoadAttempted := v;
     i_timer := i_timer s; m_vmgr := m_vmgr s; m_mmgr := m_mmgr s |}.
Definition set_i_timer (s : TerrainInfo) (v : T) : TerrainInfo :=
  {| m_mapId := m_mapId s; m_GridMaps := m_GridMaps s; m_GridRef := m_GridRef s;
     m_GridMapsLoadAttempted := m_GridMapsLoadAttempted s;
     i_timer := v; m_vmgr := m_vmgr s; m_mmgr := m_mmgr s |}.
Definition set_m_vmgr (s : TerrainInfo) (v : V) : TerrainInfo :=
  {| m_mapId := m_mapId s; m_GridMaps := m_GridMaps s; m_GridRef := m_GridRef s;
     m_GridMapsLoadAttempted := m_GridMapsLoadAttempted s;
     i_timer := i_timer s; m_vmgr := v; m_mmgr := m_mmgr s |}.
Definition set_m_mmgr (s : TerrainInfo) (v : M) : TerrainInfo :=
  {| m_mapId := m_mapId s; m_GridMaps := m_GridMaps s; m_GridRef := m_GridRef s;
     m_GridMapsLoadAttempted := m_GridMapsLoadAttempted s;
     i_timer := i_timer s; m_vmgr := m_vmgr s; m_mmgr := v |}.

(** Whether [a[x][y]] names an element of an array
    [a[MAX_NUMBER_OF_GRIDS][MAX_NUMBER_OF_GRIDS]]. *)
Definition in_grid (x y : Z) : bool :=
  (0 <=? x) && (x <? MAX_NUMBER_OF_GRIDS) && (0 <=? y) && (y <? MAX_NUMBER_OF_GRIDS).

(** The address computation of [a[x][y]]. *)
Definition at_grid (x y : Z) : outcome (Z * Z) :=
  if in_grid x y then Ret (x, y) else Fault OutOfBounds.

(** [m_GridRef[x][y]] and [m_GridMapsLoadAttempted[x][y]] of a slot. *)
Definition GridRef (s : TerrainInfo) (k : Z * Z) : Z := default 0 (m_GridRef s !! k).
Definition LoadAttempted (s : TerrainInfo) (k : Z * Z) : bool :=
  bool_decide (k ∈ m_GridMapsLoadAttempted s).
Definition set_LoadAttempted (s : TerrainInfo) (k : Z * Z) (b : bool) : TerrainInfo :=
  set_m_GridMapsLoadAttempted s
    (if b then {[ k ]} ∪ m_GridMapsLoadAttempted s
     else m_GridMapsLoadAttempted s ∖ {[ k ]}).

(** [TerrainInfo::TerrainInfo]; [iRandomStart] is the value of
    [urand(20, 40)], [timer] a default-constructed timer and [vmgr],
    [mmgr] the states of the two provider singletons. *)
Definition TerrainInfo_new (mapid iRandomStart : Z) (timer : T) (vmgr : V) (mmgr : M)
  : TerrainInfo :=
  let iCleanUpInterval := 60 in
  {| m_mapId := mapid;
     m_GridMaps := ∅;
     m_GridRef := ∅;
     m_GridMapsLoadAttempted := ∅;
     i_timer := SetCurrent (SetInterval timer (iCleanUpInterval * 1000))
                           (iRandomStart * 1000);
     m_vmgr := vmgr;
     m_mmgr := mmgr |}.

(** [GridMap::SetFullyLoaded] and [GridMap::IsFullyLoaded] (GridMap.h). *)
Definition SetFullyLoaded (g : GridMap) : GridMap := set_m_fullyLoaded g true.
Definition IsFullyLoaded (g : GridMap) : bool := m_fullyLoaded g.

(** [n] printed by printf's [%0wu]. *)
Definition fmt_u (w : nat) (n : Z) : string :=
  let d := pretty (Z.to_N n) in
  String.append (string_of_list_ascii (replicate (w - String.length d) "0"%char)) d.

(** The name [snprintf] leaves in the buffer of [len] bytes. *)
Definition map_file_name (mapId x y : Z) : string :=
  let len := (String.length dataPath + String.length "maps/%03u%02u%02u.map" + 1)%nat in
  String.substring 0 (len - 1)
    (String.append dataPath
       (String.append "maps/"
          (String.append (fmt_u 3 mapId)
             (String.append (fmt_u 2 x) (String.append (fmt_u 2 y) ".map"))))).

(** The block of [LoadMapAndVMap] under the lock: the double-checked
    creation of the store of slot [(x, y)] from its file. *)
Definition LoadMapAndVMap_map (s : TerrainInfo) (x y : Z) : outcome TerrainInfo :=
  if is_null (m_GridMaps s !! (x, y)) then
    let map := GridMap_new in
    let tmp := map_file_name (m_mapId s) x y in
    '(_, map) ← loadData fs tmp map;
    Ret (set_m_GridMaps s (<[(x, y) := map]> (m_GridMaps s)))
  else Ret s.

(** The block of [LoadMapAndVMap] that loads the VMAPs of the grid; the
    result of [loadMap] is only logged. *)
Definition LoadMapAndVMap_vmap (s : TerrainInfo) (x y : Z) : TerrainInfo :=
  if negb (IsTileLoaded (m_vmgr s) (m_mapId s) x y) then
    let '(vmapLoadResult, vmgr) :=
      VMAP_loadMap (m_vmgr s) (String.append dataPath "vmaps") (m_mapId s) x y in
    set_m_vmgr s vmgr
  else s.

(** The block of [LoadMapAndVMap] that loads the navmesh. *)
Definition LoadMapAndVMap_mmap (s : TerrainInfo) (x y : Z) : TerrainInfo :=
  if negb (IsMMapIsLoaded (m_mmgr s) (m_mapId s) x y) then
    let '(_, mmgr) := MMAP_loadMap (m_mmgr s) (m_mapId s) x y in
    set_m_mmgr s mmgr
  else s.

(** [if (m_GridMaps[x][y]) m_GridMaps[x][y]->SetFullyLoaded();] *)
Definition LoadMapAndVMap_mark (s : TerrainInfo) (x y : Z) : TerrainInfo :=
  match m_GridMaps s !! (x, y) with
  | Some map => set_m_GridMaps s (<[(x, y) := SetFullyLoaded map]> (m_GridMaps s))
  | None => s
  end.

(** [TerrainInfo::LoadMapAndVMap], with [x] and [y] as uint32. The
    result is the slot [m_GridMaps[x][y]] the returned pointer refers to. *)
Definition LoadMapAndVMap (s : TerrainInfo) (x y : Z) (mapOnly : bool)
  : outcome (option GridMap * TerrainInfo) :=
  k ← at_grid x y;
  if (negb (is_null (m_GridMaps s !! k)) && mapOnly)
     || (IsTileLoaded (m_vmgr s) (m_mapId s) x y
         && IsMMapIsLoaded (m_mmgr s) (m_mapId s) x y)
  then Ret (m_GridMaps s !! k, s)
  else
    s ← LoadMapAndVMap_map s x y;
    if mapOnly then Ret (m_GridMaps s !! k, s)
    else
      let s := LoadMapAndVMap_vmap s x y in
      let s := LoadMapAndVMap_mmap s x y in
      let s := LoadMapAndVMap_mark s x y in
      Ret (m_GridMaps s !! k, s).

(** [TerrainInfo::RefGrid] *)
Definition RefGrid (s : TerrainInfo) (x y : Z) : outcome (Z * TerrainInfo) :=
  _ ← MANGOS_ASSERT (x <? MAX_NUMBER_OF_GRIDS);
  _ ← MANGOS_ASSERT (y <? MAX_NUMBER_OF_GRIDS);
  k ← at_grid x y;
  let r := wrap16 (GridRef s k + 1) in
  Ret (r, set_m_GridRef s (<[k := r]> (m_GridRef s))).

(** [TerrainInfo::UnrefGrid] *)
Definition UnrefGrid (s : TerrainInfo) (x y : Z) : outcome (Z * TerrainInfo) :=
  _ ← MANGOS_ASSERT (x <? MAX_NUMBER_OF_GRIDS);
  _ ← MANGOS_ASSERT (y <? MAX_NUMBER_OF_GRIDS);
  k ← at_grid x y;
  let iRef := GridRef s k in
  if 0 <? iRef then
    let r := wrap16 (iRef - 1) in
    Ret (r, set_m_GridRef s (<[k := r]> (m_GridRef s)))
  else Ret (0, s).

(** [TerrainInfo::Load] *)
Definition Load (s : TerrainInfo) (x y : Z) (mapOnly : bool)
  : outcome (option GridMap * TerrainInfo) :=
  _ ← MANGOS_ASSERT (x <? MAX_NUMBER_OF_GRIDS);
  _ ← MANGOS_ASSERT (y <? MAX_NUMBER_OF_GRIDS);
  '(_, s) ← RefGrid s x y;
  k ← at_grid x y;
  match m_GridMaps s !! k with
  | None =>
      '(pMap, s) ← LoadMapAndVMap s x y mapOnly;
      Ret (pMap, set_LoadAttempted s k true)
  | Some pMap => Ret (Some pMap, s)
  end.

(** [TerrainInfo::Unload] *)
Definition Unload (s : TerrainInfo) (x y : Z) : outcome TerrainInfo :=
  _ ← MANGOS_ASSERT (x <? MAX_NUMBER_OF_GRIDS);
  _ ← MANGOS_ASSERT (y <? MAX_NUMBER_OF_GRIDS);
  k ← at_grid x y;
  match m_GridMaps s !! k with
  | Some _ =>
      '(r, s) ← UnrefGrid s x y;
      if r =? 0 then Ret (set_LoadAttempted s k false) else Ret s
  | None => Ret s
  end.

(** The cells in the order in which [CleanUpGrids] visits them. *)
Definition grid_cells : list (Z * Z) :=
  y ← seqZ 0 MAX_NUMBER_OF_GRIDS; x ← seqZ 0 MAX_NUMBER_OF_GRIDS; [(x, y)].

(** The body of the loops of [CleanUpGrids] at one cell. *)
Definition CleanUpGrid (s : TerrainInfo) (k : Z * Z) : TerrainInfo :=
  let iRef := GridRef s k in
  match m_GridMaps s !! k with
  | Some pMap =>
      if iRef =? 0 then
        let s := set_m_GridMaps s (delete k (m_GridMaps s)) in
        let s := set_LoadAttempted s k false in
        let s := set_m_vmgr s (VMAP_unloadMap (m_vmgr s) (m_mapId s) k.1 k.2) in
        set_m_mmgr s (MMAP_unloadMap (m_mmgr s) (m_mapId s) k.1 k.2)
      else s
  | None => s
  end.

(** The condition [pMap && iRef == 0] under which a cell is cleaned up,
    and the cells of the grid that satisfy it, in visiting order. *)
Definition sweepable (s : TerrainInfo) (k : Z * Z) : bool :=
  negb (is_null (m_GridMaps s !! k)) && (GridRef s k =? 0).
Definition swept_cells (s : TerrainInfo) : list (Z * Z) :=
  List.filter (sweepable s) grid_cells.

(** [TerrainInfo::CleanUpGrids] *)
Definition CleanUpGrids (s : TerrainInfo) (diff : Z) : TerrainInfo :=
  let s := set_i_timer s (Update (i_timer s) diff) in
  if negb (Passed (i_timer s)) then s
  else
    let s := foldl CleanUpGrid s grid_cells in
    set_i_timer s (Reset (i_timer s)).

(** [TerrainInfo::GetGrid] *)
Definition GetGrid (s : TerrainInfo) (x y : float) (loadOnlyMap : bool)
  : outcome (option GridMap * TerrainInfo) :=
  gx ← F32.to_int (F32.of_int 32 - x / SIZE_OF_GRIDS)%f32;
  gy ← F32.to_int (F32.of_int 32 - y / SIZE_OF_GRIDS)%f32;
  k ← at_grid gx gy;
  match m_GridMaps s !! k with
  | None =>
      if LoadAttempted s k then Ret (None, s)
      else
        '(pMap, s) ← LoadMapAndVMap s (gx mod 2 ^ 32) (gy mod 2 ^ 32) loadOnlyMap;
        Ret (pMap, set_LoadAttempted s k true)
  | Some pMap =>
      if negb (IsFullyLoaded pMap) && negb loadOnlyMap then
        '(pMap, s) ← LoadMapAndVMap s (gx mod 2 ^ 32) (gy mod 2 ^ 32) loadOnlyMap;
        Ret (pMap, set_LoadAttempted s k true)
      else Ret (Some pMap, s)
  end.

(** [TerrainInfo::GetTerrainType] *)
Definition GetTerrainType (s : TerrainInfo) (x y : float) : outcome (Z * TerrainInfo) :=
  '(gmap, s) ← GetGrid s x y false;
  match gmap with
  | Some gmap => t ← getTerrainType gmap x y; Ret (t, s)
  | None => Ret (0, s)
  end.

End Cache.

(** ** Concrete collaborators, for running the model *)

Module Upstream.

(** The interval timer as upstream's Timer.h implements it. *)
Record timer : Type := { _interval : Z; _current : Z }.

#[global] Instance timer_ops : IntervalTimer timer := {|
  SetInterval t interval := {| _interval := interval; _current := _current t |};
  SetCurrent t current := {| _interval := _interval t; _current := current |};
  Update t diff :=
    let c := _current t + diff in
    {| _interval := _interval t; _current := if c <? 0 then 0 else c |};
  Passed t := _interval t <=? _current t;
  Reset t :=
    if _interval t <=? _current t
    then {| _interval := _interval t; _current := _current t - _interval t |}
    else t
|}.

(** A provider that knows which tiles it has loaded and whether it has
    data to load at all. *)
Record provider : Type := { has_data : bool; loaded : gset (Z * Z * Z) }.

Definition provider_load (p : provider) (mapId x y : Z) : provider :=
  {| has_data := has_data p; loaded := {[ (mapId, x, y) ]} ∪ loaded p |}.
Definition provider_unload (p : provider) (mapId x y : Z) : provider :=
  {| has_data := has_data p; loaded := loaded p ∖ {[ (mapId, x, y) ]} |}.

#[global] Instance provider_vmap : IVMapManager provider := {|
  IsTileLoaded p mapId x y := bool_decide ((mapId, x, y) ∈ loaded p);
  VMAP_loadMap p _ mapId x y :=
    if has_data p then (VMAP_LOAD_RESULT_OK, provider_load p mapId x y)
    else (VMAP_LOAD_RESULT_ERROR, p);
  VMAP_unloadMap := provider_unload
|}.

#[global] Instance provider_mmap : MMapManager provider := {|
  IsMMapIsLoaded p mapId x y := bool_decide ((mapId, x, y) ∈ loaded p);
  MMAP_loadMap p mapId x y :=
    if has_data p then (true, provider_load p mapId x y) else (false, p);
  MMAP_unloadMap := provider_unload
|}.

Definition no_data : provider := {| has_data := false; loaded := ∅ |}.
Definition with_data : provider := {| has_data := true; loaded := ∅ |}.

(** Client tables without any row. *)
Definition empty_stores : DBCStores := {|
  sLiquidTypeStore_LookupEntry _ := None;
  sAreaStore_LookupEntry _ := None;
  GetAreaEntryByAreaID _ := None
|}.

(** A cache for map 0 as its constructor leaves it, over a data
    directory [fs] is looked up in by the callers. *)
Definition fresh_cache (vmgr mmgr : provider) : TerrainInfo provider provider timer :=
  TerrainInfo_new 0 30 {| _interval := 0; _current := 0 |} vmgr mmgr.

End Upstream.

(** ** Repetition of an operation on the cache *)

(** [n] calls of [op] in a row. *)
Fixpoint repeat_op {S : Type} (n : nat) (op : S -> outcome (Z * S)) (s : S)
  : outcome S :=
  match n with
  | O => Ret s
  | S n' => '(_, s) ← op s; repeat_op n' op s
  end.

(** ** What the specification says of the queries *)

(** The classification of a point against the liquid surface by
    [delta = liquidLevel - z]. *)
Definition classify_liquid (delta collisionHeight : float) : GridMapLiquidStatus :=
  if (delta >? collisionHeight)%f32 then LIQUID_MAP_UNDER_WATER
  else if (delta >? F32.of_int 0)%f32 then LIQUID_MAP_IN_WATER
  else if (delta >? F32.of_int (-1))%f32 then LIQUID_MAP_WATER_WALK
  else LIQUID_MAP_ABOVE_WATER.

(** The caller's struct after a call that was handed a pointer to it. *)
Definition stored (data : GridMapLiquidData) (w : option GridMapLiquidData)
  : GridMapLiquidData :=
  default data w.

(** The four triangles of a unit cell, the rule that selects one from the
    fractional position, and the plane of each from the corners [h1] to
    [h4] and twice the centre, [h5]. *)
Inductive triangle : Type := Triangle1 | Triangle2 | Triangle3 | Triangle4.

Definition select_triangle (fx fy : float) : triangle :=
  if (fx + fy <? F32.of_int 1)%f32
  then (if (fx >? fy)%f32 then Triangle1 else Triangle2)
  else (if (fx >? fy)%f32 then Triangle3 else Triangle4).

Definition plane_coefficients (t : triangle) (h1 h2 h3 h4 h5 : float)
  : float * float * float :=
  match t with
  | Triangle1 => (h2 - h1, h5 - h1 - h2, h1)
  | Triangle2 => (h5 - h1 - h3, h3 - h1, h1)
  | Triangle3 => (h2 + h4 - h5, h4 - h2, h5 - h4)
  | Triangle4 => (h4 - h3, h3 + h4 - h5, h5 - h4)
  end%f32.

Definition plane_height (fx fy h1 h2 h3 h4 h5 : float) : float :=
  let '(a, b, c) := plane_coefficients (select_triangle fx fy) h1 h2 h3 h4 h5 in
  (a * fx + b * fy + c)%f32.

(** ** Tile files and tiles to run the model on *)

Module Examples.
Import Mem.

#[local] Existing Instance upstream_defines.
#[local] Existing Instance Upstream.empty_stores.

Definition tag (s : string) : buffer := take 4 (list_byte_of_string s).
Definition u32 (z : Z) : buffer := le_bytes 4 z.
Definition u16 (z : Z) : buffer := le_bytes 2 z.
Definition u8 (z : Z) : buffer := le_bytes 1 z.

(** The root header with the offsets of the four sub-blocks. *)
Definition root_header (area height liquid holes : Z) : buffer :=
  tag MAP_MAGIC ++ tag MAP_VERSION_MAGIC
  ++ u32 area ++ u32 0 ++ u32 height ++ u32 0
  ++ u32 liquid ++ u32 0 ++ u32 holes ++ u32 0.

(** A height block without samples: a flat tile at height 0. *)
Definition flat_height_block : buffer :=
  tag MAP_HEIGHT_MAGIC ++ u32 MAP_HEIGHT_NO_HEIGHT ++ u32 0 ++ u32 0.

(** A tile flat at height 0 and covered by liquid of level 10: a liquid
    block with neither type grid nor height grid, liquid flags 1, window
    128 x 128 at offset (0, 0), level 10.0f. *)
Definition pond_file : buffer :=
  root_header 0 56 40 0
  ++ (tag MAP_LIQUID_MAGIC ++ u8 (Z.lor MAP_LIQUID_NO_TYPE MAP_LIQUID_NO_HEIGHT)
      ++ u8 1 ++ u16 0 ++ u8 0 ++ u8 0 ++ u8 128 ++ u8 128 ++ u32 0x41200000)
  ++ flat_height_block.

(** A flat tile at height 0 all of whose cells are holes. *)
Definition holed_flat_file : buffer :=
  root_header 0 552 0 40
  ++ replicate 512 Byte.xff
  ++ flat_height_block.

(** A tile with an area grid whose height block carries a wrong tag. *)
Definition bad_height_tag_file : buffer :=
  root_header 40 560 0 0
  ++ (tag MAP_AREA_MAGIC ++ u16 0 ++ u16 7 ++ replicate 512 Byte.x01)
  ++ (tag "XXXX" ++ u32 0 ++ u32 0 ++ u32 0).

(** A file that is not a tile file at all. *)
Definition garbage_file : buffer := replicate 64 Byte.x2a.

(** A data directory holding [file] as the tile (0, 0) of map 0. *)
Definition directory (file : buffer) : Stdio.filesystem :=
  fun name => if String.eqb name "maps/0000000.map" then Some file else None.

(** The store [loadData] makes of a file. *)
Definition tile_of (file : buffer) : GridMap :=
  match loadData (directory file) "maps/0000000.map" GridMap_new with
  | Ret (_, g) => g
  | Fault _ => GridMap_new
  end.

Definition pond : GridMap := tile_of pond_file.
Definition holed_flat : GridMap := tile_of holed_flat_file.

End Examples.

(** A tile of 8-bit samples, all 5, between heights 0 and 255, all of
    whose cells are holes. *)
Definition holed_uint8_file : Mem.buffer :=
  Examples.root_header 0 552 0 40
  ++ replicate 512 Byte.xff
  ++ (Examples.tag MAP_HEIGHT_MAGIC
      ++ Examples.u32 (MAP_HEIGHT_AS_INT8 (GridDefines := upstream_defines))
      ++ Examples.u32 0 ++ Examples.u32 0x437f0000
      ++ replicate (129 * 129) Byte.x05 ++ replicate (128 * 128) Byte.x05).

(** A tile of float samples, all 0.0f, with the hole table [holes]. *)
Definition float_tile (holes : Mem.buffer) : GridMap :=
  let g := GridMap_new (H := upstream_defines) in
  let g := set_m_V9 g (Some (replicate (4 * (129 * 129)) Byte.x00)) in
  let g := set_m_V8 g (Some (replicate (4 * (128 * 128)) Byte.x00)) in
  let g := set_m_gridGetHeight g getHeightFromFloat_ptr in
  set_m_holes g holes.

(** ** What the specification says of a loaded store *)

(** No sub-block of the store is populated. *)
Definition no_sub_blocks (g : GridMap) : Prop :=
  m_area_map g = None /\ m_V9 g = None /\ m_V8 g = None
  /\ m_liquidEntry g = None /\ m_liquidFlags g = None /\ m_liquid_map g = None.

(** The 4-byte tag a file carries at byte [offset], if it is that long. *)
Definition tag_at (file : Mem.buffer) (offset : Z) : option Z :=
  let bs := take 4 (drop (Z.to_nat offset) file) in
  if Nat.eqb (length bs) 4 then Some (Mem.le_val bs) else None.

(** The uint32 number [i] of the root header of a file that holds a whole
    root header. *)
Definition root_field (file : Mem.buffer) (i : Z) : option Z :=
  if (40 <=? length file)%nat then tag_at file (4 * i) else None.

(** ** What the specification says of a slot of the cache *)

(** The slot holds a store whose [fullyLoaded] flag is set. *)
Definition fully_loaded {V M T : Type} (s : TerrainInfo V M T) (k : Z * Z) : bool :=
  match m_GridMaps s !! k with
  | Some g => m_fullyLoaded g
  | None => false
  end.

(** ** What the queries need in order to return *)

(** The float converts to an int. *)
Definition convertible (f : float) : Prop := returns (F32.to_int f).

(** Both cell transforms of a world coordinate fit an int. *)
Definition valid_coord `{GridDefines} (x : float) : Prop :=
  convertible (cell_coord 16 x) /\ convertible (cell_coord MAP_RESOLUTION x).

(** A buffer, when present, holds [n] determinate bytes. *)
Definition sized (p : option Mem.buffer) (n : Z) : Prop :=
  forall b, p = Some b -> Z.of_nat (length b) = n.

(** Every buffer of the store has the size it was allocated with: nothing
    was cut short by the end of the file. *)
Definition complete (g : GridMap) : Prop :=
  sized (m_area_map g) (2 * (16 * 16))
  /\ sized (m_liquidEntry g) (2 * (16 * 16))
  /\ sized (m_liquidFlags g) (16 * 16)
  /\ sized (m_liquid_map g) (4 * (m_liquid_width g * m_liquid_height g))
  /\ Z.of_nat (length (m_holes g)) = 512
  /\ 0 <= m_liquid_width g /\ 0 <= m_liquid_height g
  /\ match m_gridGetHeight g with
     | getHeightFromFlat_ptr => True
     | getHeightFromFloat_ptr =>
         sized (m_V9 g) (4 * (129 * 129)) /\ sized (m_V8 g) (4 * (128 * 128))
     | getHeightFromUint16_ptr =>
         sized (m_V9 g) (2 * (129 * 129)) /\ sized (m_V8 g) (2 * (128 * 128))
     | getHeightFromUint8_ptr =>
         sized (m_V9 g) (129 * 129) /\ sized (m_V8 g) (128 * 128)
     end.

(** The rows of the client tables are as the liquid query expects them:
    liquid ids start at 1, liquid types are bit numbers of a 32-bit int,
    and an area has an override for each of the liquid ids 1 to 20. *)
Definition stores_sane `{DBCStores} : Prop :=
  (forall e l, sLiquidTypeStore_LookupEntry e = Some l ->
               1 <= Id l /\ 0 <= Type_ l < 32)
  /\ (forall a area, sAreaStore_LookupEntry a = Some area ->
                     (20 <= length (LiquidTypeOverride area))%nat)
  /\ (forall a area, GetAreaEntryByAreaID a = Some area ->
                     (20 <= length (LiquidTypeOverride area))%nat).

(** ** Further functions of GridMap.cpp *)

Section MoreQueries.
Context `{GridDefines}.
Import Mem.

(** [GridMap::getLiquidLevel] *)
Definition getLiquidLevel (g : GridMap) (x y : float) : outcome float :=
  match m_liquid_map g with
  | None => Ret (m_liquidLevel g)
  | Some liquid_map =>
      let x := cell_coord MAP_RESOLUTION x in
      let y := cell_coord MAP_RESOLUTION y in
      xi ← F32.to_int x;
      let cx_int := Z.land xi (MAP_RESOLUTION - 1) - m_liquid_offY g in
      yi ← F32.to_int y;
      let cy_int := Z.land yi (MAP_RESOLUTION - 1) - m_liquid_offX g in
      if (cx_int <? 0) || (m_liquid_height g <=? cx_int)
      then Ret INVALID_HEIGHT_VALUE
      else if (cy_int <? 0) || (m_liquid_width g <=? cy_int)
      then Ret INVALID_HEIGHT_VALUE
      else read_f32 liquid_map (cx_int * m_liquid_width g + cy_int)
  end.

(** [GridMap::ExistMap], with [gx] and [gy] as int; they are printed as
    unsigned. *)
Definition ExistMap (dataPath : string) (fs : Stdio.filesystem) (mapid gx gy : Z)
  : outcome bool :=
  let tmp := map_file_name dataPath mapid (gx mod 2 ^ 32) (gy mod 2 ^ 32) in
  match Stdio.fopen fs tmp with
  | None => Ret false
  | Some pf =>
      let '(header, _, pf) := Stdio.fread pf sizeof_GridMapFileHeader 1 in
      mapMagic ← field header 0 4;
      if negb (mapMagic =? magic32 MAP_MAGIC) then Ret false
      else
        versionMagic ← field header 4 4;
        if negb (versionMagic =? magic32 MAP_VERSION_MAGIC) then Ret false
        else Ret true
  end.

End MoreQueries.

(** [IsOutdoorWMO] *)
Definition IsOutdoorWMO (mogpFlags mapId : Z) : bool :=
  if mapId =? 530 then negb (Z.land mogpFlags 0x8008 =? 0)
  else negb (Z.land mogpFlags 0x8000 =? 0).

(** ** What the further properties speak of *)

(** The bit of a macro-cell mask that stands for the 2 x 2 block of the
    cell [(row, col)]. *)
Definition hole_bit (row col : Z) : Z :=
  4 * ((row mod 8) / 2) + (col mod 8) / 2.

(** The planes of the four triangles over integer samples. *)
Definition int_plane_coefficients (t : triangle) (h1 h2 h3 h4 h5 : Z) : Z * Z * Z :=
  match t with
  | Triangle1 => (h2 - h1, h5 - h1 - h2, h1)
  | Triangle2 => (h5 - h1 - h3, h3 - h1, h1)
  | Triangle3 => (h2 + h4 - h5, h4 - h2, h5 - h4)
  | Triangle4 => (h4 - h3, h3 + h4 - h5, h5 - h4)
  end.

(** The height pointers are null exactly under the flat strategy, and the
    two liquid grids are null together. *)
Definition consistent (g : GridMap) : Prop :=
  (m_gridGetHeight g = getHeightFromFlat_ptr <-> m_V9 g = None)
  /\ (m_V9 g = None <-> m_V8 g = None)
  /\ (m_liquidEntry g = None <-> m_liquidFlags g = None).

(** The slot is empty and marked as tried. *)
Definition given_up {V M T : Type} (s : TerrainInfo V M T) (k : Z * Z) : Prop :=
  m_GridMaps s !! k = None /\ LoadAttempted s k = true.

(** A tile with the hole mask 0x0020 in its first macro-cell. *)
Definition one_hole_tile : GridMap :=
  set_m_holes (GridMap_new (H := upstream_defines))
    (Mem.le_bytes 2 0x0020 ++ replicate 510 Byte.x00).

(** A tile with a liquid height grid of 4 x 2 samples, all 0.0f, whose
    window starts at cell (0, 0). *)
Definition lake_tile : GridMap :=
  let g := GridMap_new (H := upstream_defines) in
  let g := set_m_liquid_width g 4 in
  let g := set_m_liquid_height g 2 in
  let g := set_m_liquidGlobalFlags g 1 in
  set_m_liquid_map g (Some (replicate 32 Byte.x00)).

(** The height of a quantized tile over the plane of the selected
    triangle: the integer plane, then one multiplication and one addition. *)
Definition quantized_height (g : GridMap) (fx fy : float) (h1 h2 h3 h4 h5 : Z)
  : float :=
  let '(a, b, c) := int_plane_coefficients (select_triangle fx fy) h1 h2 h3 h4 h5 in
  ((F32.of_int a * fx + F32.of_int b * fy + F32.of_int c)
   * m_gridIntHeightMultiplier g + m_gridHeight g)%f32.

(** A tile of 8-bit samples, all 5, with multiplier 1 above height 0. *)
Definition uint8_tile : GridMap :=
  let g := GridMap_new (H := upstream_defines) in
  let g := set_m_gridHeight g (F32.of_int 0) in
  let g := set_m_gridIntHeightMultiplier g (F32.of_int 1) in
  let g := set_m_V9 g (Some (replicate (129 * 129) Byte.x05)) in
  let g := set_m_V8 g (Some (replicate (128 * 128) Byte.x05)) in
  set_m_gridGetHeight g getHeightFromUint8_ptr.

(** A provider that reports tile (32, 32) of map 0 loaded, and a cache
    over two such providers whose slot (32, 32) is empty: the provider
    singletons are shared by every map object of the same continent. *)
Definition preloaded : Upstream.provider :=
  {| Upstream.has_data := true; Upstream.loaded := {[ (0, 32, 32) ]} |}.
Definition preloaded_cache
  : TerrainInfo Upstream.provider Upstream.provider Upstream.timer :=
  Upstream.fresh_cache preloaded preloaded.

(** The size in bytes of a height sample and the height strategy that
    the flags of a height block with samples select. *)
Definition sample_width `{GridDefines} (flags : Z) : nat :=
  if negb (Z.land flags MAP_HEIGHT_AS_INT16 =? 0) then 2
  else if negb (Z.land flags MAP_HEIGHT_AS_INT8 =? 0) then 1
  else 4.
Definition sample_strategy `{GridDefines} (flags : Z) : GetHeightPtr :=
  if negb (Z.land flags MAP_HEIGHT_AS_INT16 =? 0) then getHeightFromUint16_ptr
  else if negb (Z.land flags MAP_HEIGHT_AS_INT8 =? 0) then getHeightFromUint8_ptr
  else getHeightFromFloat_ptr.

(** A tile file that consists of the root header and an area block with
    a grid all of whose entries are 257. *)
Definition area_grid_file : Mem.buffer :=
  Examples.root_header 40 0 0 0
  ++ (Examples.tag MAP_AREA_MAGIC ++ Examples.u16 0 ++ Examples.u16 7
      ++ replicate 512 Byte.x01).

(** [g'] is the store [g], but for a [fullyLoaded] flag that may have
    been set. *)
Definition same_data (g g' : GridMap) : Prop := g' = g \/ g' = SetFullyLoaded g.

(** A cache that holds a new store in slot (1, 2). *)
Definition one_store_cache
  : TerrainInfo Upstream.provider Upstream.provider Upstream.timer :=
  set_m_GridMaps (Upstream.fresh_cache Upstream.with_data Upstream.with_data)
    {[ (1, 2) := GridMap_new (H := upstream_defines) ]}.

(** ** The static height of a point *)

(** Further float operations of the height search: [<=], unary minus and
    [std::abs]. *)
Definition f32_leb : float -> float -> bool := SFleb.
Definition f32_opp : float -> float := SFopp.
Definition f32_abs : float -> float := SFabs.

(** Modelled from the spec: the macros of the height search
    (GridMapDefines.h and IVMapManager.h are not among the sources). *)
Class HeightDefines : Type := {
  INVALID_HEIGHT : float;
  VMAP_INVALID_HEIGHT_VALUE : float;
  DEFAULT_HEIGHT_SEARCH : float
}.

(** The values upstream gives them: -100000.0f, -200000.0f and 10.0f. *)
Definition upstream_height_defines : HeightDefines := {|
  INVALID_HEIGHT := F32.of_int (-100000);
  VMAP_INVALID_HEIGHT_VALUE := F32.of_int (-200000);
  DEFAULT_HEIGHT_SEARCH := F32.of_int 10
|}.

(** The height queries of [VMAP::IVMapManager]:
    [getHeight(mapId, x, y, z, maxSearchDist)] is const. *)
Class VMapHeight (V : Type) : Type := {
  isHeightCalcEnabled : V -> bool;
  VMAP_getHeight : V -> Z -> float -> float -> float -> float -> float
}.

(** A provider with height calculation enabled when it has data, whose
    only floor is at height 50. *)
Definition floor_at_50 : VMapHeight Upstream.provider := {|
  isHeightCalcEnabled := Upstream.has_data;
  VMAP_getHeight p _ _ _ _ _ := F32.of_int 50
|}.

Section StaticHeight.
Context {V M T : Type} `{IVMapManager V} `{MMapManager M} `{IntervalTimer T}.
Context `{GridDefines} `{HeightDefines} `{VMapHeight V}.
Variable dataPath : string.
Variable fs : Stdio.filesystem.

(** The block of [GetHeightStatic] under [if (m_vmgr->isHeightCalcEnabled())]:
    the searches for a floor in the collision meshes. *)
Definition GetHeightStatic_vmap (vmgr : V) (mapId : Z) (x y z mapHeight maxSearchDist : float)
  : float :=
  let z2 := (z + F32.of_int 2)%f32 in
  let maxSearchDist :=
    if (mapHeight >? INVALID_HEIGHT)%f32 && (z2 - mapHeight >? maxSearchDist)%f32
    then (z2 - mapHeight + F32.of_int 1)%f32
    else maxSearchDist in
  let vmapHeight := VMAP_getHeight vmgr mapId x y z2 maxSearchDist in
  let vmapHeight :=
    if f32_leb vmapHeight INVALID_HEIGHT
    then VMAP_getHeight vmgr mapId x y z2 (F32.of_int 10000)
    else vmapHeight in
  let vmapHeight :=
    if f32_leb vmapHeight INVALID_HEIGHT && (mapHeight >? z2)%f32
       && (f32_abs (z2 - mapHeight) >? F32.of_int 30)%f32
    then VMAP_getHeight vmgr mapId x y z2 (f32_opp maxSearchDist)
    else vmapHeight in
  if f32_leb vmapHeight INVALID_HEIGHT && (mapHeight >? INVALID_HEIGHT)%f32
     && (z2 <? mapHeight)%f32
  then VMAP_getHeight vmgr mapId x y (mapHeight + F32.of_int 2)%f32 DEFAULT_HEIGHT_SEARCH
  else vmapHeight.

(** The choice between the two heights at the end of [GetHeightStatic]. *)
Definition GetHeightStatic_select (z mapHeight vmapHeight : float) : float :=
  if (vmapHeight >? INVALID_HEIGHT)%f32 then
    if (mapHeight >? INVALID_HEIGHT)%f32 then
      if (z <? mapHeight)%f32 || (vmapHeight >? mapHeight)%f32 then vmapHeight
      else mapHeight
    else vmapHeight
  else mapHeight.

(** [TerrainInfo::GetHeightStatic]; the function is const but for the
    [const_cast] under which [GetGrid] may load the tile. *)
Definition GetHeightStatic (s : TerrainInfo V M T) (x y z : float) (useVmaps : bool)
    (maxSearchDist : float) : outcome (float * TerrainInfo V M T) :=
  let mapHeight := VMAP_INVALID_HEIGHT_VALUE in
  let vmapHeight := VMAP_INVALID_HEIGHT_VALUE in
  '(gmap, s) ← GetGrid dataPath fs s x y false;
  mapHeight ← match gmap with
              | Some gmap => getHeight gmap x y
              | None => Ret mapHeight
              end;
  let vmapHeight :=
    if useVmaps then
      if isHeightCalcEnabled (m_vmgr s)
      then GetHeightStatic_vmap (m_vmgr s) (m_mapId s) x y z mapHeight maxSearchDist
      else vmapHeight
    else vmapHeight in
  Ret (GetHeightStatic_select z mapHeight vmapHeight, s).

End StaticHeight.

(** A file of ten asterisks: too short for a root header, long enough
    for the two tags. *)
Definition short_foreign_file : Mem.buffer := replicate 10 Byte.x2a.

(** A data directory holding [file] as the tile of the world origin,
    tile (32, 32) of map 0. *)
Definition origin_directory (file : Mem.buffer) : Stdio.filesystem :=
  fun name => if String.eqb name "maps/0003232.map" then Some file else None.

(** A tile file that ends inside the grid of its area block, after 100
    of the 512 bytes, and one whose holes block ends after 100 bytes. *)
Definition short_area_grid_file : Mem.buffer :=
  Examples.root_header 40 0 0 0
  ++ (Examples.tag MAP_AREA_MAGIC ++ Examples.u16 0 ++ Examples.u16 7
      ++ replicate 100 Byte.x01).
Definition short_holes_file : Mem.buffer :=
  Examples.root_header 0 0 0 40 ++ replicate 100 Byte.xff.

(** * Properties *)

(** ** Results and arithmetic helpers *)

Lemma wrap16_id z : - 2 ^ 15 <= z < 2 ^ 15 -> wrap16 z = z.
Proof.
  intros Hz. unfold wrap16.
  rewrite Z.mod_small by lia. lia.
Qed.

Lemma wrap16_range z : - 2 ^ 15 <= wrap16 z < 2 ^ 15.
Proof.
  unfold wrap16.
  pose proof (Z.mod_pos_bound (z + 2 ^ 15) (2 ^ 16) ltac:(lia)). lia.
Qed.

Lemma in_grid_spec x y :
  in_grid x y = true <->
  0 <= x < MAX_NUMBER_OF_GRIDS /\ 0 <= y < MAX_NUMBER_OF_GRIDS.
Proof. unfold in_grid. rewrite !andb_true_iff. lia. Qed.

Lemma at_grid_in x y : in_grid x y = true -> at_grid x y = Ret (x, y).
Proof. unfold at_grid. now intros ->. Qed.

Lemma at_grid_Ret x y k : at_grid x y = Ret k -> k = (x, y) /\ in_grid x y = true.
Proof. unfold at_grid. destruct (in_grid x y); [intros [= <-]; auto | discriminate]. Qed.

Lemma assert_in_grid_l x y :
  in_grid x y = true -> MANGOS_ASSERT (x <? MAX_NUMBER_OF_GRIDS) = Ret tt.
Proof.
  intros Hg%in_grid_spec. unfold MANGOS_ASSERT.
  destruct (Z.ltb_spec x MAX_NUMBER_OF_GRIDS); [reflexivity | lia].
Qed.

Lemma assert_in_grid_r x y :
  in_grid x y = true -> MANGOS_ASSERT (y <? MAX_NUMBER_OF_GRIDS) = Ret tt.
Proof.
  intros Hg%in_grid_spec. unfold MANGOS_ASSERT.
  destruct (Z.ltb_spec y MAX_NUMBER_OF_GRIDS); [reflexivity | lia].
Qed.

(** ** Reference counting *)

Section RefCount.
Context {V M T : Type}.
Implicit Types s : TerrainInfo V M T.

Lemma GridRef_set_same s k r :
  GridRef (set_m_GridRef s (<[k := r]> (m_GridRef s))) k = r.
Proof. unfold GridRef. simpl. now rewrite lookup_insert_eq. Qed.

Lemma GridRef_set_other s k k' r :
  k <> k' -> GridRef (set_m_GridRef s (<[k := r]> (m_GridRef s))) k' = GridRef s k'.
Proof. intros Hne. unfold GridRef. simpl. now rewrite lookup_insert_ne. Qed.

Lemma RefGrid_eq s x y :
  in_grid x y = true ->
  RefGrid s x y =
    Ret (wrap16 (GridRef s (x, y) + 1),
         set_m_GridRef s (<[(x, y) := wrap16 (GridRef s (x, y) + 1)]> (m_GridRef s))).
Proof.
  intros Hg. unfold RefGrid.
  rewrite (assert_in_grid_l x y Hg), (assert_in_grid_r x y Hg), (at_grid_in x y Hg).
  reflexivity.
Qed.

Lemma UnrefGrid_eq s x y :
  in_grid x y = true ->
  UnrefGrid s x y =
    if 0 <? GridRef s (x, y)
    then Ret (wrap16 (GridRef s (x, y) - 1),
              set_m_GridRef s (<[(x, y) := wrap16 (GridRef s (x, y) - 1)]> (m_GridRef s)))
    else Ret (0, s).
Proof.
  intros Hg. unfold UnrefGrid.
  rewrite (assert_in_grid_l x y Hg), (assert_in_grid_r x y Hg), (at_grid_in x y Hg).
  reflexivity.
Qed.

Lemma RefGrid_repeat (n : nat) : forall s x y,
  in_grid x y = true ->
  0 <= GridRef s (x, y) ->
  GridRef s (x, y) + Z.of_nat n < 2 ^ 15 ->
  exists s', repeat_op n (fun s => RefGrid s x y) s = Ret s'
             /\ GridRef s' (x, y) = GridRef s (x, y) + Z.of_nat n.
Proof.
  induction n as [|n IH]; intros s x y Hg H0 Hn.
  - exists s. split; [reflexivity | lia].
  - cbn [repeat_op]. rewrite (RefGrid_eq s x y Hg). cbn.
    set (s1 := set_m_GridRef s _).
    assert (H1 : GridRef s1 (x, y) = GridRef s (x, y) + 1).
    { unfold s1. rewrite GridRef_set_same. apply wrap16_id. lia. }
    destruct (IH s1 x y Hg) as (s' & Hrun & Hc); [lia | lia |].
    exists s'. split; [exact Hrun | lia].
Qed.

Lemma UnrefGrid_repeat (n : nat) : forall s x y,
  in_grid x y = true ->
  GridRef s (x, y) = Z.of_nat n ->
  Z.of_nat n < 2 ^ 15 ->
  exists s', repeat_op n (fun s => UnrefGrid s x y) s = Ret s'
             /\ GridRef s' (x, y) = 0.
Proof.
  induction n as [|n IH]; intros s x y Hg Hc Hn.
  - exists s. split; [reflexivity | exact Hc].
  - cbn [repeat_op]. rewrite (UnrefGrid_eq s x y Hg).
    destruct (Z.ltb_spec 0 (GridRef s (x, y))) as [_|]; [|lia]. cbn.
    set (s1 := set_m_GridRef s _).
    assert (H1 : GridRef s1 (x, y) = Z.of_nat n).
    { unfold s1. rewrite GridRef_set_same. rewrite wrap16_id; lia. }
    destruct (IH s1 x y Hg H1) as (s' & Hrun & Hc'); [lia |].
    exists s'. split; [exact Hrun | exact Hc'].
Qed.

End RefCount.

(** C8 (as amended). The reference count of a slot is an int16. For a
    slot of the grid whose count [c] is a non-negative int16: [RefGrid]
    returns and stores [c + 1] as long as [c] is below 32767; [UnrefGrid]
    returns and stores [c - 1] when [c] is positive and returns 0 leaving
    the cache unchanged when [c] is 0, so it never makes the count
    negative; and [N] calls of [RefGrid] followed by [N] calls of
    [UnrefGrid] bring a count of 0 back to 0 for every [N] up to 32767. *)
Theorem refcount_int16 {V M T : Type} (s : TerrainInfo V M T) (x y : Z) :
  in_grid x y = true ->
  0 <= GridRef s (x, y) < 2 ^ 15 ->
  let c := GridRef s (x, y) in
  (c < 2 ^ 15 - 1 ->
   exists s', RefGrid s x y = Ret (c + 1, s') /\ GridRef s' (x, y) = c + 1)
  /\ (0 < c ->
      exists s', UnrefGrid s x y = Ret (c - 1, s') /\ GridRef s' (x, y) = c - 1)
  /\ (c = 0 -> UnrefGrid s x y = Ret (0, s))
  /\ (forall r s', UnrefGrid s x y = Ret (r, s') -> 0 <= r /\ 0 <= GridRef s' (x, y))
  /\ (forall N : nat, c = 0 -> Z.of_nat N < 2 ^ 15 ->
      exists s1 s2,
        repeat_op N (fun s => RefGrid s x y) s = Ret s1
        /\ GridRef s1 (x, y) = Z.of_nat N
        /\ repeat_op N (fun s => UnrefGrid s x y) s1 = Ret s2
        /\ GridRef s2 (x, y) = 0).
Proof.
  intros Hg Hc c. subst c.
  split_and!.
  - intros Hlt. rewrite (RefGrid_eq s x y Hg).
    rewrite wrap16_id by lia.
    eexists. split; [reflexivity | apply GridRef_set_same].
  - intros Hpos. rewrite (UnrefGrid_eq s x y Hg).
    destruct (Z.ltb_spec 0 (GridRef s (x, y))); [|lia].
    rewrite wrap16_id by lia.
    eexists. split; [reflexivity | apply GridRef_set_same].
  - intros H0. rewrite (UnrefGrid_eq s x y Hg), H0. reflexivity.
  - intros r s' Hrun. rewrite (UnrefGrid_eq s x y Hg) in Hrun.
    destruct (Z.ltb_spec 0 (GridRef s (x, y))); injection Hrun as <- <-.
    + rewrite GridRef_set_same, wrap16_id; lia.
    + lia.
  - intros N H0 HN.
    destruct (RefGrid_repeat N s x y Hg) as (s1 & Hr & Hc1); [lia | lia |].
    rewrite H0 in Hc1. simpl in Hc1.
    destruct (UnrefGrid_repeat N s1 x y Hg Hc1 HN) as (s2 & Hu & Hc2).
    exists s1, s2. auto.
Qed.

(** C8, witness: three references and three releases on a fresh cache. *)
Lemma refcount_int16_witness :
  exists s1 s2,
    repeat_op 3 (fun s => RefGrid s 5 7) (Upstream.fresh_cache Upstream.no_data Upstream.no_data) = Ret s1
    /\ GridRef s1 (5, 7) = 3
    /\ repeat_op 3 (fun s => UnrefGrid s 5 7) s1 = Ret s2
    /\ GridRef s2 (5, 7) = 0.
Proof.
  pose proof (refcount_int16 (Upstream.fresh_cache Upstream.no_data Upstream.no_data) 5 7
                eq_refl ltac:(vm_compute; split; [discriminate | reflexivity])) as Hw.
  cbv zeta in Hw.
  destruct Hw as (_ & _ & _ & _ & Hrep).
  exact (Hrep 3%nat eq_refl eq_refl).
Defined.

(** C8, counterexample: the 32768th reference of one slot of a fresh cache
    wraps its count to -32768. *)
Lemma refcount_wraps_negative :
  (s ← repeat_op (Z.to_nat 32767) (fun s => RefGrid s 0 0)
         (Upstream.fresh_cache Upstream.no_data Upstream.no_data);
   '(r, s') ← RefGrid s 0 0;
   Ret (GridRef s (0, 0), r, GridRef s' (0, 0)))
  = Ret (32767, -32768, -32768).
Proof. vm_compute. reflexivity. Qed.

(** ** The periodic sweep *)

Lemma grid_cells_NoDup : NoDup grid_cells.
Proof.
  unfold grid_cells. apply NoDup_bind.
  - intros y1 y2 k _ _ H1 H2.
    apply list_elem_of_bind in H1 as (x1 & H1 & _).
    apply list_elem_of_bind in H2 as (x2 & H2 & _).
    apply list_elem_of_singleton in H1, H2. congruence.
  - intros y _. apply NoDup_bind.
    + intros x1 x2 k _ _ H1 H2.
      apply list_elem_of_singleton in H1, H2. congruence.
    + intros x _. apply NoDup_singleton.
    + apply NoDup_seqZ.
  - apply NoDup_seqZ.
Qed.

Lemma grid_cells_elem x y : in_grid x y = true -> (x, y) ∈ grid_cells.
Proof.
  intros Hg%in_grid_spec. unfold grid_cells.
  apply list_elem_of_bind. exists y. split.
  - apply list_elem_of_bind. exists x. split.
    + apply list_elem_of_singleton. reflexivity.
    + apply elem_of_seqZ. lia.
  - apply elem_of_seqZ. lia.
Qed.

Section Sweep.
Context {V M T : Type} `{IVMapManager V} `{MMapManager M} `{IntervalTimer T}.
Implicit Types s : TerrainInfo V M T.

Lemma CleanUpGrid_frame s k :
  m_mapId (CleanUpGrid s k) = m_mapId s
  /\ m_GridRef (CleanUpGrid s k) = m_GridRef s
  /\ i_timer (CleanUpGrid s k) = i_timer s.
Proof.
  unfold CleanUpGrid.
  destruct (m_GridMaps s !! k); [destruct (GridRef s k =? 0)|]; auto.
Qed.

Lemma CleanUpGrid_slot s k k' :
  m_GridMaps (CleanUpGrid s k) !! k' =
    if bool_decide (k' = k) && sweepable s k then None else m_GridMaps s !! k'.
Proof.
  unfold CleanUpGrid, sweepable.
  destruct (m_GridMaps s !! k) as [g|] eqn:Hk; cbn.
  - destruct (GridRef s k =? 0); cbn.
    + case_bool_decide as Hd; cbn.
      * subst k'. apply lookup_delete_eq.
      * apply lookup_delete_ne. congruence.
    + now rewrite andb_false_r.
  - now rewrite andb_false_r.
Qed.

Lemma CleanUpGrid_attempted s k k' :
  k' ∈ m_GridMapsLoadAttempted (CleanUpGrid s k) <->
  k' ∈ m_GridMapsLoadAttempted s /\ ~ (k' = k /\ sweepable s k = true).
Proof.
  unfold CleanUpGrid, sweepable.
  destruct (m_GridMaps s !! k) as [g|] eqn:Hk; cbn.
  - destruct (GridRef s k =? 0); cbn.
    + rewrite elem_of_difference, elem_of_singleton. intuition.
    + intuition congruence.
  - intuition congruence.
Qed.

Lemma CleanUpGrid_providers s k :
  m_vmgr (CleanUpGrid s k) =
    (if sweepable s k then VMAP_unloadMap (m_vmgr s) (m_mapId s) k.1 k.2 else m_vmgr s)
  /\ m_mmgr (CleanUpGrid s k) =
    (if sweepable s k then MMAP_unloadMap (m_mmgr s) (m_mapId s) k.1 k.2 else m_mmgr s).
Proof.
  unfold CleanUpGrid, sweepable.
  destruct (m_GridMaps s !! k) as [g|] eqn:Hk; cbn.
  - destruct (GridRef s k =? 0); cbn; auto.
  - auto.
Qed.

Lemma sweepable_after s k k' :
  k' <> k -> sweepable (CleanUpGrid s k) k' = sweepable s k'.
Proof.
  intros Hne. unfold sweepable at 1.
  rewrite CleanUpGrid_slot. unfold GridRef.
  destruct (CleanUpGrid_frame s k) as (_ & -> & _).
  case_bool_decide; [contradiction | reflexivity].
Qed.

(** What the loops of [CleanUpGrids] do over a list of distinct cells. *)
Lemma CleanUpGrid_foldl (l : list (Z * Z)) : forall s,
  NoDup l ->
  let s' := foldl CleanUpGrid s l in
  m_mapId s' = m_mapId s
  /\ m_GridRef s' = m_GridRef s
  /\ i_timer s' = i_timer s
  /\ (forall k, m_GridMaps s' !! k =
                if bool_decide (k ∈ l) && sweepable s k then None else m_GridMaps s !! k)
  /\ (forall k, k ∈ m_GridMapsLoadAttempted s' <->
                k ∈ m_GridMapsLoadAttempted s /\ ~ (k ∈ l /\ sweepable s k = true))
  /\ m_vmgr s' = foldl (fun v k => VMAP_unloadMap v (m_mapId s) k.1 k.2)
                       (m_vmgr s) (List.filter (sweepable s) l)
  /\ m_mmgr s' = foldl (fun m k => MMAP_unloadMap m (m_mapId s) k.1 k.2)
                       (m_mmgr s) (List.filter (sweepable s) l).
Proof.
  induction l as [|k0 l IH]; intros s Hnd; cbn zeta.
  - cbn. split_and!; try reflexivity.
    intros k. split; [intros Hk; split; [exact Hk | intros [Hin _]; inversion Hin] | tauto].
  - apply NoDup_cons in Hnd as [Hk0 Hnd].
    cbn [foldl].
    specialize (IH (CleanUpGrid s k0) Hnd). cbn zeta in IH.
    destruct IH as (Hid & Href & Htm & Hslot & Hatt & Hvm & Hmm).
    destruct (CleanUpGrid_frame s k0) as (Hid0 & Href0 & Htm0).
    destruct (CleanUpGrid_providers s k0) as (Hvm0 & Hmm0).
    assert (Hsw : forall k, k ∈ l -> sweepable (CleanUpGrid s k0) k = sweepable s k).
    { intros k Hin. apply sweepable_after. intros ->. contradiction. }
    assert (Hfilter : List.filter (sweepable (CleanUpGrid s k0)) l
                      = List.filter (sweepable s) l).
    { apply List.filter_ext_in. intros k Hin. apply Hsw, list_elem_of_In, Hin. }
    split_and!.
    + congruence.
    + congruence.
    + congruence.
    + intros k. rewrite Hslot, CleanUpGrid_slot.
      destruct (decide (k = k0)) as [->|Hne].
      * rewrite (bool_decide_eq_false_2 (k0 ∈ l)) by assumption.
        rewrite (bool_decide_eq_true_2 (k0 = k0)) by reflexivity.
        rewrite (bool_decide_eq_true_2 (k0 ∈ k0 :: l)) by apply list_elem_of_here.
        reflexivity.
      * rewrite (sweepable_after s k0 k Hne).
        rewrite (bool_decide_eq_false_2 (k = k0)) by assumption. cbn.
        rewrite (bool_decide_ext (k ∈ k0 :: l) (k ∈ l)); [reflexivity |].
        rewrite elem_of_cons. tauto.
    + intros k. rewrite Hatt, CleanUpGrid_attempted, elem_of_cons.
      split.
      * intros ((Ha & Hn0) & Hn). split; [exact Ha |].
        intros ([->|Hin] & Hs); [tauto |].
        apply Hn. split; [exact Hin |]. rewrite Hsw; assumption.
      * intros (Ha & Hn). split.
        { split; [exact Ha |]. intros (-> & Hs). apply Hn. split; [left; reflexivity | exact Hs]. }
        intros (Hin & Hs). apply Hn. split; [right; exact Hin |].
        rewrite Hsw in Hs; assumption.
    + rewrite Hvm, Hfilter, Hid0, Hvm0. cbn [List.filter].
      destruct (sweepable s k0); reflexivity.
    + rewrite Hmm, Hfilter, Hid0, Hmm0. cbn [List.filter].
      destruct (sweepable s k0); reflexivity.
Qed.

End Sweep.

Section SweepTheorem.
Context {V M T : Type} `{IVMapManager V} `{MMapManager M} `{IntervalTimer T}.
Implicit Types s : TerrainInfo V M T.

(** C7. When the timer of [CleanUpGrids] has passed, every cell of the
    grid that holds a store and has reference count 0 is emptied, its
    [loadAttempted] flag is cleared, and it is among the cells for which
    the collision-mesh and the navmesh providers are asked, in visiting
    order, to unload the tile. A cell with a positive reference count
    keeps its store, count and flag whatever the elapsed time. *)
Theorem CleanUpGrids_sweep s (diff : Z) :
  let s' := CleanUpGrids s diff in
  (Passed (Update (i_timer s) diff) = true ->
   (forall x y g,
       in_grid x y = true ->
       m_GridMaps s !! (x, y) = Some g ->
       GridRef s (x, y) = 0 ->
       m_GridMaps s' !! (x, y) = None
       /\ LoadAttempted s' (x, y) = false
       /\ (x, y) ∈ swept_cells s)
   /\ m_vmgr s' = foldl (fun v k => VMAP_unloadMap v (m_mapId s) k.1 k.2)
                        (m_vmgr s) (swept_cells s)
   /\ m_mmgr s' = foldl (fun m k => MMAP_unloadMap m (m_mapId s) k.1 k.2)
                        (m_mmgr s) (swept_cells s))
  /\ (forall k g,
         m_GridMaps s !! k = Some g ->
         0 < GridRef s k ->
         m_GridMaps s' !! k = Some g
         /\ GridRef s' k = GridRef s k
         /\ LoadAttempted s' k = LoadAttempted s k).
Proof.
  cbn zeta. unfold CleanUpGrids.
  set (s0 := set_i_timer s (Update (i_timer s) diff)).
  assert (Hsw0 : forall k, sweepable s0 k = sweepable s k) by reflexivity.
  destruct (CleanUpGrid_foldl grid_cells s0 grid_cells_NoDup)
    as (Hid & Href & _ & Hslot & Hatt & Hvm & Hmm).
  change (i_timer s0) with (Update (i_timer s) diff).
  change (m_mapId s0) with (m_mapId s) in Hvm, Hmm.
  change (m_vmgr s0) with (m_vmgr s) in Hvm.
  change (m_mmgr s0) with (m_mmgr s) in Hmm.
  change (m_GridRef s0) with (m_GridRef s) in Href.
  fold (swept_cells s0) in Hvm, Hmm.
  change (swept_cells s0) with (swept_cells s) in Hvm, Hmm.
  revert Hid Href Hslot Hatt Hvm Hmm.
  generalize (foldl CleanUpGrid s0 grid_cells).
  intros sf Hid Href Hslot Hatt Hvm Hmm.
  split.
  - intros Hp. rewrite Hp. cbn [negb].
    split_and!.
    + intros x y g Hg Hs Hr.
      assert (Hsw : sweepable s (x, y) = true).
      { unfold sweepable. rewrite Hs, Hr. reflexivity. }
      assert (Hin : (x, y) ∈ grid_cells) by apply grid_cells_elem, Hg.
      split_and!.
      * cbn. rewrite Hslot, Hsw0, Hsw.
        rewrite bool_decide_eq_true_2 by assumption. reflexivity.
      * unfold LoadAttempted. cbn. apply bool_decide_eq_false_2.
        rewrite Hatt, Hsw0. tauto.
      * unfold swept_cells. apply list_elem_of_In, List.filter_In.
        split; [apply list_elem_of_In, Hin | exact Hsw].
    + cbn. rewrite Hvm. reflexivity.
    + cbn. rewrite Hmm. reflexivity.
  - intros k g Hs Hr.
    assert (Hsw : sweepable s k = false).
    { unfold sweepable. destruct (Z.eqb_spec (GridRef s k) 0); [lia |].
      apply andb_false_r. }
    destruct (Passed (Update (i_timer s) diff)); cbn [negb].
    + split_and!.
      * cbn. rewrite Hslot, Hsw0, Hsw, andb_false_r. exact Hs.
      * unfold GridRef. cbn. rewrite Href. reflexivity.
      * unfold LoadAttempted. cbn. apply bool_decide_ext.
        rewrite Hatt, Hsw0, Hsw. intuition congruence.
    + auto.
Qed.

End SweepTheorem.

(** C7, witness: a cache holding one unreferenced store at cell (1, 2),
    swept one minute after its construction. *)
Lemma CleanUpGrids_sweep_witness :
  let s := set_m_GridMaps (Upstream.fresh_cache Upstream.with_data Upstream.with_data)
             {[ (1, 2) := GridMap_new (H := upstream_defines) ]} in
  m_GridMaps (CleanUpGrids s 60000) !! (1, 2) = None
  /\ LoadAttempted (CleanUpGrids s 60000) (1, 2) = false
  /\ (1, 2) ∈ swept_cells s.
Proof.
  intros s.
  destruct (CleanUpGrids_sweep s 60000) as [Hfire _].
  destruct (Hfire eq_refl) as [Hcell _].
  exact (Hcell 1 2 GridMap_new eq_refl eq_refl eq_refl).
Defined.

(** ** Inversion of computations that return *)

Lemma bind_Ret {A B} (m : outcome A) (k : A -> outcome B) (r : B) :
  m ≫= k = Ret r -> exists a, m = Ret a /\ k a = Ret r.
Proof. destruct m as [a|f]; [eauto | discriminate]. Qed.

(** Peels the binds, conditionals and pattern matches off a hypothesis
    [H : body = Ret r]. *)
Ltac inv_step H :=
  first
    [ match type of H with Fault _ = Ret _ => discriminate H end
    | apply bind_Ret in H as (? & ? & H)
    | match type of H with
      | match ?x with _ => _ end = Ret _ =>
          let E := fresh "E" in destruct x eqn:E
      end ];
  cbn beta iota in H.
Ltac inv_run H := repeat inv_step H.

(** The same on every hypothesis of that form. *)
Ltac inv_all :=
  repeat (match goal with
          | H : Fault _ = Ret _ |- _ => discriminate H
          | H : _ ≫= _ = Ret _ |- _ => apply bind_Ret in H as (? & ? & H)
          | H : match ?x with _ => _ end = Ret _ |- _ =>
              let E := fresh "E" in destruct x eqn:E
          end; cbn beta iota in *).

Lemma Ret_inj {A} (a b : A) : Ret a = Ret b -> a = b.
Proof. now intros [= ->]. Qed.

(** Splits [H : Ret (a, b, ..) = Ret (x, y, ..)] into its components and
    substitutes the variables among them. *)
Ltac ret_inj H :=
  apply Ret_inj in H;
  repeat match type of H with
         | (_, _) = (_, _) =>
             let H' := fresh H in apply pair_equal_spec in H as [H H']
         end;
  subst.

(** Runs the binds whose first computation is a value. *)
Ltac msimpl := cbn [mbind outcome_bind mret outcome_ret].

(** ** The liquid query *)

Section Liquid.
Context `{GridDefines} `{DBCStores}.

(** C10. A call of [GridMap::getLiquidStatus] that returns writes through
    a non-null [data] exactly when its result is not [LIQUID_MAP_NO_WATER];
    when the result is [LIQUID_MAP_NO_WATER] the caller's struct is what it
    was before the call. *)
Theorem getLiquidStatus_writes_data (g : GridMap) (x y z : float)
    (ReqLiquidType : Z) (collisionHeight : float)
    (st : GridMapLiquidStatus) (w : option GridMapLiquidData) :
  getLiquidStatus g x y z ReqLiquidType collisionHeight = Ret (st, w) ->
  (is_Some w <-> st <> LIQUID_MAP_NO_WATER)
  /\ (st = LIQUID_MAP_NO_WATER -> forall data, stored data w = data).
Proof.
  intros Hrun. unfold getLiquidStatus in Hrun.
  inv_run Hrun; injection Hrun as <- <-;
    first
      [ split; [split; [intros [? [=]] | intros Hst; now contradiction Hst] | reflexivity]
      | split; [split; [intros _; discriminate | intros _; eexists; reflexivity]
               | discriminate] ].
Qed.

End Liquid.

(** C10, witness: a point under the surface of the flat pond. *)
Lemma getLiquidStatus_writes_data_witness :
  let d := {| entry := 0; type_flags := 1;
              level := F32.of_int 10; depth_level := F32.of_int 0 |} in
  (is_Some (Some d) <-> LIQUID_MAP_UNDER_WATER <> LIQUID_MAP_NO_WATER)
  /\ (LIQUID_MAP_UNDER_WATER = LIQUID_MAP_NO_WATER ->
      forall data, stored data (Some d) = data).
Proof.
  intros d.
  apply (getLiquidStatus_writes_data (H := upstream_defines) (H0 := Upstream.empty_stores)
           Examples.pond (F32.of_int 0) (F32.of_int 0) (F32.of_dyadic 15 (-1))
           0 (F32.of_int 2)).
  vm_compute. reflexivity.
Defined.

(** C5. A query of [GridMap::getLiquidStatus] on a store with liquid whose
    cell resolves to a liquid type other than 0 that the required-type
    mask admits, and whose cell lies inside the liquid window, answers
    [LIQUID_MAP_NO_WATER] without data when the liquid level is below the
    ground level [getHeight] gives or [z] is below the ground level minus
    2, and otherwise the classification of [delta = level - z], with the
    data: under water when [delta > collisionHeight], else in water when
    [delta > 0], else water walk when [delta > -1], else above water.
    Conversely, whenever it returns a status other than
    [LIQUID_MAP_NO_WATER], both ground checks passed and the status is
    that classification. On the flat pond of level 10 with collision
    height 2 the points at z = 7.5, 9.5, 10.5 and 12 are under water, in
    water, water walk and above water. *)
Theorem getLiquidStatus_classification :
  (forall (D : GridDefines) (S : DBCStores) (g : GridMap) (x y z : float)
          (ReqLiquidType : Z) (collisionHeight : float)
          (st : GridMapLiquidStatus) (w : option GridMapLiquidData),
      getLiquidStatus g x y z ReqLiquidType collisionHeight = Ret (st, w) ->
      match w with
      | None => st = LIQUID_MAP_NO_WATER
      | Some d =>
          getHeight g x y = Ret (depth_level d)
          /\ (level d <? depth_level d)%f32 = false
          /\ (z <? depth_level d - F32.of_int 2)%f32 = false
          /\ (m_liquid_map g = None -> level d = m_liquidLevel g)
          /\ st = classify_liquid (level d - z)%f32 collisionHeight
          /\ st <> LIQUID_MAP_NO_WATER
      end)
  /\ (forall (D : GridDefines) (S : DBCStores) (g : GridMap) (x y z : float)
             (ReqLiquidType : Z) (collisionHeight : float)
             (xi yi type0 entry0 entry type : Z) (liquid_level ground_level : float),
         is_null (m_liquidFlags g) && (m_liquidGlobalFlags g =? 0) = false ->
         F32.to_int (cell_coord MAP_RESOLUTION x) = Ret xi ->
         F32.to_int (cell_coord MAP_RESOLUTION y) = Ret yi ->
         let x_int := Z.land xi (MAP_RESOLUTION - 1) in
         let y_int := Z.land yi (MAP_RESOLUTION - 1) in
         let idx := Z.shiftr x_int 3 * 16 + Z.shiftr y_int 3 in
         let lx_int := x_int - m_liquid_offY g in
         let ly_int := y_int - m_liquid_offX g in
         match m_liquidFlags g with
         | Some liquidFlags => Mem.read_u8 liquidFlags idx
         | None => Ret (m_liquidGlobalFlags g)
         end = Ret type0 ->
         match m_liquidEntry g with
         | Some liquidEntry => Mem.read_u16 liquidEntry idx
         | None => Ret (m_liquidGlobalEntry g)
         end = Ret entry0 ->
         resolve_liquid g x y type0 entry0 = Ret (entry, type) ->
         type <> 0 ->
         ReqLiquidType = 0 \/ Z.land ReqLiquidType type <> 0 ->
         0 <= lx_int < m_liquid_height g ->
         0 <= ly_int < m_liquid_width g ->
         match m_liquid_map g with
         | Some liquid_map =>
             Mem.read_f32 liquid_map (lx_int * m_liquid_width g + ly_int)
         | None => Ret (m_liquidLevel g)
         end = Ret liquid_level ->
         getHeight g x y = Ret ground_level ->
         getLiquidStatus g x y z ReqLiquidType collisionHeight =
           if (liquid_level <? ground_level)%f32
              || (z <? ground_level - F32.of_int 2)%f32
           then Ret (LIQUID_MAP_NO_WATER, None)
           else Ret (classify_liquid (liquid_level - z)%f32 collisionHeight,
                     Some {| entry := entry; type_flags := type;
                             level := liquid_level; depth_level := ground_level |}))
  /\ (let status z :=
        fst <$> getLiquidStatus (H := upstream_defines) (H0 := Upstream.empty_stores)
                  Examples.pond (F32.of_int 0) (F32.of_int 0) z 0 (F32.of_int 2) in
      m_liquidLevel Examples.pond = F32.of_int 10
      /\ status (F32.of_dyadic 15 (-1)) = Ret LIQUID_MAP_UNDER_WATER
      /\ status (F32.of_dyadic 19 (-1)) = Ret LIQUID_MAP_IN_WATER
      /\ status (F32.of_dyadic 21 (-1)) = Ret LIQUID_MAP_WATER_WALK
      /\ status (F32.of_int 12) = Ret LIQUID_MAP_ABOVE_WATER).
Proof.
  split_and!.
  - intros D S g x y z ReqLiquidType collisionHeight st w Hrun.
    unfold getLiquidStatus in Hrun.
    inv_run Hrun; injection Hrun as <- <-; try reflexivity.
    all: cbn [level depth_level].
    all: repeat match goal with
                | E : (_ || _) = false |- _ => apply orb_false_elim in E as [? ?]
                end.
    all: split_and!; try assumption; try discriminate.
    all: try (intros Hm;
              match goal with
              | E : match m_liquid_map _ with _ => _ end = Ret _ |- _ =>
                  rewrite Hm in E; injection E as <-; reflexivity
              end).
    all: unfold classify_liquid;
         repeat match goal with
                | E : F32.gtb _ _ = _ |- _ => rewrite E; clear E
                end;
         reflexivity.
  - intros D S g x y z ReqLiquidType collisionHeight xi yi type0 entry0 entry type
      liquid_level ground_level Hliquid Hx Hy x_int y_int idx lx_int ly_int
      Htype Hentry Hres Hnz Hmask Hlx Hly Hlevel Hground.
    unfold getLiquidStatus. rewrite Hliquid, Hx. msimpl. rewrite Hy. msimpl.
    fold x_int y_int. fold idx.
    rewrite Htype. msimpl. rewrite Hentry. msimpl. rewrite Hres. msimpl.
    destruct (Z.eqb_spec type 0) as [|_]; [contradiction |].
    assert (Hadmit : negb (ReqLiquidType =? 0) && (Z.land ReqLiquidType type =? 0)
                     = false).
    { destruct Hmask as [-> | Hmask]; [reflexivity |].
      destruct (Z.eqb_spec (Z.land ReqLiquidType type) 0); [contradiction |].
      apply andb_false_r. }
    rewrite Hadmit. fold lx_int ly_int.
    destruct (Z.ltb_spec lx_int 0); [lia |].
    destruct (Z.leb_spec (m_liquid_height g) lx_int); [lia |].
    destruct (Z.ltb_spec ly_int 0); [lia |].
    destruct (Z.leb_spec (m_liquid_width g) ly_int); [lia |].
    cbn [orb]. rewrite Hlevel. msimpl. rewrite Hground. msimpl.
    destruct (_ || _); [reflexivity |].
    unfold classify_liquid.
    repeat match goal with
           | |- context [if ?c then _ else _] => destruct c
           end; reflexivity.
  - vm_compute. repeat split.
Qed.

(** C5, witness: the point at z = 9.5 in the flat pond, whose cell has
    the global liquid type 1 and lies in the window. *)
Lemma getLiquidStatus_classification_witness :
  getLiquidStatus (H := upstream_defines) (H0 := Upstream.empty_stores)
    Examples.pond (F32.of_int 0) (F32.of_int 0) (F32.of_dyadic 19 (-1)) 0 (F32.of_int 2)
  = Ret (LIQUID_MAP_IN_WATER,
         Some {| entry := 0; type_flags := 1;
                 level := F32.of_int 10; depth_level := F32.of_int 0 |}).
Proof.
  destruct getLiquidStatus_classification as (_ & Hcls & _).
  etransitivity.
  - apply (Hcls upstream_defines Upstream.empty_stores Examples.pond
             (F32.of_int 0) (F32.of_int 0) (F32.of_dyadic 19 (-1)) 0 (F32.of_int 2)
             4096 4096 1 0 0 1 (F32.of_int 10) (F32.of_int 0)).
    + vm_compute. reflexivity.
    + vm_compute. reflexivity.
    + vm_compute. reflexivity.
    + vm_compute. reflexivity.
    + vm_compute. reflexivity.
    + vm_compute. reflexivity.
    + discriminate.
    + left. reflexivity.
    + vm_compute. split; [discriminate | reflexivity].
    + vm_compute. split; [discriminate | reflexivity].
    + vm_compute. reflexivity.
    + vm_compute. reflexivity.
  - vm_compute. reflexivity.
Defined.

(** ** Reads inside a buffer *)

Lemma bytes_at_total (buf : Mem.buffer) (off : Z) (width : nat) :
  0 <= off -> off + Z.of_nat width <= Z.of_nat (length buf) ->
  exists bs, Mem.bytes_at buf off width = Ret bs.
Proof.
  intros H0 Hlen. unfold Mem.bytes_at.
  destruct (Z.ltb_spec off 0); [lia |].
  rewrite length_take, length_drop.
  replace (width `min` (length buf - Z.to_nat off))%nat with width by lia.
  rewrite Nat.eqb_refl. eauto.
Qed.

Lemma read_u8_total (buf : Mem.buffer) (i : Z) :
  0 <= i -> i + 1 <= Z.of_nat (length buf) ->
  exists v, Mem.read_u8 buf i = Ret v.
Proof.
  intros H0 Hlen. unfold Mem.read_u8.
  destruct (bytes_at_total buf i 1) as [bs ->]; [lia | lia |]. cbn. eauto.
Qed.

Lemma read_u16_total (buf : Mem.buffer) (i : Z) :
  0 <= i -> 2 * (i + 1) <= Z.of_nat (length buf) ->
  exists v, Mem.read_u16 buf i = Ret v.
Proof.
  intros H0 Hlen. unfold Mem.read_u16.
  destruct (bytes_at_total buf (2 * i) 2) as [bs ->]; [lia | lia |]. cbn. eauto.
Qed.

Lemma read_f32_total (buf : Mem.buffer) (i : Z) :
  0 <= i -> 4 * (i + 1) <= Z.of_nat (length buf) ->
  exists v, Mem.read_f32 buf i = Ret v.
Proof.
  intros H0 Hlen. unfold Mem.read_f32.
  destruct (bytes_at_total buf (4 * i) 4) as [bs ->]; [lia | lia |]. cbn. eauto.
Qed.

Lemma land_resolution (a : Z) : 0 <= Z.land a (MAP_RESOLUTION - 1) < MAP_RESOLUTION.
Proof.
  change (MAP_RESOLUTION - 1) with (Z.ones 7).
  rewrite Z.land_ones by lia.
  change MAP_RESOLUTION with (2 ^ 7). apply Z.mod_pos_bound. lia.
Qed.

Lemma land_15 (a : Z) : 0 <= Z.land a 15 < 16.
Proof.
  change 15 with (Z.ones 4).
  rewrite Z.land_ones by lia.
  change 16 with (2 ^ 4). apply Z.mod_pos_bound. lia.
Qed.

(** ** Height queries *)

Section Heights.
Context `{GridDefines}.

(** C4. On a tile with float samples, at a point that is not in a hole,
    [getHeightFromFloat] returns [a * fx + b * fy + c] for the fractional
    position [(fx, fy)] in the cell, where the triangle is selected by
    [fx + fy < 1] and then [fx > fy], and [a], [b], [c] are the
    coefficients of that triangle from the four corners of the coarse grid
    and twice the sample of the fine grid. *)
Theorem getHeightFromFloat_plane (g : GridMap) (x y : float)
    (v8 v9 : Mem.buffer) (xi yi : Z) :
  m_V8 g = Some v8 ->
  m_V9 g = Some v9 ->
  length v9 = (4 * (129 * 129))%nat ->
  length v8 = (4 * (128 * 128))%nat ->
  F32.to_int (cell_coord MAP_RESOLUTION x) = Ret xi ->
  F32.to_int (cell_coord MAP_RESOLUTION y) = Ret yi ->
  let x_int := Z.land xi (MAP_RESOLUTION - 1) in
  let y_int := Z.land yi (MAP_RESOLUTION - 1) in
  let fx := (cell_coord MAP_RESOLUTION x - F32.of_int xi)%f32 in
  let fy := (cell_coord MAP_RESOLUTION y - F32.of_int yi)%f32 in
  isHole g x_int y_int = Ret false ->
  exists h1 h2 h3 h4 v : float,
    Mem.read_f32 v9 (x_int * 129 + y_int) = Ret h1
    /\ Mem.read_f32 v9 ((x_int + 1) * 129 + y_int) = Ret h2
    /\ Mem.read_f32 v9 (x_int * 129 + y_int + 1) = Ret h3
    /\ Mem.read_f32 v9 ((x_int + 1) * 129 + y_int + 1) = Ret h4
    /\ Mem.read_f32 v8 (x_int * 128 + y_int) = Ret v
    /\ getHeightFromFloat g x y
       = Ret (plane_height fx fy h1 h2 h3 h4 (F32.of_int 2 * v)%f32).
Proof.
  intros HV8 HV9 Hl9 Hl8 Hxi Hyi x_int y_int fx fy Hhole.
  pose proof (land_resolution xi) as Hx. pose proof (land_resolution yi) as Hy.
  fold x_int in Hx. fold y_int in Hy. unfold MAP_RESOLUTION in Hx, Hy.
  destruct (read_f32_total v9 (x_int * 129 + y_int)) as [h1 Hh1]; [lia | lia |].
  destruct (read_f32_total v9 ((x_int + 1) * 129 + y_int)) as [h2 Hh2]; [lia | lia |].
  destruct (read_f32_total v9 (x_int * 129 + y_int + 1)) as [h3 Hh3]; [lia | lia |].
  destruct (read_f32_total v9 ((x_int + 1) * 129 + y_int + 1)) as [h4 Hh4]; [lia | lia |].
  destruct (read_f32_total v8 (x_int * 128 + y_int)) as [v Hv]; [lia | lia |].
  exists h1, h2, h3, h4, v. split_and!; try assumption.
  unfold getHeightFromFloat. rewrite HV8, HV9, Hxi. msimpl. rewrite Hyi. msimpl.
  fold x_int y_int fx fy. rewrite Hhole. msimpl.
  unfold plane_height, select_triangle.
  destruct (fx + fy <? F32.of_int 1)%f32, (fx >? fy)%f32;
    rewrite ?Hh1, ?Hh2, ?Hh3, ?Hh4; msimpl; rewrite ?Hh1, ?Hh2, ?Hh3, ?Hh4; msimpl;
    rewrite Hv; reflexivity.
Qed.

(** C1 (as amended). At a point whose cell is a hole of the hole mask a
    tile with the float strategy answers the invalid-height sentinel; a
    tile with the flat strategy answers its constant height whatever the
    hole mask says. *)
Theorem getHeight_hole (g : GridMap) (x y : float) :
  (forall xi yi,
      m_gridGetHeight g = getHeightFromFloat_ptr ->
      F32.to_int (cell_coord MAP_RESOLUTION x) = Ret xi ->
      F32.to_int (cell_coord MAP_RESOLUTION y) = Ret yi ->
      isHole g (Z.land xi (MAP_RESOLUTION - 1)) (Z.land yi (MAP_RESOLUTION - 1)) = Ret true ->
      getHeight g x y = Ret INVALID_HEIGHT_VALUE)
  /\ (m_gridGetHeight g = getHeightFromFlat_ptr ->
      getHeight g x y = Ret (m_gridHeight g)).
Proof.
  split.
  - intros xi yi Hptr Hxi Hyi Hhole.
    unfold getHeight. rewrite Hptr. unfold getHeightFromFloat.
    destruct (m_V8 g), (m_V9 g); try reflexivity.
    rewrite Hxi. msimpl. rewrite Hyi. msimpl. rewrite Hhole. reflexivity.
  - intros Hptr. unfold getHeight. rewrite Hptr. reflexivity.
Qed.

End Heights.

(** C4, witness: the world origin on a float tile without holes. *)
Lemma getHeightFromFloat_plane_witness :
  exists h1 h2 h3 h4 v fx fy : float,
    getHeightFromFloat (H := upstream_defines)
      (float_tile (replicate 512 Byte.x00)) (F32.of_int 0) (F32.of_int 0)
    = Ret (plane_height fx fy h1 h2 h3 h4 (F32.of_int 2 * v)%f32).
Proof.
  destruct (getHeightFromFloat_plane (H := upstream_defines)
              (float_tile (replicate 512 Byte.x00)) (F32.of_int 0) (F32.of_int 0)
              (replicate (4 * (128 * 128)) Byte.x00)
              (replicate (4 * (129 * 129)) Byte.x00) 4096 4096
              eq_refl eq_refl
              (length_replicate _ _) (length_replicate _ _)
              ltac:(vm_compute; reflexivity) ltac:(vm_compute; reflexivity)
              ltac:(vm_compute; reflexivity))
    as (h1 & h2 & h3 & h4 & v & _ & _ & _ & _ & _ & Hres).
  exists h1, h2, h3, h4, v. eexists. eexists. exact Hres.
Defined.

(** C1, witness: the world origin on a float tile all of whose cells are
    holes. *)
Lemma getHeight_hole_witness :
  getHeight (H := upstream_defines)
    (float_tile (replicate 512 Byte.xff)) (F32.of_int 0) (F32.of_int 0)
  = Ret (INVALID_HEIGHT_VALUE (GridDefines := upstream_defines)).
Proof.
  destruct (getHeight_hole (H := upstream_defines)
              (float_tile (replicate 512 Byte.xff)) (F32.of_int 0) (F32.of_int 0))
    as [Hfloat _].
  exact (Hfloat 4096 4096 eq_refl
           ltac:(vm_compute; reflexivity) ltac:(vm_compute; reflexivity)
           ltac:(vm_compute; reflexivity)).
Defined.

(** C1, counterexample: the tile loaded from a file with a hole table that
    marks every cell and a height block without samples answers its flat
    height 0 at the world origin, whose cell (0, 0) is a hole. *)
Lemma flat_tile_ignores_holes :
  let g := Examples.holed_flat in
  let o := F32.of_int 0 in
  loadData (H := upstream_defines)
    (Examples.directory Examples.holed_flat_file) "maps/0000000.map"
    (GridMap_new (H := upstream_defines)) = Ret (true, g)
  /\ (xi ← F32.to_int (cell_coord (H := upstream_defines) MAP_RESOLUTION o);
      isHole g (Z.land xi (MAP_RESOLUTION - 1)) (Z.land xi (MAP_RESOLUTION - 1)))
     = Ret true
  /\ getHeight (H := upstream_defines) g o o = Ret (F32.of_int 0)
  /\ F32.of_int 0 <> INVALID_HEIGHT_VALUE (GridDefines := upstream_defines).
Proof. vm_compute. repeat split. discriminate. Qed.

(** The 8-bit strategy does not look at the hole table either: the tile
    of samples 5 all of whose cells are holes answers height 5. *)
Lemma uint8_tile_ignores_holes :
  let g := Examples.tile_of holed_uint8_file in
  let o := F32.of_int 0 in
  m_gridGetHeight g = getHeightFromUint8_ptr
  /\ isHole g 0 0 = Ret true
  /\ getHeight (H := upstream_defines) g o o = Ret (F32.of_int 5).
Proof. vm_compute. repeat split. Qed.

(** ** The loader *)

Lemma field_take (bs : Mem.buffer) (n : nat) (off : Z) (width : nat) :
  0 <= off -> (Z.to_nat off + width <= n)%nat ->
  take width (drop (Z.to_nat off) bs) = take width (drop (Z.to_nat off) (take n bs)).
Proof.
  intros H0 Hn.
  rewrite !take_drop_commute, take_take.
  f_equal. f_equal. lia.
Qed.

Lemma field_of_tag (bs : Mem.buffer) (n : nat) (off : Z) (t : Z) :
  0 <= off -> (Z.to_nat off + 4 <= n)%nat ->
  tag_at bs off = Some t ->
  Mem.field (take n bs) off 4 = Ret t.
Proof.
  intros H0 Hn. unfold tag_at, Mem.field, Mem.bytes_at.
  destruct (Z.ltb_spec off 0); [lia |].
  rewrite <- (field_take bs n off 4 H0 Hn).
  destruct (length (take 4 (drop (Z.to_nat off) bs)) =? 4)%nat; [|discriminate].
  now intros [= <-].
Qed.

Lemma root_field_read (bs : Mem.buffer) (i t : Z) :
  0 <= i < 10 ->
  root_field bs i = Some t ->
  Mem.field (take 40 bs) (4 * i) 4 = Ret t.
Proof.
  intros Hi. unfold root_field.
  destruct (40 <=? length bs)%nat; [|discriminate].
  apply field_of_tag; lia.
Qed.

Section LoadFacts.
Context `{GridDefines}.

Lemma unloadData_no_sub_blocks (g : GridMap) :
  no_sub_blocks (unloadData g) /\ m_gridGetHeight (unloadData g) = getHeightFromFlat_ptr.
Proof. unfold no_sub_blocks. repeat split. Qed.

(** The first statements of [loadData] on a file that exists. *)
Lemma fread_root_header (bs : Mem.buffer) :
  Stdio.fread {| Stdio.contents := bs; Stdio.position := 0 |} sizeof_GridMapFileHeader 1
  = (take 40 bs, Z.of_nat (length (take 40 bs)) / 40,
     {| Stdio.contents := bs; Stdio.position := 0 + Z.of_nat (length (take 40 bs)) |}).
Proof. reflexivity. Qed.

(** C9. [loadData] on a path that names no file returns success and
    leaves a store without any sub-block and with the flat height
    strategy (the store its constructor made, when it started from that).
    On a file that exists it returns failure, leaving the store unloaded,
    when the first four bytes are not the map tag, and when they are but
    the next four bytes are not the version tag, whatever the length of
    the file beyond the tag that differs. *)
Theorem loadData_missing_or_foreign (fs : Stdio.filesystem) (filename : string)
    (g : GridMap) :
  (fs filename = None ->
   loadData fs filename g = Ret (true, unloadData g)
   /\ no_sub_blocks (unloadData g)
   /\ m_gridGetHeight (unloadData g) = getHeightFromFlat_ptr
   /\ unloadData GridMap_new = GridMap_new)
  /\ (forall bs mapMagic,
         fs filename = Some bs ->
         tag_at bs 0 = Some mapMagic ->
         mapMagic <> magic32 MAP_MAGIC
         \/ (exists versionMagic,
               tag_at bs 4 = Some versionMagic
               /\ versionMagic <> magic32 MAP_VERSION_MAGIC) ->
         loadData fs filename g = Ret (false, unloadData g)).
Proof.
  split.
  - intros Hfs. split_and!.
    + unfold loadData, Stdio.fopen. rewrite Hfs. reflexivity.
    + apply unloadData_no_sub_blocks.
    + reflexivity.
    + reflexivity.
  - intros bs mapMagic Hfs Hm Hbad.
    unfold loadData, Stdio.fopen. rewrite Hfs, fread_root_header.
    cbn beta iota.
    rewrite (field_of_tag bs 40 0 mapMagic ltac:(lia) ltac:(cbn; lia) Hm). msimpl.
    destruct (Z.eqb_spec mapMagic (magic32 MAP_MAGIC)) as [Heq|Hne]; [|reflexivity].
    cbn [negb].
    destruct Hbad as [Hbad | (versionMagic & Hv & Hbad)]; [contradiction |].
    rewrite (field_of_tag bs 40 4 versionMagic ltac:(lia) ltac:(cbn; lia) Hv). msimpl.
    destruct (Z.eqb_spec versionMagic (magic32 MAP_VERSION_MAGIC)); [|reflexivity].
    contradiction.
Qed.

End LoadFacts.

(** C9, witness: an empty data directory, and a file of ten asterisks. *)
Lemma loadData_missing_or_foreign_witness :
  loadData (H := upstream_defines) (fun _ => None) "maps/0000000.map"
    (GridMap_new (H := upstream_defines))
  = Ret (true, unloadData (GridMap_new (H := upstream_defines)))
  /\ loadData (H := upstream_defines)
       (Examples.directory short_foreign_file) "maps/0000000.map"
       (GridMap_new (H := upstream_defines))
     = Ret (false, unloadData (GridMap_new (H := upstream_defines))).
Proof.
  split.
  - destruct (loadData_missing_or_foreign (H := upstream_defines)
                (fun _ => None) "maps/0000000.map"
                (GridMap_new (H := upstream_defines))) as [Hmiss _].
    exact (proj1 (Hmiss eq_refl)).
  - destruct (loadData_missing_or_foreign (H := upstream_defines)
                (Examples.directory short_foreign_file) "maps/0000000.map"
                (GridMap_new (H := upstream_defines))) as [_ Hbad].
    apply (Hbad short_foreign_file 0x2a2a2a2a eq_refl eq_refl).
    left. discriminate.
Defined.

(** ** What one sub-block loader changes *)

Section LoaderFrames.
Context `{GridDefines}.
Import Stdio.

(** Unfolds a loader in [H : loader ... = Ret r] and splits its paths. *)
Ltac loader_inv H :=
  unfold loadAreaData, loadHolesData, loadHeightData, loadGridMapLiquidData,
         Mem.field_f32, fread, fseek in H;
  cbn beta iota zeta in H;
  inv_all;
  repeat match goal with
         | H' : Ret _ = Ret _ |- _ => ret_inj H'
         end.

Lemma loadAreaData_frame in_ offset g ok g' in' :
  loadAreaData in_ offset g = Ret (ok, g', in') ->
  contents in' = contents in_
  /\ m_V9 g' = m_V9 g /\ m_V8 g' = m_V8 g
  /\ m_liquidEntry g' = m_liquidEntry g /\ m_liquidFlags g' = m_liquidFlags g
  /\ m_liquid_map g' = m_liquid_map g
  /\ m_gridGetHeight g' = m_gridGetHeight g
  /\ m_fullyLoaded g' = m_fullyLoaded g.
Proof. intros Hrun. loader_inv Hrun; repeat split. Qed.

Lemma loadHolesData_frame in_ offset g ok g' in' :
  loadHolesData in_ offset g = Ret (ok, g', in') ->
  contents in' = contents in_
  /\ m_gridArea g' = m_gridArea g
  /\ m_area_map g' = m_area_map g
  /\ m_V9 g' = m_V9 g /\ m_V8 g' = m_V8 g
  /\ m_liquidEntry g' = m_liquidEntry g /\ m_liquidFlags g' = m_liquidFlags g
  /\ m_liquid_map g' = m_liquid_map g
  /\ m_gridGetHeight g' = m_gridGetHeight g
  /\ m_fullyLoaded g' = m_fullyLoaded g.
Proof. intros Hrun. loader_inv Hrun; repeat split. Qed.

Lemma loadHeightData_frame in_ offset g ok g' in' :
  loadHeightData in_ offset g = Ret (ok, g', in') ->
  contents in' = contents in_
  /\ m_gridArea g' = m_gridArea g
  /\ m_area_map g' = m_area_map g
  /\ m_liquidEntry g' = m_liquidEntry g /\ m_liquidFlags g' = m_liquidFlags g
  /\ m_liquid_map g' = m_liquid_map g
  /\ m_fullyLoaded g' = m_fullyLoaded g.
Proof. intros Hrun. loader_inv Hrun; repeat split. Qed.

Lemma loadGridMapLiquidData_frame in_ offset g ok g' in' :
  loadGridMapLiquidData in_ offset g = Ret (ok, g', in') ->
  contents in' = contents in_
  /\ m_area_map g' = m_area_map g
  /\ m_V9 g' = m_V9 g /\ m_V8 g' = m_V8 g
  /\ m_gridGetHeight g' = m_gridGetHeight g
  /\ m_fullyLoaded g' = m_fullyLoaded g.
Proof. intros Hrun. loader_inv Hrun; repeat split. Qed.


Lemma load_section_inv load header fo in_ g r :
  load_section load header fo in_ g = Ret r ->
  r = (true, g, in_) \/ exists off, load in_ off g = Ret r.
Proof.
  unfold load_section. intros Hrun. inv_run Hrun.
  - left. now ret_inj Hrun.
  - right. eauto.
Qed.

Lemma tag_at_header (file : Mem.buffer) (off : Z) (n : nat) (t : Z) :
  tag_at file off = Some t -> (4 <= n)%nat ->
  Mem.field (take n (drop (Z.to_nat off) file)) 0 4 = Ret t.
Proof.
  intros Ht Hn. apply field_of_tag; [lia | cbn; lia |].
  unfold tag_at in *. cbn [Z.to_nat drop]. exact Ht.
Qed.

Lemma root_field_total (bs : Mem.buffer) (i j t : Z) :
  root_field bs i = Some t -> 0 <= j < 10 -> exists u, root_field bs j = Some u.
Proof.
  unfold root_field. destruct (Nat.leb_spec 40 (length bs)); [|discriminate].
  intros _ Hj. unfold tag_at.
  rewrite length_take, length_drop.
  replace (4 `min` (length bs - Z.to_nat (4 * j)))%nat with 4%nat by lia.
  cbn. eauto.
Qed.

Lemma load_section_present load (bs : Mem.buffer) (i off : Z) in_ g :
  root_field bs i = Some off -> off <> 0 -> 0 <= i < 9 ->
  load_section load (take 40 bs) (4 * i) in_ g = load in_ off g.
Proof.
  intros Hoff Hne Hi. unfold load_section.
  rewrite (root_field_read bs i off ltac:(lia) Hoff). msimpl.
  destruct (Z.eqb_spec off 0); [contradiction |].
  destruct (root_field_total bs i (i + 1) off Hoff ltac:(lia)) as [sz Hsz].
  pose proof (root_field_read bs (i + 1) sz ltac:(lia) Hsz) as Hread.
  replace (4 * (i + 1)) with (4 * i + 4) in Hread by lia.
  rewrite Hread. reflexivity.
Qed.

Lemma loadAreaData_bad_tag in_ off g t :
  tag_at (contents in_) off = Some t -> t <> magic32 MAP_AREA_MAGIC ->
  exists in', loadAreaData in_ off g = Ret (false, g, in').
Proof.
  intros Ht Hne. unfold loadAreaData, fread, fseek. cbn beta iota zeta.
  cbn [contents position].
  rewrite (tag_at_header _ off _ t Ht) by (cbn; lia). msimpl.
  destruct (Z.eqb_spec t (magic32 MAP_AREA_MAGIC)); [contradiction |].
  cbn [negb]. eauto.
Qed.

Lemma loadHeightData_bad_tag in_ off g t :
  tag_at (contents in_) off = Some t -> t <> magic32 MAP_HEIGHT_MAGIC ->
  exists in', loadHeightData in_ off g = Ret (false, g, in').
Proof.
  intros Ht Hne. unfold loadHeightData, fread, fseek. cbn beta iota zeta.
  cbn [contents position].
  rewrite (tag_at_header _ off _ t Ht) by (cbn; lia). msimpl.
  destruct (Z.eqb_spec t (magic32 MAP_HEIGHT_MAGIC)); [contradiction |].
  cbn [negb]. eauto.
Qed.

Lemma loadGridMapLiquidData_bad_tag in_ off g t :
  tag_at (contents in_) off = Some t -> t <> magic32 MAP_LIQUID_MAGIC ->
  exists in', loadGridMapLiquidData in_ off g = Ret (false, g, in').
Proof.
  intros Ht Hne. unfold loadGridMapLiquidData, fread, fseek. cbn beta iota zeta.
  cbn [contents position].
  rewrite (tag_at_header _ off _ t Ht) by (cbn; lia). msimpl.
  destruct (Z.eqb_spec t (magic32 MAP_LIQUID_MAGIC)); [contradiction |].
  cbn [negb]. eauto.
Qed.

End LoaderFrames.

Section LoadFailure.
Context `{GridDefines}.
Import Stdio.

Lemma area_section_frame hdr fo in_ g ok g' in' :
  load_section loadAreaData hdr fo in_ g = Ret (ok, g', in') ->
  contents in' = contents in_
  /\ m_V9 g' = m_V9 g /\ m_V8 g' = m_V8 g
  /\ m_liquidEntry g' = m_liquidEntry g /\ m_liquidFlags g' = m_liquidFlags g
  /\ m_liquid_map g' = m_liquid_map g
  /\ m_gridGetHeight g' = m_gridGetHeight g
  /\ m_fullyLoaded g' = m_fullyLoaded g.
Proof.
  intros [[= -> -> ->]|[off Hrun]]%load_section_inv.
  - repeat split.
  - eapply loadAreaData_frame, Hrun.
Qed.

Lemma holes_section_frame hdr fo in_ g ok g' in' :
  load_section loadHolesData hdr fo in_ g = Ret (ok, g', in') ->
  contents in' = contents in_
  /\ m_gridArea g' = m_gridArea g
  /\ m_area_map g' = m_area_map g
  /\ m_V9 g' = m_V9 g /\ m_V8 g' = m_V8 g
  /\ m_liquidEntry g' = m_liquidEntry g /\ m_liquidFlags g' = m_liquidFlags g
  /\ m_liquid_map g' = m_liquid_map g
  /\ m_gridGetHeight g' = m_gridGetHeight g
  /\ m_fullyLoaded g' = m_fullyLoaded g.
Proof.
  intros [[= -> -> ->]|[off Hrun]]%load_section_inv.
  - repeat split.
  - eapply loadHolesData_frame, Hrun.
Qed.

Lemma height_section_frame hdr fo in_ g ok g' in' :
  load_section loadHeightData hdr fo in_ g = Ret (ok, g', in') ->
  contents in' = contents in_
  /\ m_gridArea g' = m_gridArea g
  /\ m_area_map g' = m_area_map g
  /\ m_liquidEntry g' = m_liquidEntry g /\ m_liquidFlags g' = m_liquidFlags g
  /\ m_liquid_map g' = m_liquid_map g
  /\ m_fullyLoaded g' = m_fullyLoaded g.
Proof.
  intros [[= -> -> ->]|[off Hrun]]%load_section_inv.
  - repeat split.
  - eapply loadHeightData_frame, Hrun.
Qed.

Lemma liquid_section_frame hdr fo in_ g ok g' in' :
  load_section loadGridMapLiquidData hdr fo in_ g = Ret (ok, g', in') ->
  contents in' = contents in_
  /\ m_area_map g' = m_area_map g
  /\ m_V9 g' = m_V9 g /\ m_V8 g' = m_V8 g
  /\ m_gridGetHeight g' = m_gridGetHeight g
  /\ m_fullyLoaded g' = m_fullyLoaded g.
Proof.
  intros [[= -> -> ->]|[off Hrun]]%load_section_inv.
  - repeat split.
  - eapply loadGridMapLiquidData_frame, Hrun.
Qed.

(** [loadData] on a file whose root tags are right, from the first
    sub-block on. *)
Lemma loadData_sections fs filename g bs :
  fs filename = Some bs ->
  root_field bs 0 = Some (magic32 MAP_MAGIC) ->
  root_field bs 1 = Some (magic32 MAP_VERSION_MAGIC) ->
  loadData fs filename g =
    let '(hdr, _, in0) :=
      fread {| contents := bs; position := 0 |} sizeof_GridMapFileHeader 1 in
    '(ok, g, in_) ← load_section loadAreaData hdr 8 in0 (unloadData g);
    if negb ok then Ret (false, g)
    else
      '(ok, g, in_) ← load_section loadHolesData hdr 32 in_ g;
      if negb ok then Ret (false, g)
      else
        '(ok, g, in_) ← load_section loadHeightData hdr 16 in_ g;
        if negb ok then Ret (false, g)
        else
          '(ok, g, in_) ← load_section loadGridMapLiquidData hdr 24 in_ g;
          if negb ok then Ret (false, g)
          else Ret (true, g).
Proof.
  intros Hfs Hm Hv.
  pose proof (root_field_read bs 0 _ ltac:(lia) Hm) as Hm'.
  pose proof (root_field_read bs 1 _ ltac:(lia) Hv) as Hv'.
  change (4 * 0) with 0 in Hm'. change (4 * 1) with 4 in Hv'.
  unfold loadData, fopen. rewrite Hfs, fread_root_header. cbn beta iota.
  rewrite Hm'. msimpl. rewrite Z.eqb_refl. cbn [negb].
  rewrite Hv'. msimpl. rewrite Z.eqb_refl. reflexivity.
Qed.

(** What [loadData] does when it reaches a present sub-block whose tag
    is wrong: it returns failure with the store as the sub-blocks loaded
    before it (in the order area, holes, height, liquid) left it. *)
Lemma loadData_bad_tag_paths fs filename g bs hdr n in0 :
  fs filename = Some bs ->
  fread {| contents := bs; position := 0 |} sizeof_GridMapFileHeader 1 = (hdr, n, in0) ->
  root_field bs 0 = Some (magic32 MAP_MAGIC) ->
  root_field bs 1 = Some (magic32 MAP_VERSION_MAGIC) ->
  let g0 := unloadData g in
  (forall off t,
      root_field bs 2 = Some off -> off <> 0 ->
      tag_at bs off = Some t -> t <> magic32 MAP_AREA_MAGIC ->
      loadData fs filename g = Ret (false, g0) /\ no_sub_blocks g0)
  /\ (forall g1 in1 g2 in2 off t,
         load_section loadAreaData hdr 8 in0 g0 = Ret (true, g1, in1) ->
         load_section loadHolesData hdr 32 in1 g1 = Ret (true, g2, in2) ->
         root_field bs 4 = Some off -> off <> 0 ->
         tag_at bs off = Some t -> t <> magic32 MAP_HEIGHT_MAGIC ->
         loadData fs filename g = Ret (false, g2)
         /\ m_area_map g2 = m_area_map g1 /\ m_gridArea g2 = m_gridArea g1
         /\ m_V9 g2 = None /\ m_V8 g2 = None
         /\ m_liquidEntry g2 = None /\ m_liquidFlags g2 = None
         /\ m_liquid_map g2 = None)
  /\ (forall g1 in1 g2 in2 g3 in3 off t,
         load_section loadAreaData hdr 8 in0 g0 = Ret (true, g1, in1) ->
         load_section loadHolesData hdr 32 in1 g1 = Ret (true, g2, in2) ->
         load_section loadHeightData hdr 16 in2 g2 = Ret (true, g3, in3) ->
         root_field bs 6 = Some off -> off <> 0 ->
         tag_at bs off = Some t -> t <> magic32 MAP_LIQUID_MAGIC ->
         loadData fs filename g = Ret (false, g3)
         /\ m_area_map g3 = m_area_map g1 /\ m_gridArea g3 = m_gridArea g1
         /\ m_liquidEntry g3 = None /\ m_liquidFlags g3 = None
         /\ m_liquid_map g3 = None).
Proof.
  intros Hfs Hread Hm Hv g0.
  pose proof (loadData_sections fs filename g bs Hfs Hm Hv) as Hload.
  rewrite Hread in Hload. cbn beta iota in Hload.
  rewrite fread_root_header in Hread.
  apply pair_equal_spec in Hread as [Hread Hin0].
  apply pair_equal_spec in Hread as [Hhdr _].
  assert (Hc0 : contents in0 = bs) by now subst in0.
  clear Hin0. subst hdr. fold g0 in Hload.
  destruct (unloadData_no_sub_blocks g) as ((N1 & N2 & N3 & N4 & N5 & N6) & _).
  fold g0 in N1, N2, N3, N4, N5, N6.
  split_and!.
  - intros off t Hoff Hne Ht Hbad. split; [|apply unloadData_no_sub_blocks].
    rewrite Hload.
    rewrite (load_section_present loadAreaData bs 2 off in0 g0 Hoff Hne ltac:(lia)).
    rewrite <- Hc0 in Ht.
    destruct (loadAreaData_bad_tag in0 off g0 t Ht Hbad) as [in' ->].
    reflexivity.
  - intros g1 in1 g2 in2 off t Ha Hh Hoff Hne Ht Hbad.
    destruct (area_section_frame _ _ _ _ _ _ _ Ha)
      as (Hc1 & H9 & H8 & Hle & Hlf & Hlm & _).
    destruct (holes_section_frame _ _ _ _ _ _ _ Hh)
      as (Hc2 & Hga & Ham & H9' & H8' & Hle' & Hlf' & Hlm' & _).
    split_and!; try congruence.
    rewrite Hload, Ha. msimpl. cbn [negb]. rewrite Hh. msimpl. cbn [negb].
    rewrite (load_section_present loadHeightData bs 4 off in2 g2 Hoff Hne ltac:(lia)).
    rewrite <- Hc0, <- Hc1, <- Hc2 in Ht.
    destruct (loadHeightData_bad_tag in2 off g2 t Ht Hbad) as [in' ->].
    reflexivity.
  - intros g1 in1 g2 in2 g3 in3 off t Ha Hh Hg Hoff Hne Ht Hbad.
    destruct (area_section_frame _ _ _ _ _ _ _ Ha)
      as (Hc1 & H9 & H8 & Hle & Hlf & Hlm & _).
    destruct (holes_section_frame _ _ _ _ _ _ _ Hh)
      as (Hc2 & Hga & Ham & H9' & H8' & Hle' & Hlf' & Hlm' & _).
    destruct (height_section_frame _ _ _ _ _ _ _ Hg)
      as (Hc3 & Hga' & Ham' & Hle'' & Hlf'' & Hlm'' & _).
    split_and!; try congruence.
    rewrite Hload, Ha. msimpl. cbn [negb]. rewrite Hh. msimpl. cbn [negb].
    rewrite Hg. msimpl. cbn [negb].
    rewrite (load_section_present loadGridMapLiquidData bs 6 off in3 g3 Hoff Hne ltac:(lia)).
    rewrite <- Hc0, <- Hc1, <- Hc2, <- Hc3 in Ht.
    destruct (loadGridMapLiquidData_bad_tag in3 off g3 t Ht Hbad) as [in' ->].
    reflexivity.
Qed.

End LoadFailure.

(** ** The fullyLoaded flag *)

Section FullyLoaded.
Context {V M T : Type} `{IVMapManager V} `{MMapManager M} `{IntervalTimer T}.
Context `{GridDefines}.
Variable dataPath : string.
Variable fs : Stdio.filesystem.
Implicit Types s : TerrainInfo V M T.

Lemma loadData_fullyLoaded filename g ok g' :
  loadData fs filename g = Ret (ok, g') -> m_fullyLoaded g' = m_fullyLoaded g.
Proof.
  unfold loadData. intros Hrun.
  destruct (Stdio.fopen fs filename) as [in_|]; [|now ret_inj Hrun].
  unfold Stdio.fread in Hrun. cbn beta iota zeta in Hrun.
  inv_run Hrun; ret_inj Hrun;
    repeat match goal with
           | Hs : load_section loadAreaData _ _ _ _ = Ret _ |- _ =>
               apply area_section_frame in Hs
           | Hs : load_section loadHolesData _ _ _ _ = Ret _ |- _ =>
               apply holes_section_frame in Hs
           | Hs : load_section loadHeightData _ _ _ _ = Ret _ |- _ =>
               apply height_section_frame in Hs
           | Hs : load_section loadGridMapLiquidData _ _ _ _ = Ret _ |- _ =>
               apply liquid_section_frame in Hs
           end;
    change (m_fullyLoaded (unloadData g)) with (m_fullyLoaded g) in *;
    intuition congruence.
Qed.

(** The locked block of [LoadMapAndVMap]: the slot is filled if it was
    empty, with a store whose flag is clear, and nothing else changes. *)
Lemma LoadMapAndVMap_map_spec s x y s1 :
  LoadMapAndVMap_map dataPath fs s x y = Ret s1 ->
  m_mapId s1 = m_mapId s /\ m_vmgr s1 = m_vmgr s /\ m_mmgr s1 = m_mmgr s
  /\ (forall k', k' <> (x, y) -> m_GridMaps s1 !! k' = m_GridMaps s !! k')
  /\ exists g1,
       m_GridMaps s1 !! (x, y) = Some g1
       /\ m_fullyLoaded g1 = fully_loaded s (x, y)
       /\ (forall g, m_GridMaps s !! (x, y) = Some g -> g1 = g).
Proof.
  unfold fully_loaded, LoadMapAndVMap_map.
  destruct (m_GridMaps s !! (x, y)) as [g|] eqn:Hslot; cbn [is_null].
  - intros Hrun. ret_inj Hrun. split_and!; try reflexivity.
    exists g. rewrite Hslot. split_and!; [reflexivity | reflexivity |].
    now intros ? [= ->].
  - cbn zeta. intros Hrun.
    apply bind_Ret in Hrun as ([ok map] & Hload & Hrun). cbn beta iota in Hrun.
    ret_inj Hrun. apply loadData_fullyLoaded in Hload.
    split_and!; try reflexivity.
    + intros k' Hne. cbn. now rewrite lookup_insert_ne.
    + exists map. cbn. rewrite lookup_insert_eq.
      split_and!; [reflexivity | exact Hload | discriminate].
Qed.

Lemma LoadMapAndVMap_vmap_spec s x y :
  let s' := LoadMapAndVMap_vmap dataPath s x y in
  m_mapId s' = m_mapId s /\ m_mmgr s' = m_mmgr s /\ m_GridMaps s' = m_GridMaps s
  /\ m_vmgr s' =
       (if IsTileLoaded (m_vmgr s) (m_mapId s) x y then m_vmgr s
        else (VMAP_loadMap (m_vmgr s) (String.append dataPath "vmaps")
                (m_mapId s) x y).2).
Proof.
  unfold LoadMapAndVMap_vmap.
  destruct (IsTileLoaded (m_vmgr s) (m_mapId s) x y); cbn [negb].
  - repeat split.
  - destruct (VMAP_loadMap _ _ _ _ _). repeat split.
Qed.

Lemma LoadMapAndVMap_mmap_spec s x y :
  let s' := LoadMapAndVMap_mmap s x y in
  m_mapId s' = m_mapId s /\ m_vmgr s' = m_vmgr s /\ m_GridMaps s' = m_GridMaps s
  /\ m_mmgr s' =
       (if IsMMapIsLoaded (m_mmgr s) (m_mapId s) x y then m_mmgr s
        else (MMAP_loadMap (m_mmgr s) (m_mapId s) x y).2).
Proof.
  unfold LoadMapAndVMap_mmap.
  destruct (IsMMapIsLoaded (m_mmgr s) (m_mapId s) x y); cbn [negb].
  - repeat split.
  - destruct (MMAP_loadMap _ _ _ _). repeat split.
Qed.

Lemma LoadMapAndVMap_mark_spec s x y g :
  m_GridMaps s !! (x, y) = Some g ->
  let s' := LoadMapAndVMap_mark s x y in
  m_vmgr s' = m_vmgr s /\ m_mmgr s' = m_mmgr s
  /\ m_GridMaps s' = <[(x, y) := SetFullyLoaded g]> (m_GridMaps s).
Proof. intros Hk. unfold LoadMapAndVMap_mark. rewrite Hk. repeat split. Qed.

(** When [LoadMapAndVMap] sets the flag, and what it leaves alone. *)
Lemma LoadMapAndVMap_flag s (x y : Z) (mapOnly : bool) r s' :
  LoadMapAndVMap dataPath fs s x y mapOnly = Ret (r, s') ->
  let k := (x, y) in
  let already :=
    IsTileLoaded (m_vmgr s) (m_mapId s) x y
    && IsMMapIsLoaded (m_mmgr s) (m_mapId s) x y in
  r = m_GridMaps s' !! k
  /\ (forall k', k' <> k -> m_GridMaps s' !! k' = m_GridMaps s !! k')
  /\ (forall k', fully_loaded s k' = true -> fully_loaded s' k' = true)
  /\ (mapOnly || already = true -> fully_loaded s' k = fully_loaded s k)
  /\ (mapOnly || already = false ->
      fully_loaded s' k = true
      /\ m_vmgr s' =
           (if IsTileLoaded (m_vmgr s) (m_mapId s) x y then m_vmgr s
            else (VMAP_loadMap (m_vmgr s) (String.append dataPath "vmaps")
                    (m_mapId s) x y).2)
      /\ m_mmgr s' =
           (if IsMMapIsLoaded (m_mmgr s) (m_mapId s) x y then m_mmgr s
            else (MMAP_loadMap (m_mmgr s) (m_mapId s) x y).2)).
Proof.
  intros Hrun k already. unfold LoadMapAndVMap in Hrun.
  apply bind_Ret in Hrun as (k0 & [-> Hg]%at_grid_Ret & Hrun).
  fold k already in Hrun.
  destruct (negb (is_null (m_GridMaps s !! k)) && mapOnly || already) eqn:Hearly.
  - (* nothing to load here *)
    ret_inj Hrun. split_and!; try reflexivity; try tauto.
    intros Hno. apply orb_false_elim in Hno as [-> Hal].
    rewrite Hal, andb_false_r in Hearly. discriminate.
  - apply orb_false_elim in Hearly as [Hslot Hal].
    apply bind_Ret in Hrun as (s1 & Hfill & Hrun).
    apply LoadMapAndVMap_map_spec in Hfill
      as (Hid & Hvm & Hmm & Hother & g1 & Hk & Hflag & Hsame).
    fold k in Hk, Hflag, Hsame, Hother.
    assert (Hkeep : forall k', fully_loaded s k' = true -> fully_loaded s1 k' = true).
    { intros k' Hf. destruct (decide (k' = k)) as [->|Hne].
      - unfold fully_loaded at 1. rewrite Hk, Hflag. exact Hf.
      - unfold fully_loaded in *. now rewrite Hother. }
    destruct mapOnly.
    + (* we'll load the rest later *)
      ret_inj Hrun. split_and!.
      * reflexivity.
      * exact Hother.
      * exact Hkeep.
      * intros _. unfold fully_loaded at 1. rewrite Hk, Hflag. reflexivity.
      * discriminate.
    + cbn zeta in Hrun. ret_inj Hrun.
      set (s2 := LoadMapAndVMap_vmap dataPath s1 x y).
      set (s3 := LoadMapAndVMap_mmap s2 x y).
      destruct (LoadMapAndVMap_vmap_spec s1 x y) as (Hid2 & Hmm2 & Hmaps2 & Hvm2).
      fold s2 in Hid2, Hmm2, Hmaps2, Hvm2.
      destruct (LoadMapAndVMap_mmap_spec s2 x y) as (Hid3 & Hvm3 & Hmaps3 & Hmm3).
      fold s3 in Hid3, Hvm3, Hmaps3, Hmm3.
      assert (Hk3 : m_GridMaps s3 !! k = Some g1) by now rewrite Hmaps3, Hmaps2.
      destruct (LoadMapAndVMap_mark_spec s3 x y g1 Hk3) as (Hvm4 & Hmm4 & Hmaps4).
      fold k in Hmaps4.
      split_and!.
      * reflexivity.
      * intros k' Hne. rewrite Hmaps4, lookup_insert_ne by congruence.
        rewrite Hmaps3, Hmaps2. apply Hother, Hne.
      * intros k' Hf. unfold fully_loaded. rewrite Hmaps4.
        destruct (decide (k' = k)) as [->|Hne].
        -- now rewrite lookup_insert_eq.
        -- rewrite lookup_insert_ne by congruence. rewrite Hmaps3, Hmaps2.
           apply Hkeep in Hf. exact Hf.
      * cbn [orb]. intros Hal'. rewrite Hal' in Hal. discriminate.
      * intros _. split_and!.
        -- unfold fully_loaded. rewrite Hmaps4. now rewrite lookup_insert_eq.
        -- rewrite Hvm4, Hvm3, Hvm2, Hvm, Hid. reflexivity.
        -- rewrite Hmm4, Hmm3, Hid2, Hmm2, Hmm, Hid. reflexivity.
Qed.

Lemma fully_loaded_maps s s' k :
  m_GridMaps s' = m_GridMaps s -> fully_loaded s' k = fully_loaded s k.
Proof. unfold fully_loaded. now intros ->. Qed.

Lemma RefGrid_maps s x y r s' :
  RefGrid s x y = Ret (r, s') -> m_GridMaps s' = m_GridMaps s.
Proof. unfold RefGrid. intros Hrun. inv_run Hrun. now ret_inj Hrun. Qed.

Lemma UnrefGrid_maps s x y r s' :
  UnrefGrid s x y = Ret (r, s') -> m_GridMaps s' = m_GridMaps s.
Proof. unfold UnrefGrid. intros Hrun. inv_run Hrun; now ret_inj Hrun. Qed.

Lemma Load_keeps_flag s x y mapOnly r s' k :
  Load dataPath fs s x y mapOnly = Ret (r, s') ->
  fully_loaded s k = true -> fully_loaded s' k = true.
Proof.
  unfold Load. intros Hrun Hf. inv_run Hrun; ret_inj Hrun.
  - match goal with Hr : RefGrid _ _ _ = Ret _ |- _ => apply RefGrid_maps in Hr end.
    erewrite fully_loaded_maps; [exact Hf | congruence].
  - match goal with Hr : RefGrid _ _ _ = Ret _ |- _ => apply RefGrid_maps in Hr end.
    match goal with
    | Hl : LoadMapAndVMap _ _ _ _ _ _ = Ret _ |- _ =>
        apply LoadMapAndVMap_flag in Hl as (_ & _ & Hkeep & _)
    end.
    rewrite (fully_loaded_maps _ (set_LoadAttempted _ _ _)) by reflexivity.
    apply Hkeep. erewrite fully_loaded_maps; [exact Hf | congruence].
Qed.

Lemma Unload_keeps_flag s x y s' k :
  Unload s x y = Ret s' ->
  fully_loaded s k = true -> fully_loaded s' k = true.
Proof.
  unfold Unload. intros Hrun Hf. inv_run Hrun; apply Ret_inj in Hrun; subst;
    try exact Hf;
    match goal with Hr : UnrefGrid _ _ _ = Ret _ |- _ => apply UnrefGrid_maps in Hr end;
    erewrite fully_loaded_maps; first [exact Hf | cbn; congruence].
Qed.

Lemma GetGrid_keeps_flag s x y loadOnlyMap r s' k :
  GetGrid dataPath fs s x y loadOnlyMap = Ret (r, s') ->
  fully_loaded s k = true -> fully_loaded s' k = true.
Proof.
  unfold GetGrid. intros Hrun Hf. inv_run Hrun; ret_inj Hrun; try exact Hf;
    match goal with
    | Hl : LoadMapAndVMap _ _ _ _ _ _ = Ret _ |- _ =>
        apply LoadMapAndVMap_flag in Hl as (_ & _ & Hkeep & _)
    end;
    rewrite (fully_loaded_maps _ (set_LoadAttempted _ _ _)) by reflexivity;
    apply Hkeep, Hf.
Qed.

Lemma CleanUpGrids_flag s diff k :
  fully_loaded s k = true ->
  fully_loaded (CleanUpGrids s diff) k = true
  \/ m_GridMaps (CleanUpGrids s diff) !! k = None.
Proof.
  intros Hf. unfold CleanUpGrids.
  set (s0 := set_i_timer s (Update (i_timer s) diff)).
  destruct (negb (Passed (i_timer s0))); [left; exact Hf |].
  destruct (CleanUpGrid_foldl grid_cells s0 grid_cells_NoDup)
    as (_ & _ & _ & Hslot & _).
  revert Hslot. generalize (foldl CleanUpGrid s0 grid_cells). intros sf Hslot.
  unfold fully_loaded. cbn [m_GridMaps set_i_timer]. rewrite Hslot.
  destruct (bool_decide (k ∈ grid_cells) && sweepable s0 k); [right; reflexivity |].
  left. exact Hf.
Qed.

(** C3 (as amended). [LoadMapAndVMap] sets the fullyLoaded flag of a slot
    exactly when it is called without [mapOnly] and does not return at
    once because both providers report the tile loaded: the flag is then
    set once the slot holds a store, the collision mesh was loaded through
    the provider unless it reported the tile loaded, and likewise the
    navmesh, whatever the three loads returned. A call with [mapOnly] or
    one that returns at once leaves the flag of every slot as it was. A
    flag that is set stays set through [LoadMapAndVMap], [GetGrid], [Load]
    and [Unload]; through [CleanUpGrids] it stays set unless the slot is
    emptied. *)
Theorem fullyLoaded_flag s (x y : Z) :
  (forall mapOnly r s',
      LoadMapAndVMap dataPath fs s x y mapOnly = Ret (r, s') ->
      let already :=
        IsTileLoaded (m_vmgr s) (m_mapId s) x y
        && IsMMapIsLoaded (m_mmgr s) (m_mapId s) x y in
      (mapOnly || already = true -> fully_loaded s' (x, y) = fully_loaded s (x, y))
      /\ (mapOnly || already = false ->
          fully_loaded s' (x, y) = true
          /\ m_vmgr s' =
               (if IsTileLoaded (m_vmgr s) (m_mapId s) x y then m_vmgr s
                else (VMAP_loadMap (m_vmgr s) (String.append dataPath "vmaps")
                        (m_mapId s) x y).2)
          /\ m_mmgr s' =
               (if IsMMapIsLoaded (m_mmgr s) (m_mapId s) x y then m_mmgr s
                else (MMAP_loadMap (m_mmgr s) (m_mapId s) x y).2))
      /\ (forall k', k' <> (x, y) -> fully_loaded s' k' = fully_loaded s k')
      /\ (forall k', fully_loaded s k' = true -> fully_loaded s' k' = true))
  /\ (forall fx fy loadOnlyMap r s' k,
         GetGrid dataPath fs s fx fy loadOnlyMap = Ret (r, s') ->
         fully_loaded s k = true -> fully_loaded s' k = true)
  /\ (forall mapOnly r s' k,
         Load dataPath fs s x y mapOnly = Ret (r, s') ->
         fully_loaded s k = true -> fully_loaded s' k = true)
  /\ (forall s' k,
         Unload s x y = Ret s' ->
         fully_loaded s k = true -> fully_loaded s' k = true)
  /\ (forall diff k,
         fully_loaded s k = true ->
         fully_loaded (CleanUpGrids s diff) k = true
         \/ m_GridMaps (CleanUpGrids s diff) !! k = None).
Proof.
  split_and!.
  - intros mapOnly r s' Hrun already.
    destruct (LoadMapAndVMap_flag s x y mapOnly r s' Hrun)
      as (_ & Hother & Hkeep & Hsame & Hset).
    split_and!; try assumption.
    intros k' Hne. unfold fully_loaded. now rewrite Hother.
  - intros fx fy loadOnlyMap r s' k. apply GetGrid_keeps_flag.
  - intros mapOnly r s' k. apply Load_keeps_flag.
  - intros s' k. apply Unload_keeps_flag.
  - intros diff k. apply CleanUpGrids_flag.
Qed.

End FullyLoaded.

(** C3, witness: the first full load of tile (0, 0) of a fresh cache whose
    providers have data, from an empty data directory. *)
Lemma fullyLoaded_flag_witness :
  match LoadMapAndVMap (H2 := upstream_defines) "" (fun _ => None)
          (Upstream.fresh_cache Upstream.with_data Upstream.with_data) 0 0 false with
  | Ret (_, s') => fully_loaded s' (0, 0) = true
  | Fault _ => False
  end.
Proof.
  destruct (LoadMapAndVMap _ _ _ _ _ _) as [[r s']|f] eqn:Hrun.
  - destruct (fullyLoaded_flag (H2 := upstream_defines) "" (fun _ => None)
                (Upstream.fresh_cache Upstream.with_data Upstream.with_data) 0 0)
      as [Hload _].
    destruct (Hload false r s' Hrun) as (_ & Hset & _).
    exact (proj1 (Hset eq_refl)).
  - vm_compute in Hrun. discriminate Hrun.
Defined.

(** C3, counterexample: the tile file is not a tile file, so [loadData]
    fails, and neither provider has data, so the collision-mesh load
    returns an error and the navmesh load fails; [LoadMapAndVMap] still
    sets the flag of the slot. *)
Lemma fullyLoaded_despite_failed_loads :
  let fs := Examples.directory Examples.garbage_file in
  let s := Upstream.fresh_cache Upstream.no_data Upstream.no_data in
  map_file_name "" (m_mapId s) 0 0 = "maps/0000000.map"
  /\ (exists g, loadData (H := upstream_defines) fs "maps/0000000.map"
                  (GridMap_new (H := upstream_defines)) = Ret (false, g))
  /\ (VMAP_loadMap (m_vmgr s) "vmaps" (m_mapId s) 0 0).1 = VMAP_LOAD_RESULT_ERROR
  /\ (MMAP_loadMap (m_mmgr s) (m_mapId s) 0 0).1 = false
  /\ match LoadMapAndVMap (H2 := upstream_defines) "" fs s 0 0 false with
     | Ret (Some g, s') => m_fullyLoaded g = true /\ fully_loaded s' (0, 0) = true
     | _ => False
     end.
Proof.
  split_and!; try (vm_compute; reflexivity).
  - eexists. vm_compute. reflexivity.
  - vm_compute. split; reflexivity.
Qed.

(** ** Totality of the queries *)

Lemma returns_Ret {A} (a : A) : returns (Ret a).
Proof. now exists a. Qed.

Lemma returns_bind {A B} (m : outcome A) (k : A -> outcome B) (a : A) :
  m = Ret a -> returns (k a) -> returns (m ≫= k).
Proof. now intros ->. Qed.

Lemma table_at_total (t : list Z) (i : Z) :
  0 <= i < Z.of_nat (length t) -> exists v, table_at t i = Ret v.
Proof.
  intros Hi. unfold table_at.
  destruct (Z.ltb_spec i 0); [lia |].
  destruct (t !! Z.to_nat i) as [v|] eqn:Hl; [eauto |].
  apply lookup_ge_None in Hl. lia.
Qed.

Section Totality.
Context `{GridDefines} `{DBCStores}.

Lemma isHole_total (g : GridMap) (row col : Z) :
  Z.of_nat (length (m_holes g)) = 512 ->
  0 <= row < 128 -> 0 <= col < 128 ->
  exists b, isHole g row col = Ret b.
Proof.
  intros Hlen Hrow Hcol. unfold isHole.
  rewrite (Z.quot_div_nonneg row 8), (Z.quot_div_nonneg col 8) by lia.
  rewrite (Z.rem_mod_nonneg row 8) by lia.
  assert (0 <= row `div` 8 < 16) by (Z.div_mod_to_equations; lia).
  assert (0 <= col `div` 8 < 16) by (Z.div_mod_to_equations; lia).
  assert (Hc : 0 <= col - col `div` 8 * 8 < 8) by (Z.div_mod_to_equations; lia).
  assert (Hr : 0 <= row `mod` 8 < 8) by (Z.div_mod_to_equations; lia).
  rewrite (Z.quot_div_nonneg (row `mod` 8) 2), (Z.quot_div_nonneg (col - _) 2) by lia.
  destruct (Z.leb_spec 0 (row `div` 8)); [|lia].
  destruct (Z.ltb_spec (row `div` 8) 16); [|lia].
  destruct (Z.leb_spec 0 (col `div` 8)); [|lia].
  destruct (Z.ltb_spec (col `div` 8) 16); [|lia].
  cbn [andb].
  destruct (read_u16_total (m_holes g) (row `div` 8 * 16 + col `div` 8))
    as [hole ->]; [lia | lia |]. msimpl.
  destruct (table_at_total holetab_h ((col - col `div` 8 * 8) `div` 2)) as [h ->].
  { cbn [holetab_h length]. Z.div_mod_to_equations; lia. }
  msimpl.
  destruct (table_at_total holetab_v ((row `mod` 8) `div` 2)) as [v ->].
  { cbn [holetab_v length]. Z.div_mod_to_equations; lia. }
  msimpl. eauto.
Qed.

Lemma getArea_total (g : GridMap) (x y : float) :
  complete g -> valid_coord x -> valid_coord y -> returns (getArea g x y).
Proof.
  intros (Ha & _) [[xi Hx] _] [[yi Hy] _]. unfold getArea.
  destruct (m_area_map g) as [b|] eqn:Hb; [|apply returns_Ret].
  rewrite Hx. msimpl. rewrite Hy. msimpl.
  pose proof (land_15 xi). pose proof (land_15 yi). specialize (Ha b eq_refl).
  apply read_u16_total; lia.
Qed.

Lemma getTerrainType_total (g : GridMap) (x y : float) :
  complete g -> valid_coord x -> valid_coord y -> returns (getTerrainType g x y).
Proof.
  intros (_ & _ & Hf & _) [[xi Hx] _] [[yi Hy] _]. unfold getTerrainType.
  destruct (m_liquidFlags g) as [b|] eqn:Hb; [|apply returns_Ret].
  rewrite Hx. msimpl. rewrite Hy. msimpl.
  pose proof (land_15 xi). pose proof (land_15 yi). specialize (Hf b eq_refl).
  apply read_u8_total; lia.
Qed.

Lemma getHeightFromFloat_total (g : GridMap) (x y : float) :
  Z.of_nat (length (m_holes g)) = 512 ->
  sized (m_V9 g) (4 * (129 * 129)) -> sized (m_V8 g) (4 * (128 * 128)) ->
  valid_coord x -> valid_coord y -> returns (getHeightFromFloat g x y).
Proof.
  intros Hholes H9 H8 [_ [xi Hx]] [_ [yi Hy]]. unfold getHeightFromFloat.
  destruct (m_V8 g) as [v8|]; [|apply returns_Ret].
  destruct (m_V9 g) as [v9|]; [|apply returns_Ret].
  specialize (H9 v9 eq_refl). specialize (H8 v8 eq_refl).
  rewrite Hx. msimpl. rewrite Hy. msimpl.
  pose proof (land_resolution xi) as Hxi. pose proof (land_resolution yi) as Hyi.
  set (x_int := Z.land xi (MAP_RESOLUTION - 1)) in *.
  set (y_int := Z.land yi (MAP_RESOLUTION - 1)) in *.
  clearbody x_int y_int. unfold MAP_RESOLUTION in Hxi, Hyi.
  destruct (isHole_total g x_int y_int Hholes Hxi Hyi) as [hole ->]. msimpl.
  destruct hole; [apply returns_Ret |].
  destruct (read_f32_total v9 (x_int * 129 + y_int)) as [h1 Hh1]; [lia | lia |].
  destruct (read_f32_total v9 ((x_int + 1) * 129 + y_int)) as [h2 Hh2]; [lia | lia |].
  destruct (read_f32_total v9 (x_int * 129 + y_int + 1)) as [h3 Hh3]; [lia | lia |].
  destruct (read_f32_total v9 ((x_int + 1) * 129 + y_int + 1)) as [h4 Hh4]; [lia | lia |].
  destruct (read_f32_total v8 (x_int * 128 + y_int)) as [v Hv]; [lia | lia |].
  destruct (_ <? _)%f32, (_ >? _)%f32;
    rewrite ?Hh1, ?Hh2, ?Hh3, ?Hh4; msimpl; rewrite ?Hh1, ?Hh2, ?Hh3, ?Hh4; msimpl;
    rewrite Hv; msimpl; apply returns_Ret.
Qed.

Lemma getHeightFromUint_total (read : Mem.buffer -> Z -> outcome Z) (w : Z)
    (g : GridMap) (x y : float) :
  (forall b i, 0 <= i -> w * (i + 1) <= Z.of_nat (length b) -> exists v, read b i = Ret v) ->
  sized (m_V9 g) (w * (129 * 129)) -> sized (m_V8 g) (w * (128 * 128)) ->
  0 < w ->
  valid_coord x -> valid_coord y -> returns (getHeightFromUint read g x y).
Proof.
  intros Hread H9 H8 Hw [_ [xi Hx]] [_ [yi Hy]]. unfold getHeightFromUint.
  destruct (m_V8 g) as [v8|]; [|apply returns_Ret].
  destruct (m_V9 g) as [v9|]; [|apply returns_Ret].
  specialize (H9 v9 eq_refl). specialize (H8 v8 eq_refl).
  rewrite Hx. msimpl. rewrite Hy. msimpl.
  pose proof (land_resolution xi) as Hxi. pose proof (land_resolution yi) as Hyi.
  set (x_int := Z.land xi (MAP_RESOLUTION - 1)) in *.
  set (y_int := Z.land yi (MAP_RESOLUTION - 1)) in *.
  clearbody x_int y_int. unfold MAP_RESOLUTION in Hxi, Hyi.
  cbn zeta.
  destruct (Hread v9 (x_int * 128 + x_int + y_int + 0)) as [h1 Hh1]; [lia | nia |].
  destruct (Hread v9 (x_int * 128 + x_int + y_int + 129)) as [h2 Hh2]; [lia | nia |].
  destruct (Hread v9 (x_int * 128 + x_int + y_int + 1)) as [h3 Hh3]; [lia | nia |].
  destruct (Hread v9 (x_int * 128 + x_int + y_int + 130)) as [h4 Hh4]; [lia | nia |].
  destruct (Hread v8 (x_int * 128 + y_int)) as [v Hv]; [lia | nia |].
  destruct (_ <? _)%f32, (_ >? _)%f32;
    rewrite ?Hh1, ?Hh2, ?Hh3, ?Hh4; msimpl; rewrite ?Hh1, ?Hh2, ?Hh3, ?Hh4; msimpl;
    rewrite Hv; msimpl; apply returns_Ret.
Qed.

Lemma getHeight_total (g : GridMap) (x y : float) :
  complete g -> valid_coord x -> valid_coord y -> returns (getHeight g x y).
Proof.
  intros (_ & _ & _ & _ & Hholes & _ & _ & Hh) Hx Hy. unfold getHeight.
  destruct (m_gridGetHeight g).
  - apply returns_Ret.
  - destruct Hh. now apply getHeightFromFloat_total.
  - destruct Hh as [H9 H8]. unfold getHeightFromUint8.
    apply (getHeightFromUint_total Mem.read_u8 1); try assumption; try lia.
    intros b i Hi Hlen. apply read_u8_total; lia.
  - destruct Hh as [H9 H8]. unfold getHeightFromUint16.
    apply (getHeightFromUint_total Mem.read_u16 2); try assumption; try lia.
    intros b i Hi Hlen. apply read_u16_total; lia.
Qed.

Lemma override_at_total (area : AreaTableEntry) (e : Z) :
  (20 <= length (LiquidTypeOverride area))%nat -> 1 <= e < 21 ->
  exists o, override_at area e = Ret o.
Proof.
  intros Hlen He. unfold override_at.
  apply table_at_total. rewrite Z.mod_small; lia.
Qed.

Lemma resolve_liquid_total (g : GridMap) (x y : float) (type e : Z) :
  complete g -> valid_coord x -> valid_coord y -> stores_sane ->
  returns (resolve_liquid g x y type e).
Proof.
  intros Hg Hx Hy (Hliq & Harea & Hzone). unfold resolve_liquid.
  destruct (sLiquidTypeStore_LookupEntry e) as [l|] eqn:Hl; [|apply returns_Ret].
  destruct (Hliq e l Hl) as (Hid & Hty).
  match goal with
  | |- returns (?inner ≫= _) =>
      assert (Hinner : exists e' idx, inner = Ret (e', idx) /\ 0 <= idx < 32)
  end.
  { destruct (Z.ltb_spec (Id l) 21) as [Hlt|]; [|eauto].
    destruct (getArea_total g x y Hg Hx Hy) as [a ->]. msimpl.
    destruct (sAreaStore_LookupEntry a) as [area|] eqn:Ha; [|eauto].
    destruct (override_at_total area (Id l) (Harea a area Ha) ltac:(lia)) as [o ->].
    msimpl.
    match goal with
    | |- exists _ _, ?second ≫= _ = _ /\ _ =>
        assert (Hsecond : exists o2, second = Ret o2)
    end.
    { destruct ((o =? 0) && negb (zone area =? 0)); [|eauto].
      destruct (GetAreaEntryByAreaID (zone area)) as [area2|] eqn:Hz; [|eauto].
      apply override_at_total; [apply (Hzone _ _ Hz) | lia]. }
    destruct Hsecond as [o2 ->]. msimpl.
    destruct (sLiquidTypeStore_LookupEntry o2) as [liq|] eqn:Hl2; [|eauto].
    destruct (Hliq o2 liq Hl2) as (_ & Hty2). eauto. }
  destruct Hinner as (e' & idx & -> & Hidx). msimpl.
  unfold shl1.
  destruct (Z.leb_spec 0 idx); [|lia]. destruct (Z.ltb_spec idx 32); [|lia].
  cbn [andb]. msimpl. apply returns_Ret.
Qed.

Lemma getLiquidStatus_total (g : GridMap) (x y z : float) (ReqLiquidType : Z)
    (collisionHeight : float) :
  complete g -> valid_coord x -> valid_coord y -> stores_sane ->
  returns (getLiquidStatus g x y z ReqLiquidType collisionHeight).
Proof.
  intros Hg Hx Hy Hs.
  pose proof (fun t e => resolve_liquid_total g x y t e Hg Hx Hy Hs) as Hres.
  pose proof (getHeight_total g x y Hg Hx Hy) as [ground Hground].
  destruct Hg as (_ & Hle & Hlf & Hlm & _ & Hw & Hh & _).
  destruct Hx as [Hx16 [xi Hx]]. destruct Hy as [Hy16 [yi Hy]].
  unfold getLiquidStatus.
  destruct (is_null (m_liquidFlags g) && (m_liquidGlobalFlags g =? 0));
    [apply returns_Ret |].
  rewrite Hx. msimpl. rewrite Hy. msimpl.
  pose proof (land_resolution xi) as Hxi. pose proof (land_resolution yi) as Hyi.
  set (x_int := Z.land xi (MAP_RESOLUTION - 1)) in *.
  set (y_int := Z.land yi (MAP_RESOLUTION - 1)) in *.
  clearbody x_int y_int. unfold MAP_RESOLUTION in Hxi, Hyi.
  rewrite !Z.shiftr_div_pow2 by lia. change (2 ^ 3) with 8.
  assert (Hidx : 0 <= x_int `div` 8 * 16 + y_int `div` 8 < 256)
    by (Z.div_mod_to_equations; lia).
  match goal with
  | |- returns (?m ≫= _) => assert (Htype : exists t, m = Ret t)
  end.
  { destruct (m_liquidFlags g) as [b|]; [|eauto].
    specialize (Hlf b eq_refl). apply read_u8_total; lia. }
  destruct Htype as [t ->]. msimpl.
  match goal with
  | |- returns (?m ≫= _) => assert (Hentry : exists e, m = Ret e)
  end.
  { destruct (m_liquidEntry g) as [b|]; [|eauto].
    specialize (Hle b eq_refl). apply read_u16_total; lia. }
  destruct Hentry as [e ->]. msimpl.
  destruct (Hres t e) as [[e' t'] ->].
  msimpl.
  destruct (t' =? 0); [apply returns_Ret |].
  destruct (negb (ReqLiquidType =? 0) && (Z.land ReqLiquidType t' =? 0));
    [apply returns_Ret |].
  destruct ((x_int - m_liquid_offY g <? 0) || (m_liquid_height g <=? x_int - m_liquid_offY g))
    eqn:Hlx; [apply returns_Ret |].
  destruct ((y_int - m_liquid_offX g <? 0) || (m_liquid_width g <=? y_int - m_liquid_offX g))
    eqn:Hly; [apply returns_Ret |].
  apply orb_false_elim in Hlx as [Hlx1 Hlx2]. apply orb_false_elim in Hly as [Hly1 Hly2].
  apply Z.ltb_ge in Hlx1, Hly1. apply Z.leb_gt in Hlx2, Hly2.
  match goal with
  | |- returns (?m ≫= _) => assert (Hlevel : exists lv, m = Ret lv)
  end.
  { destruct (m_liquid_map g) as [b|]; [|eauto].
    specialize (Hlm b eq_refl). apply read_f32_total; nia. }
  destruct Hlevel as [lv ->]. msimpl.
  rewrite Hground. msimpl.
  destruct (_ || _); [apply returns_Ret |].
  cbn zeta.
  repeat match goal with
         | |- returns (if ?c then _ else _) => destruct c
         end; apply returns_Ret.
Qed.

End Totality.

Section GridLookup.
Context {V M T : Type} `{IVMapManager V} `{MMapManager M} `{IntervalTimer T}.
Context `{GridDefines} `{DBCStores}.
Variable dataPath : string.
Variable fs : Stdio.filesystem.
Implicit Types s : TerrainInfo V M T.

Lemma LoadMapAndVMap_returns s x y mapOnly :
  in_grid x y = true ->
  returns (loadData fs (map_file_name dataPath (m_mapId s) x y) GridMap_new) ->
  returns (LoadMapAndVMap dataPath fs s x y mapOnly).
Proof.
  intros Hg [[ok map] Hload]. unfold LoadMapAndVMap.
  rewrite (at_grid_in x y Hg). msimpl.
  destruct (_ || _); [apply returns_Ret |].
  unfold LoadMapAndVMap_map.
  destruct (is_null (m_GridMaps s !! (x, y))).
  - cbn zeta. rewrite Hload. msimpl. destruct mapOnly; apply returns_Ret.
  - msimpl. destruct mapOnly; apply returns_Ret.
Qed.

Lemma GetGrid_in_grid s x y loadOnlyMap gx gy :
  F32.to_int (F32.of_int 32 - x / SIZE_OF_GRIDS)%f32 = Ret gx ->
  F32.to_int (F32.of_int 32 - y / SIZE_OF_GRIDS)%f32 = Ret gy ->
  in_grid gx gy = true ->
  returns (loadData fs (map_file_name dataPath (m_mapId s) gx gy) GridMap_new) ->
  returns (GetGrid dataPath fs s x y loadOnlyMap).
Proof.
  intros Hx Hy Hg Hload. unfold GetGrid.
  rewrite Hx. msimpl. rewrite Hy. msimpl. rewrite (at_grid_in gx gy Hg). msimpl.
  apply in_grid_spec in Hg as Hrange. unfold MAX_NUMBER_OF_GRIDS in Hrange.
  rewrite !Z.mod_small by lia.
  pose proof (LoadMapAndVMap_returns s gx gy loadOnlyMap Hg Hload) as [[r s'] Hrun].
  destruct (m_GridMaps s !! (gx, gy)) as [pMap|].
  - destruct (negb (IsFullyLoaded pMap) && negb loadOnlyMap); [|apply returns_Ret].
    rewrite Hrun. msimpl. apply returns_Ret.
  - destruct (LoadAttempted s (gx, gy)); [apply returns_Ret |].
    rewrite Hrun. msimpl. apply returns_Ret.
Qed.

Lemma GetGrid_out_of_grid s x y loadOnlyMap gx gy :
  F32.to_int (F32.of_int 32 - x / SIZE_OF_GRIDS)%f32 = Ret gx ->
  F32.to_int (F32.of_int 32 - y / SIZE_OF_GRIDS)%f32 = Ret gy ->
  in_grid gx gy = false ->
  GetGrid dataPath fs s x y loadOnlyMap = Fault OutOfBounds.
Proof.
  intros Hx Hy Hg. unfold GetGrid.
  rewrite Hx. msimpl. rewrite Hy. msimpl. unfold at_grid. rewrite Hg. reflexivity.
Qed.


End GridLookup.

Lemma float_tile_complete : complete (float_tile (replicate 512 Byte.x00)).
Proof.
  unfold complete, sized, float_tile.
  cbn [m_area_map m_liquidEntry m_liquidFlags m_liquid_map m_holes m_liquid_width
       m_liquid_height m_gridGetHeight m_V9 m_V8 set_m_V9 set_m_V8
       set_m_gridGetHeight set_m_holes GridMap_new].
  split_and!; try (intros b Hb; discriminate Hb); try lia.
  - rewrite length_replicate. reflexivity.
  - intros b Hb. apply (inj Some) in Hb as <-.
    rewrite length_replicate. vm_compute. reflexivity.
  - intros b Hb. apply (inj Some) in Hb as <-.
    rewrite length_replicate. vm_compute. reflexivity.
Qed.

Lemma origin_valid : valid_coord (H := upstream_defines) (F32.of_int 0).
Proof. split; eexists; vm_compute; reflexivity. Qed.

Lemma empty_stores_sane : stores_sane (H := Upstream.empty_stores).
Proof. repeat split; discriminate. Qed.



(** * Further properties *)

(** ** The hole mask *)

Lemma land_pow2 (a n : Z) :
  0 <= n -> negb (Z.land a (2 ^ n) =? 0) = Z.testbit a n.
Proof.
  intros Hn.
  assert (Hland : Z.land a (2 ^ n) = if Z.testbit a n then 2 ^ n else 0).
  { apply Z.bits_inj'. intros m Hm.
    rewrite Z.land_spec, Z.pow2_bits_eqb by lia.
    destruct (Z.eqb_spec n m) as [->|Hne].
    - destruct (Z.testbit a m); [now rewrite Z.pow2_bits_true | now rewrite Z.bits_0].
    - rewrite andb_false_r.
      destruct (Z.testbit a n); [now rewrite Z.pow2_bits_false | now rewrite Z.bits_0]. }
  rewrite Hland. destruct (Z.testbit a n); [|reflexivity].
  destruct (Z.eqb_spec (2 ^ n) 0) as [H0|]; [|reflexivity].
  pose proof (Z.pow_pos_nonneg 2 n ltac:(lia) Hn). lia.
Qed.

(** The two table lookups of [isHole] select one bit of the mask. *)
Lemma isHole_mask_bit (g : GridMap) (row col hole : Z) :
  0 <= row < 128 -> 0 <= col < 128 ->
  Mem.read_u16 (m_holes g) (row / 8 * 16 + col / 8) = Ret hole ->
  isHole g row col = Ret (Z.testbit hole (hole_bit row col)).
Proof.
  intros Hrow Hcol Hread. unfold isHole, hole_bit.
  rewrite (Z.quot_div_nonneg row 8), (Z.quot_div_nonneg col 8) by lia.
  rewrite (Z.rem_mod_nonneg row 8) by lia.
  replace (col - col / 8 * 8) with (col mod 8) by (Z.div_mod_to_equations; lia).
  assert (Hr : 0 <= row mod 8 < 8) by (Z.div_mod_to_equations; lia).
  assert (Hc : 0 <= col mod 8 < 8) by (Z.div_mod_to_equations; lia).
  rewrite (Z.quot_div_nonneg (row mod 8) 2), (Z.quot_div_nonneg (col mod 8) 2) by lia.
  assert (0 <= row / 8 < 16) by (Z.div_mod_to_equations; lia).
  assert (0 <= col / 8 < 16) by (Z.div_mod_to_equations; lia).
  destruct (Z.leb_spec 0 (row / 8)); [|lia].
  destruct (Z.ltb_spec (row / 8) 16); [|lia].
  destruct (Z.leb_spec 0 (col / 8)); [|lia].
  destruct (Z.ltb_spec (col / 8) 16); [|lia].
  cbn [andb]. rewrite Hread. msimpl.
  assert (Hhr : (row mod 8) / 2 = 0 \/ (row mod 8) / 2 = 1
                \/ (row mod 8) / 2 = 2 \/ (row mod 8) / 2 = 3)
    by (Z.div_mod_to_equations; lia).
  assert (Hhc : (col mod 8) / 2 = 0 \/ (col mod 8) / 2 = 1
                \/ (col mod 8) / 2 = 2 \/ (col mod 8) / 2 = 3)
    by (Z.div_mod_to_equations; lia).
  assert (Th0 : table_at holetab_h 0 = Ret 0x1111) by reflexivity.
  assert (Th1 : table_at holetab_h 1 = Ret 0x2222) by reflexivity.
  assert (Th2 : table_at holetab_h 2 = Ret 0x4444) by reflexivity.
  assert (Th3 : table_at holetab_h 3 = Ret 0x8888) by reflexivity.
  assert (Tv0 : table_at holetab_v 0 = Ret 0x000F) by reflexivity.
  assert (Tv1 : table_at holetab_v 1 = Ret 0x00F0) by reflexivity.
  assert (Tv2 : table_at holetab_v 2 = Ret 0x0F00) by reflexivity.
  assert (Tv3 : table_at holetab_v 3 = Ret 0xF000) by reflexivity.
  destruct Hhr as [-> | [-> | [-> | ->]]], Hhc as [-> | [-> | [-> | ->]]];
    rewrite ?Th0, ?Th1, ?Th2, ?Th3; msimpl;
    rewrite ?Tv0, ?Tv1, ?Tv2, ?Tv3; msimpl;
    rewrite <- Z.land_assoc;
    match goal with
    | |- Ret (negb (Z.land _ (Z.land ?h ?v) =? 0)) = Ret (Z.testbit _ ?n) =>
        change (Z.land h v) with (2 ^ n); rewrite land_pow2 by lia; reflexivity
    end.
Qed.

(** X1. [isHole] looks at one bit of the 16-bit mask of the 8 x 8
    macro-cell the cell lies in: bit [4 * (row % 8 / 2) + col % 8 / 2]. So
    the mask is a 4 x 4 grid of flags, one per 2 x 2 block of cells: two
    cells of the same 2 x 2 block get the same answer. *)
Theorem isHole_tests_one_bit (g : GridMap) (row col hole : Z) :
  0 <= row < 128 -> 0 <= col < 128 ->
  Mem.read_u16 (m_holes g) (row / 8 * 16 + col / 8) = Ret hole ->
  isHole g row col = Ret (Z.testbit hole (hole_bit row col))
  /\ forall row' col',
       0 <= row' < 128 -> 0 <= col' < 128 ->
       row' / 2 = row / 2 -> col' / 2 = col / 2 ->
       isHole g row' col' = isHole g row col.
Proof.
  intros Hrow Hcol Hread.
  pose proof (isHole_mask_bit g row col hole Hrow Hcol Hread) as Hbit.
  split; [exact Hbit |].
  intros row' col' Hrow' Hcol' Hr Hc.
  assert (Hr8 : row' / 8 = row / 8).
  { replace 8 with (2 * 4) by lia. rewrite <- !Z.div_div by lia. now rewrite Hr. }
  assert (Hc8 : col' / 8 = col / 8).
  { replace 8 with (2 * 4) by lia. rewrite <- !Z.div_div by lia. now rewrite Hc. }
  rewrite Hbit.
  rewrite (isHole_mask_bit g row' col' hole Hrow' Hcol') by (now rewrite Hr8, Hc8).
  do 2 f_equal. unfold hole_bit.
  assert (Hm : forall a, a mod 8 / 2 = a / 2 - 4 * (a / 8)).
  { intros a. pose proof (Z.div_div a 2 4 ltac:(lia) ltac:(lia)) as Hd.
    change (2 * 4) with 8 in Hd. Z.div_mod_to_equations. lia. }
  rewrite !Hm. lia.
Qed.

(** X1, witness: the mask 0x0020 marks the block of rows 2-3 and columns
    2-3; cell (3, 2) is in it. *)
Lemma isHole_tests_one_bit_witness :
  isHole one_hole_tile 3 2 = Ret true.
Proof.
  exact (proj1 (isHole_tests_one_bit one_hole_tile 3 2 0x0020
                  ltac:(lia) ltac:(lia) ltac:(vm_compute; reflexivity))).
Defined.

(** ** The liquid level *)

Section LiquidLevel.
Context `{GridDefines} `{DBCStores}.

(** X2. The level [GridMap::getLiquidStatus] stores through [data] is the
    one [GridMap::getLiquidLevel] answers at the same point: the two
    functions agree on the liquid window and on the sample they read. *)
Theorem getLiquidStatus_level_agrees (g : GridMap) (x y z : float)
    (ReqLiquidType : Z) (collisionHeight : float)
    (st : GridMapLiquidStatus) (d : GridMapLiquidData) :
  getLiquidStatus g x y z ReqLiquidType collisionHeight = Ret (st, Some d) ->
  getLiquidLevel g x y = Ret (level d).
Proof.
  intros Hrun. unfold getLiquidStatus in Hrun.
  inv_run Hrun; apply Ret_inj in Hrun; try discriminate Hrun;
    injection Hrun as <- <-; cbn [level];
    unfold getLiquidLevel;
    repeat match goal with
           | Hq : F32.to_int _ = Ret _ |- _ => rewrite Hq; clear Hq; msimpl
           end;
    (destruct (m_liquid_map g) as [b|];
     [ repeat match goal with
              | E : (_ || _) = false |- context [(_ || _)] => rewrite E
              end;
       assumption
     | match goal with
       | Hq : Ret _ = Ret _ |- _ => now apply Ret_inj in Hq as ->
       end ]).
Qed.

(** X3. [GridMap::getLiquidLevel] on a store whose liquid grid has its
    full size returns for every coordinate that converts, without reading
    outside the grid, and it answers the invalid-height sentinel when the
    cell is outside the liquid window. *)
Theorem getLiquidLevel_window (g : GridMap) (x y : float) (b : Mem.buffer)
    (xi yi : Z) :
  m_liquid_map g = Some b ->
  Z.of_nat (length b) = 4 * (m_liquid_width g * m_liquid_height g) ->
  F32.to_int (cell_coord MAP_RESOLUTION x) = Ret xi ->
  F32.to_int (cell_coord MAP_RESOLUTION y) = Ret yi ->
  let cx := Z.land xi (MAP_RESOLUTION - 1) - m_liquid_offY g in
  let cy := Z.land yi (MAP_RESOLUTION - 1) - m_liquid_offX g in
  returns (getLiquidLevel g x y)
  /\ (~ (0 <= cx < m_liquid_height g /\ 0 <= cy < m_liquid_width g) ->
      getLiquidLevel g x y = Ret INVALID_HEIGHT_VALUE)
  /\ (0 <= cx < m_liquid_height g -> 0 <= cy < m_liquid_width g ->
      getLiquidLevel g x y = Mem.read_f32 b (cx * m_liquid_width g + cy)).
Proof.
  intros Hb Hlen Hx Hy cx cy. unfold getLiquidLevel.
  rewrite Hb, Hx. msimpl. rewrite Hy. msimpl. fold cx cy.
  destruct (Z.ltb_spec cx 0), (Z.leb_spec (m_liquid_height g) cx),
    (Z.ltb_spec cy 0), (Z.leb_spec (m_liquid_width g) cy); cbn [orb];
    split_and!; try (intros; lia); try reflexivity; try apply returns_Ret.
  apply read_f32_total; nia.
Qed.

End LiquidLevel.

(** X2, witness: the flat pond, whose level is its tile-wide constant. *)
Lemma getLiquidStatus_level_agrees_witness :
  getLiquidLevel (H := upstream_defines) Examples.pond (F32.of_int 0) (F32.of_int 0)
  = Ret (F32.of_int 10).
Proof.
  exact (getLiquidStatus_level_agrees (H := upstream_defines)
           (H0 := Upstream.empty_stores) Examples.pond
           (F32.of_int 0) (F32.of_int 0) (F32.of_dyadic 19 (-1)) 0 (F32.of_int 2)
           LIQUID_MAP_IN_WATER
           {| entry := 0; type_flags := 1;
              level := F32.of_int 10; depth_level := F32.of_int 0 |}
           ltac:(vm_compute; reflexivity)).
Defined.

(** X3, witness: the world origin, cell (0, 0), on the small lake. *)
Lemma getLiquidLevel_window_witness :
  returns (getLiquidLevel (H := upstream_defines) lake_tile (F32.of_int 0) (F32.of_int 0)).
Proof.
  exact (proj1 (getLiquidLevel_window (H := upstream_defines) lake_tile
                  (F32.of_int 0) (F32.of_int 0) (replicate 32 Byte.x00) 4096 4096
                  eq_refl eq_refl
                  ltac:(vm_compute; reflexivity) ltac:(vm_compute; reflexivity))).
Defined.

(** ** Stores as [loadData] leaves them *)

(** Unfolds a sub-block loader in the hypotheses and splits its paths. *)
Ltac loader_paths :=
  unfold loadAreaData, loadHolesData, loadHeightData, loadGridMapLiquidData,
         Mem.field_f32, Stdio.fread, Stdio.fseek in *;
  cbn beta iota zeta in *;
  inv_all;
  repeat match goal with
         | H' : Ret _ = Ret _ |- _ => ret_inj H'
         end.

Section LoadedStores.
Context `{GridDefines} `{DBCStores}.

(** X4. A tile whose file does not exist is loaded with success, and the
    store answers every query with its sentinel at every coordinate: the
    invalid height, area 0, terrain type 0, the invalid liquid level and
    no water. *)
Theorem missing_tile_answers_sentinels (fs : Stdio.filesystem) (filename : string)
    (ok : bool) (g : GridMap) :
  fs filename = None ->
  loadData fs filename GridMap_new = Ret (ok, g) ->
  ok = true
  /\ forall x y z ReqLiquidType collisionHeight,
       getHeight g x y = Ret INVALID_HEIGHT_VALUE
       /\ getArea g x y = Ret 0
       /\ getTerrainType g x y = Ret 0
       /\ getLiquidLevel g x y = Ret INVALID_HEIGHT_VALUE
       /\ getLiquidStatus g x y z ReqLiquidType collisionHeight
          = Ret (LIQUID_MAP_NO_WATER, None).
Proof.
  intros Hfs Hload. unfold loadData, Stdio.fopen in Hload. rewrite Hfs in Hload.
  apply Ret_inj in Hload. injection Hload as <- <-.
  split; [reflexivity |]. intros. repeat split.
Qed.

Lemma loadHeightData_shape in_ offset g ok g' in' :
  loadHeightData in_ offset g = Ret (ok, g', in') ->
  (m_gridGetHeight g' = m_gridGetHeight g /\ m_V9 g' = m_V9 g /\ m_V8 g' = m_V8 g)
  \/ (m_gridGetHeight g' = getHeightFromFlat_ptr
      /\ m_V9 g' = m_V9 g /\ m_V8 g' = m_V8 g)
  \/ (m_gridGetHeight g' <> getHeightFromFlat_ptr
      /\ is_Some (m_V9 g') /\ is_Some (m_V8 g')).
Proof.
  intros Hrun. loader_paths;
    first [ left; repeat split; reflexivity
          | right; left; repeat split; reflexivity
          | right; right; split_and!;
            [discriminate | eexists; reflexivity | eexists; reflexivity] ].
Qed.

Lemma loadGridMapLiquidData_shape in_ offset g ok g' in' :
  loadGridMapLiquidData in_ offset g = Ret (ok, g', in') ->
  (m_liquidEntry g' = m_liquidEntry g /\ m_liquidFlags g' = m_liquidFlags g)
  \/ (is_Some (m_liquidEntry g') /\ is_Some (m_liquidFlags g')).
Proof.
  intros Hrun. loader_paths;
    first [ left; repeat split; reflexivity
          | right; split; eexists; reflexivity ].
Qed.

Lemma consistent_unloadData g : consistent (unloadData g).
Proof. repeat split. Qed.

Lemma consistent_after_area hdr fo in_ g ok g' in' :
  load_section loadAreaData hdr fo in_ g = Ret (ok, g', in') ->
  consistent g -> consistent g'.
Proof.
  intros (_ & H9 & H8 & Hle & Hlf & _ & Hs & _)%area_section_frame.
  unfold consistent. now rewrite H9, H8, Hle, Hlf, Hs.
Qed.

Lemma consistent_after_holes hdr fo in_ g ok g' in' :
  load_section loadHolesData hdr fo in_ g = Ret (ok, g', in') ->
  consistent g -> consistent g'.
Proof.
  intros (_ & _ & _ & H9 & H8 & Hle & Hlf & _ & Hs & _)%holes_section_frame.
  unfold consistent. now rewrite H9, H8, Hle, Hlf, Hs.
Qed.

Lemma consistent_after_height hdr fo in_ g ok g' in' :
  load_section loadHeightData hdr fo in_ g = Ret (ok, g', in') ->
  m_V9 g = None -> m_V8 g = None ->
  consistent g -> consistent g'.
Proof.
  intros Hrun N9 N8 Hc.
  pose proof (height_section_frame _ _ _ _ _ _ _ Hrun)
    as (_ & _ & _ & Hle & Hlf & _).
  apply load_section_inv in Hrun as [[= -> -> ->]|[off Hrun]]; [exact Hc |].
  destruct Hc as (Hc1 & Hc2 & Hc3).
  apply loadHeightData_shape in Hrun
    as [(Hs & H9 & H8) | [(Hs & H9 & H8) | (Hs & [v9 H9] & [v8 H8])]];
    unfold consistent; rewrite ?Hle, ?Hlf.
  - now rewrite Hs, H9, H8.
  - rewrite Hs, H9, H8, N9, N8. tauto.
  - rewrite H9, H8. split_and!; try assumption; split; intros; congruence.
Qed.

Lemma consistent_after_liquid hdr fo in_ g ok g' in' :
  load_section loadGridMapLiquidData hdr fo in_ g = Ret (ok, g', in') ->
  consistent g -> consistent g'.
Proof.
  intros Hrun Hc.
  pose proof (liquid_section_frame _ _ _ _ _ _ _ Hrun)
    as (_ & _ & H9 & H8 & Hs & _).
  apply load_section_inv in Hrun as [[= -> -> ->]|[off Hrun]]; [exact Hc |].
  destruct Hc as (Hc1 & Hc2 & Hc3).
  apply loadGridMapLiquidData_shape in Hrun as [(Hle & Hlf) | ([e He] & [f Hf])];
    unfold consistent; rewrite H9, H8, Hs.
  - now rewrite Hle, Hlf.
  - rewrite He, Hf. split_and!; try assumption; split; intros; congruence.
Qed.

(** X5. Whatever [loadData] returns, success or failure, and whatever the
    store held before, it leaves the two height buffers null exactly when
    the height strategy is the flat one, and the two per-cell liquid grids
    null together: the strategy a query is dispatched to always finds the
    buffers it reads. *)
Theorem loadData_consistent (fs : Stdio.filesystem) (filename : string)
    (g0 : GridMap) (ok : bool) (g : GridMap) :
  loadData fs filename g0 = Ret (ok, g) -> consistent g.
Proof.
  unfold loadData. intros Hrun.
  pose proof (consistent_unloadData g0) as Hc0.
  assert (N9 : m_V9 (unloadData g0) = None) by reflexivity.
  assert (N8 : m_V8 (unloadData g0) = None) by reflexivity.
  cbn zeta in Hrun.
  set (g1 := unloadData g0) in *. clearbody g1.
  destruct (Stdio.fopen fs filename) as [in_|]; [|now ret_inj Hrun].
  unfold Stdio.fread in Hrun. cbn beta iota zeta in Hrun.
  inv_run Hrun; ret_inj Hrun; try assumption;
    repeat match goal with
           | Hs : load_section loadAreaData _ _ _ _ = Ret (_, ?ga, _) |- _ =>
               pose proof (consistent_after_area _ _ _ _ _ _ _ Hs Hc0);
               apply area_section_frame in Hs as (_ & H9a & H8a & _)
           | Hs : load_section loadHolesData _ _ _ _ = Ret (_, ?gh, _) |- _ =>
               pose proof (consistent_after_holes _ _ _ _ _ _ _ Hs ltac:(assumption));
               apply holes_section_frame in Hs as (_ & _ & _ & H9h & H8h & _)
           | Hs : load_section loadHeightData _ _ _ _ = Ret (_, ?gg, _) |- _ =>
               pose proof (consistent_after_height _ _ _ _ _ _ _ Hs
                             ltac:(congruence) ltac:(congruence) ltac:(assumption));
               clear Hs
           | Hs : load_section loadGridMapLiquidData _ _ _ _ = Ret (_, ?gl, _) |- _ =>
               pose proof (consistent_after_liquid _ _ _ _ _ _ _ Hs ltac:(assumption));
               clear Hs
           end;
    assumption.
Qed.

End LoadedStores.

(** X4, witness: an empty data directory. *)
Lemma missing_tile_answers_sentinels_witness :
  getHeight (H := upstream_defines) (unloadData (GridMap_new (H := upstream_defines)))
    (F32.of_int 0) (F32.of_int 0)
  = Ret (INVALID_HEIGHT_VALUE (GridDefines := upstream_defines)).
Proof.
  destruct (missing_tile_answers_sentinels (H := upstream_defines)
              (H0 := Upstream.empty_stores) (fun _ => None) "maps/0000000.map"
              true (unloadData (GridMap_new (H := upstream_defines)))
              eq_refl eq_refl) as [_ Hq].
  exact (proj1 (Hq (F32.of_int 0) (F32.of_int 0) (F32.of_int 0) 0 (F32.of_int 0))).
Defined.

(** X5, witness: the store a failed load of the file with a wrong height
    tag leaves. *)
Lemma loadData_consistent_witness :
  consistent (Examples.tile_of Examples.bad_height_tag_file).
Proof.
  apply (loadData_consistent (H := upstream_defines)
           (Examples.directory Examples.bad_height_tag_file) "maps/0000000.map"
           (GridMap_new (H := upstream_defines)) false).
  vm_compute. reflexivity.
Defined.

(** ** The hole table of a file without holes block *)

Lemma read_u16_zeros (n : nat) (i : Z) :
  0 <= i -> (2 * (Z.to_nat i + 1) <= n)%nat ->
  Mem.read_u16 (replicate n Byte.x00) i = Ret 0.
Proof.
  intros Hi Hn. unfold Mem.read_u16, Mem.bytes_at.
  destruct (Z.ltb_spec (2 * i) 0); [lia |].
  rewrite drop_replicate, take_replicate, length_replicate.
  replace (2 `min` (n - Z.to_nat (2 * i)))%nat with 2%nat by lia.
  reflexivity.
Qed.

Section NoHoles.
Context `{GridDefines}.

Lemma area_section_holes hdr fo in_ g ok g' in' :
  load_section loadAreaData hdr fo in_ g = Ret (ok, g', in') -> m_holes g' = m_holes g.
Proof.
  intros [[= -> -> ->]|[off Hrun]]%load_section_inv; [reflexivity |].
  loader_paths; reflexivity.
Qed.

Lemma height_section_holes hdr fo in_ g ok g' in' :
  load_section loadHeightData hdr fo in_ g = Ret (ok, g', in') -> m_holes g' = m_holes g.
Proof.
  intros [[= -> -> ->]|[off Hrun]]%load_section_inv; [reflexivity |].
  loader_paths; reflexivity.
Qed.

Lemma liquid_section_holes hdr fo in_ g ok g' in' :
  load_section loadGridMapLiquidData hdr fo in_ g = Ret (ok, g', in') ->
  m_holes g' = m_holes g.
Proof.
  intros [[= -> -> ->]|[off Hrun]]%load_section_inv; [reflexivity |].
  loader_paths; reflexivity.
Qed.

Lemma holes_section_absent (bs : Mem.buffer) in_ g :
  root_field bs 8 = Some 0 ->
  load_section loadHolesData (take 40 bs) 32 in_ g = Ret (true, g, in_).
Proof.
  intros Hoff. unfold load_section.
  pose proof (root_field_read bs 8 0 ltac:(lia) Hoff) as Hread.
  change (4 * 8) with 32 in Hread. rewrite Hread. reflexivity.
Qed.

(** X6. A tile file with the right root tags and no holes block (holes
    offset 0) gives a store without any hole, whether the rest of the load
    succeeds or fails: [isHole] answers false at every cell of the tile. *)
Theorem no_holes_block_no_hole (fs : Stdio.filesystem) (filename : string)
    (bs : Mem.buffer) (ok : bool) (g : GridMap) :
  fs filename = Some bs ->
  root_field bs 0 = Some (magic32 MAP_MAGIC) ->
  root_field bs 1 = Some (magic32 MAP_VERSION_MAGIC) ->
  root_field bs 8 = Some 0 ->
  loadData fs filename GridMap_new = Ret (ok, g) ->
  forall row col, 0 <= row < 128 -> 0 <= col < 128 -> isHole g row col = Ret false.
Proof.
  intros Hfs Hm Hv Hholes Hload.
  assert (Htable : m_holes g = replicate sizeof_holes Byte.x00).
  { rewrite (loadData_sections fs filename GridMap_new bs Hfs Hm Hv) in Hload.
    rewrite fread_root_header in Hload. cbn beta iota in Hload.
    apply bind_Ret in Hload as ([[ok1 g1] in1] & Ha & Hload). cbn beta iota in Hload.
    apply area_section_holes in Ha.
    change (m_holes (unloadData GridMap_new))
      with (replicate sizeof_holes Byte.x00) in Ha.
    destruct ok1; cbn [negb] in Hload; [|apply Ret_inj in Hload; congruence].
    rewrite (holes_section_absent bs in1 g1 Hholes) in Hload.
    cbn [mbind outcome_bind negb] in Hload.
    apply bind_Ret in Hload as ([[ok3 g3] in3] & Hg & Hload). cbn beta iota in Hload.
    apply height_section_holes in Hg.
    destruct ok3; cbn [negb] in Hload; [|apply Ret_inj in Hload; congruence].
    apply bind_Ret in Hload as ([[ok4 g4] in4] & Hl & Hload). cbn beta iota in Hload.
    apply liquid_section_holes in Hl.
    destruct ok4; cbn [negb] in Hload; apply Ret_inj in Hload; congruence. }
  intros row col Hrow Hcol.
  assert (0 <= row / 8 < 16) by (Z.div_mod_to_equations; lia).
  assert (0 <= col / 8 < 16) by (Z.div_mod_to_equations; lia).
  rewrite (isHole_mask_bit g row col 0 Hrow Hcol).
  - now rewrite Z.bits_0.
  - rewrite Htable. apply read_u16_zeros; unfold sizeof_holes; lia.
Qed.

End NoHoles.

(** X6, witness: the pond file, which has a liquid and a height block
    only. *)
Lemma no_holes_block_no_hole_witness :
  isHole Examples.pond 17 99 = Ret false.
Proof.
  apply (no_holes_block_no_hole (H := upstream_defines)
           (Examples.directory Examples.pond_file) "maps/0000000.map"
           Examples.pond_file true Examples.pond
           eq_refl eq_refl eq_refl eq_refl ltac:(vm_compute; reflexivity));
    lia.
Defined.

(** ** The liquid status and its parameters *)

(** Replays on the goal the steps recorded in the hypotheses. *)
Ltac replay :=
  repeat (match goal with
          | Hq : ?m = Ret _ |- context [?m ≫= _] => rewrite Hq; msimpl
          | E : ?c = true |- context [if ?c then _ else _] => rewrite E
          | E : ?c = false |- context [if ?c then _ else _] => rewrite E
          end; cbn beta iota).

Section LiquidParameters.
Context `{GridDefines} `{DBCStores}.

(** X7. The required-type mask of [GridMap::getLiquidStatus] can only
    reject: a query that finds liquid under some mask finds the same
    status and the same data under the empty mask 0 and under every mask
    that shares a bit with the type flags it reported. *)
Theorem getLiquidStatus_mask_only_rejects (g : GridMap) (x y z : float)
    (ReqLiquidType : Z) (collisionHeight : float)
    (st : GridMapLiquidStatus) (d : GridMapLiquidData) :
  getLiquidStatus g x y z ReqLiquidType collisionHeight = Ret (st, Some d) ->
  forall mask,
    mask = 0 \/ Z.land mask (type_flags d) <> 0 ->
    getLiquidStatus g x y z mask collisionHeight = Ret (st, Some d).
Proof.
  intros Hrun mask Hmask. unfold getLiquidStatus in Hrun.
  inv_run Hrun; apply Ret_inj in Hrun; try discriminate Hrun;
    injection Hrun as <- <-; cbn [type_flags] in Hmask;
    unfold getLiquidStatus;
    match goal with
    | E : negb (ReqLiquidType =? 0) && _ = false |- _ => clear E
    end;
    assert (Hm : negb (mask =? 0) && (Z.land mask z1 =? 0) = false)
      by (destruct Hmask as [-> | Hne];
          [ reflexivity
          | destruct (Z.eqb_spec (Z.land mask z1) 0);
            [contradiction | apply andb_false_r] ]);
    replay; reflexivity.
Qed.

(** X8. The collision height of [GridMap::getLiquidStatus] only moves the
    line between under water and in water: with another collision height
    the query still returns, stores the same data, and answers no water
    exactly when it did before. *)
Theorem getLiquidStatus_collision_height (g : GridMap) (x y z : float)
    (ReqLiquidType : Z) (collisionHeight : float)
    (st : GridMapLiquidStatus) (w : option GridMapLiquidData) :
  getLiquidStatus g x y z ReqLiquidType collisionHeight = Ret (st, w) ->
  forall collisionHeight',
  exists st',
    getLiquidStatus g x y z ReqLiquidType collisionHeight' = Ret (st', w)
    /\ (st' = LIQUID_MAP_NO_WATER <-> st = LIQUID_MAP_NO_WATER)
    /\ (st = LIQUID_MAP_WATER_WALK \/ st = LIQUID_MAP_ABOVE_WATER ->
        st' = st \/ st' = LIQUID_MAP_UNDER_WATER).
Proof.
  intros Hrun ch'. unfold getLiquidStatus in Hrun.
  inv_run Hrun; apply Ret_inj in Hrun; injection Hrun as <- <-;
    unfold getLiquidStatus;
    repeat match goal with
           | E : F32.gtb _ collisionHeight = _ |- _ => clear E
           end;
    replay;
    try (eexists; split_and!; [reflexivity | tauto | tauto]);
    destruct (F32.gtb _ ch');
    replay;
    repeat match goal with
           | |- context [if ?c then _ else _] => destruct c
           end;
    eexists;
    (split_and!;
     [ reflexivity
     | split; discriminate
     | intros [Hs|Hs];
       first [discriminate Hs | left; reflexivity | right; reflexivity] ]).
Qed.

End LiquidParameters.

(** X7, witness: in the flat pond under the mask of all liquid types. *)
Lemma getLiquidStatus_mask_only_rejects_witness :
  let d := {| entry := 0; type_flags := 1;
              level := F32.of_int 10; depth_level := F32.of_int 0 |} in
  getLiquidStatus (H := upstream_defines) (H0 := Upstream.empty_stores)
    Examples.pond (F32.of_int 0) (F32.of_int 0) (F32.of_dyadic 19 (-1)) 0 (F32.of_int 2)
  = Ret (LIQUID_MAP_IN_WATER, Some d).
Proof.
  intros d.
  apply (getLiquidStatus_mask_only_rejects (H := upstream_defines)
           (H0 := Upstream.empty_stores) Examples.pond
           (F32.of_int 0) (F32.of_int 0) (F32.of_dyadic 19 (-1)) 15 (F32.of_int 2)
           LIQUID_MAP_IN_WATER d ltac:(vm_compute; reflexivity)).
  left. reflexivity.
Defined.

(** X8, witness: in the flat pond, from collision height 2 to 0.25. *)
Lemma getLiquidStatus_collision_height_witness :
  exists st',
    getLiquidStatus (H := upstream_defines) (H0 := Upstream.empty_stores)
      Examples.pond (F32.of_int 0) (F32.of_int 0) (F32.of_dyadic 19 (-1)) 0
      (F32.of_dyadic 1 (-2))
    = Ret (st', Some {| entry := 0; type_flags := 1;
                        level := F32.of_int 10; depth_level := F32.of_int 0 |}).
Proof.
  destruct (getLiquidStatus_collision_height (H := upstream_defines)
              (H0 := Upstream.empty_stores) Examples.pond
              (F32.of_int 0) (F32.of_int 0) (F32.of_dyadic 19 (-1)) 0 (F32.of_int 2)
              LIQUID_MAP_IN_WATER
              (Some {| entry := 0; type_flags := 1;
                       level := F32.of_int 10; depth_level := F32.of_int 0 |})
              ltac:(vm_compute; reflexivity) (F32.of_dyadic 1 (-2)))
    as (st' & Hrun & _).
  exists st'. exact Hrun.
Defined.

(** ** The quantized height strategies *)

Section Quantized.
Context `{GridDefines}.

Lemma getHeightFromUint_plane (read : Mem.buffer -> Z -> outcome Z) (w : Z)
    (g : GridMap) (x y : float) (v8 v9 : Mem.buffer) (xi yi : Z) :
  (forall b i, 0 <= i -> w * (i + 1) <= Z.of_nat (length b) -> exists v, read b i = Ret v) ->
  0 < w ->
  m_V8 g = Some v8 ->
  m_V9 g = Some v9 ->
  Z.of_nat (length v9) = w * (129 * 129) ->
  Z.of_nat (length v8) = w * (128 * 128) ->
  F32.to_int (cell_coord MAP_RESOLUTION x) = Ret xi ->
  F32.to_int (cell_coord MAP_RESOLUTION y) = Ret yi ->
  let x_int := Z.land xi (MAP_RESOLUTION - 1) in
  let y_int := Z.land yi (MAP_RESOLUTION - 1) in
  let fx := (cell_coord MAP_RESOLUTION x - F32.of_int xi)%f32 in
  let fy := (cell_coord MAP_RESOLUTION y - F32.of_int yi)%f32 in
  exists h1 h2 h3 h4 v : Z,
    read v9 (x_int * 129 + y_int) = Ret h1
    /\ read v9 ((x_int + 1) * 129 + y_int) = Ret h2
    /\ read v9 (x_int * 129 + y_int + 1) = Ret h3
    /\ read v9 ((x_int + 1) * 129 + y_int + 1) = Ret h4
    /\ read v8 (x_int * 128 + y_int) = Ret v
    /\ getHeightFromUint read g x y
       = Ret (quantized_height g fx fy h1 h2 h3 h4 (2 * v)).
Proof.
  intros Hread Hw HV8 HV9 Hl9 Hl8 Hxi Hyi x_int y_int fx fy.
  pose proof (land_resolution xi) as Hx. pose proof (land_resolution yi) as Hy.
  fold x_int in Hx. fold y_int in Hy. unfold MAP_RESOLUTION in Hx, Hy.
  destruct (Hread v9 (x_int * 129 + y_int)) as [h1 Hh1]; [lia | nia |].
  destruct (Hread v9 ((x_int + 1) * 129 + y_int)) as [h2 Hh2]; [lia | nia |].
  destruct (Hread v9 (x_int * 129 + y_int + 1)) as [h3 Hh3]; [lia | nia |].
  destruct (Hread v9 ((x_int + 1) * 129 + y_int + 1)) as [h4 Hh4]; [lia | nia |].
  destruct (Hread v8 (x_int * 128 + y_int)) as [v Hv]; [lia | nia |].
  exists h1, h2, h3, h4, v. split_and!; try assumption.
  unfold getHeightFromUint. rewrite HV8, HV9, Hxi. msimpl. rewrite Hyi. msimpl.
  fold x_int y_int fx fy. cbn zeta.
  replace (x_int * 128 + x_int + y_int + 0) with (x_int * 129 + y_int) by lia.
  replace (x_int * 128 + x_int + y_int + 129) with ((x_int + 1) * 129 + y_int) by lia.
  replace (x_int * 128 + x_int + y_int + 1) with (x_int * 129 + y_int + 1) by lia.
  replace (x_int * 128 + x_int + y_int + 130) with ((x_int + 1) * 129 + y_int + 1) by lia.
  unfold quantized_height, select_triangle.
  destruct (fx + fy <? F32.of_int 1)%f32, (fx >? fy)%f32;
    rewrite ?Hh1, ?Hh2, ?Hh3, ?Hh4; msimpl; rewrite ?Hh1, ?Hh2, ?Hh3, ?Hh4; msimpl;
    rewrite Hv; reflexivity.
Qed.

(** X9. The 16-bit and the 8-bit height strategies read the same four
    corners and the same centre as the float strategy (their pointer
    arithmetic from [V9_h1_ptr] lands on the float strategy's indices),
    select the triangle by the same rule, evaluate its plane over the raw
    integer samples and apply [* m_gridIntHeightMultiplier + m_gridHeight]
    once, to the result. *)
Theorem quantized_height_plane (g : GridMap) (x y : float)
    (v8 v9 : Mem.buffer) (xi yi : Z) :
  m_V8 g = Some v8 ->
  m_V9 g = Some v9 ->
  F32.to_int (cell_coord MAP_RESOLUTION x) = Ret xi ->
  F32.to_int (cell_coord MAP_RESOLUTION y) = Ret yi ->
  let x_int := Z.land xi (MAP_RESOLUTION - 1) in
  let y_int := Z.land yi (MAP_RESOLUTION - 1) in
  let fx := (cell_coord MAP_RESOLUTION x - F32.of_int xi)%f32 in
  let fy := (cell_coord MAP_RESOLUTION y - F32.of_int yi)%f32 in
  (Z.of_nat (length v9) = 2 * (129 * 129) ->
   Z.of_nat (length v8) = 2 * (128 * 128) ->
   exists h1 h2 h3 h4 v : Z,
     Mem.read_u16 v9 (x_int * 129 + y_int) = Ret h1
     /\ Mem.read_u16 v9 ((x_int + 1) * 129 + y_int) = Ret h2
     /\ Mem.read_u16 v9 (x_int * 129 + y_int + 1) = Ret h3
     /\ Mem.read_u16 v9 ((x_int + 1) * 129 + y_int + 1) = Ret h4
     /\ Mem.read_u16 v8 (x_int * 128 + y_int) = Ret v
     /\ getHeightFromUint16 g x y
        = Ret (quantized_height g fx fy h1 h2 h3 h4 (2 * v)))
  /\ (Z.of_nat (length v9) = 129 * 129 ->
      Z.of_nat (length v8) = 128 * 128 ->
      exists h1 h2 h3 h4 v : Z,
        Mem.read_u8 v9 (x_int * 129 + y_int) = Ret h1
        /\ Mem.read_u8 v9 ((x_int + 1) * 129 + y_int) = Ret h2
        /\ Mem.read_u8 v9 (x_int * 129 + y_int + 1) = Ret h3
        /\ Mem.read_u8 v9 ((x_int + 1) * 129 + y_int + 1) = Ret h4
        /\ Mem.read_u8 v8 (x_int * 128 + y_int) = Ret v
        /\ getHeightFromUint8 g x y
           = Ret (quantized_height g fx fy h1 h2 h3 h4 (2 * v))).
Proof.
  intros HV8 HV9 Hxi Hyi x_int y_int fx fy. split.
  - intros Hl9 Hl8.
    apply (getHeightFromUint_plane Mem.read_u16 2 g x y v8 v9 xi yi);
      try assumption; try lia.
    intros b i Hi Hlen. apply read_u16_total; lia.
  - intros Hl9 Hl8.
    apply (getHeightFromUint_plane Mem.read_u8 1 g x y v8 v9 xi yi);
      try assumption; try lia.
    intros b i Hi Hlen. apply read_u8_total; lia.
Qed.

End Quantized.

(** X9, witness: the world origin on the 8-bit tile. *)
Lemma quantized_height_plane_witness :
  exists h : float,
    getHeightFromUint8 (H := upstream_defines) uint8_tile (F32.of_int 0) (F32.of_int 0)
    = Ret h.
Proof.
  destruct (quantized_height_plane (H := upstream_defines) uint8_tile
              (F32.of_int 0) (F32.of_int 0)
              (replicate (128 * 128) Byte.x05) (replicate (129 * 129) Byte.x05)
              4096 4096 eq_refl eq_refl
              ltac:(vm_compute; reflexivity) ltac:(vm_compute; reflexivity))
    as [_ Hu8].
  destruct Hu8 as (h1 & h2 & h3 & h4 & v & _ & _ & _ & _ & _ & Hres).
  - rewrite length_replicate. vm_compute. reflexivity.
  - rewrite length_replicate. vm_compute. reflexivity.
  - eexists. exact Hres.
Defined.

(** ** The life of a slot of the cache *)

Section SlotLife.
Context {V M T : Type} `{IVMapManager V} `{MMapManager M} `{IntervalTimer T}.
Context `{GridDefines}.
Variable dataPath : string.
Variable fs : Stdio.filesystem.
Implicit Types s : TerrainInfo V M T.

(** Both providers report the tile loaded. *)
Let already s (x y : Z) : bool :=
  IsTileLoaded (m_vmgr s) (m_mapId s) x y && IsMMapIsLoaded (m_mmgr s) (m_mapId s) x y.

Lemma LoadMapAndVMap_nothing_to_load s x y mapOnly :
  in_grid x y = true ->
  (negb (is_null (m_GridMaps s !! (x, y))) && mapOnly) || already s x y = true ->
  LoadMapAndVMap dataPath fs s x y mapOnly = Ret (m_GridMaps s !! (x, y), s).
Proof.
  intros Hg Hearly. unfold LoadMapAndVMap. rewrite (at_grid_in x y Hg). msimpl.
  unfold already in Hearly. now rewrite Hearly.
Qed.

Lemma LoadMapAndVMap_keeps s x y mapOnly r s' :
  LoadMapAndVMap dataPath fs s x y mapOnly = Ret (r, s') ->
  m_GridRef s' = m_GridRef s
  /\ m_GridMapsLoadAttempted s' = m_GridMapsLoadAttempted s
  /\ m_mapId s' = m_mapId s
  /\ i_timer s' = i_timer s.
Proof.
  unfold LoadMapAndVMap. intros Hrun.
  apply bind_Ret in Hrun as (k & _ & Hrun).
  destruct (_ || _); [now ret_inj Hrun |].
  apply bind_Ret in Hrun as (s1 & Hmap & Hrun).
  assert (Hs1 : m_GridRef s1 = m_GridRef s
                /\ m_GridMapsLoadAttempted s1 = m_GridMapsLoadAttempted s
                /\ m_mapId s1 = m_mapId s /\ i_timer s1 = i_timer s).
  { unfold LoadMapAndVMap_map in Hmap. inv_run Hmap; ret_inj Hmap; repeat split. }
  destruct Hs1 as (Hr & Ha & Hi & Ht).
  destruct mapOnly; ret_inj Hrun; [now repeat split |].
  unfold LoadMapAndVMap_mark, LoadMapAndVMap_mmap, LoadMapAndVMap_vmap.
  repeat match goal with
         | |- context [if ?c then _ else _] => destruct c
         | |- context [VMAP_loadMap ?a ?b ?c ?d ?e] => destruct (VMAP_loadMap a b c d e)
         | |- context [MMAP_loadMap ?a ?b ?c ?d] => destruct (MMAP_loadMap a b c d)
         | |- context [match m_GridMaps ?a !! ?b with _ => _ end] =>
             destruct (m_GridMaps a !! b)
         end; cbn; auto.
Qed.

(** The two ways a full [LoadMapAndVMap] ends. *)
Lemma LoadMapAndVMap_full s x y r s' :
  in_grid x y = true ->
  LoadMapAndVMap dataPath fs s x y false = Ret (r, s') ->
  (already s x y = true /\ r = m_GridMaps s !! (x, y) /\ s' = s)
  \/ (already s x y = false
      /\ exists g, r = Some g /\ m_GridMaps s' !! (x, y) = Some g
                   /\ m_fullyLoaded g = true).
Proof.
  intros Hg Hrun. destruct (already s x y) eqn:Hal.
  - left. rewrite LoadMapAndVMap_nothing_to_load in Hrun
      by (try assumption; rewrite Hal; apply orb_true_r).
    ret_inj Hrun. auto.
  - right. split; [reflexivity |].
    apply LoadMapAndVMap_flag in Hrun as (Hr & _ & _ & _ & Hset).
    unfold already in Hal. destruct (Hset Hal) as (Hf & _).
    unfold fully_loaded in Hf.
    destruct (m_GridMaps s' !! (x, y)) as [g|]; [|discriminate].
    exists g. auto.
Qed.

Lemma LoadAttempted_set s k k' b :
  LoadAttempted (set_LoadAttempted s k b) k'
  = if bool_decide (k' = k) then b else LoadAttempted s k'.
Proof.
  unfold LoadAttempted, set_LoadAttempted. cbn.
  destruct (decide (k' = k)) as [->|Hne].
  - rewrite (bool_decide_eq_true_2 (k = k)) by reflexivity.
    destruct b; [apply bool_decide_eq_true_2 | apply bool_decide_eq_false_2].
    + apply elem_of_union_l, elem_of_singleton. reflexivity.
    + rewrite elem_of_difference, elem_of_singleton. intuition.
  - rewrite (bool_decide_eq_false_2 (k' = k)) by assumption.
    apply bool_decide_ext. destruct b.
    + rewrite elem_of_union, elem_of_singleton. intuition.
    + rewrite elem_of_difference, elem_of_singleton. intuition.
Qed.

Lemma set_LoadAttempted_again s k :
  LoadAttempted s k = true -> set_LoadAttempted s k true = s.
Proof.
  unfold LoadAttempted, set_LoadAttempted. intros Hk%bool_decide_eq_true_1.
  destruct s as [mid maps refs att tm vm mm]. cbn in *.
  unfold set_m_GridMapsLoadAttempted. cbn. f_equal.
  apply subseteq_union_1_L, singleton_subseteq_l, Hk.
Qed.

(** What [GetGrid] does once its index is computed and in range. *)
Lemma GetGrid_at s x y loadOnlyMap gx gy :
  F32.to_int (F32.of_int 32 - x / SIZE_OF_GRIDS)%f32 = Ret gx ->
  F32.to_int (F32.of_int 32 - y / SIZE_OF_GRIDS)%f32 = Ret gy ->
  in_grid gx gy = true ->
  GetGrid dataPath fs s x y loadOnlyMap =
    match m_GridMaps s !! (gx, gy) with
    | None =>
        if LoadAttempted s (gx, gy) then Ret (None, s)
        else
          '(pMap, s) ← LoadMapAndVMap dataPath fs s gx gy loadOnlyMap;
          Ret (pMap, set_LoadAttempted s (gx, gy) true)
    | Some pMap =>
        if negb (IsFullyLoaded pMap) && negb loadOnlyMap then
          '(pMap, s) ← LoadMapAndVMap dataPath fs s gx gy loadOnlyMap;
          Ret (pMap, set_LoadAttempted s (gx, gy) true)
        else Ret (Some pMap, s)
    end.
Proof.
  intros Hx Hy Hg. unfold GetGrid.
  rewrite Hx. msimpl. rewrite Hy. msimpl. rewrite (at_grid_in gx gy Hg). msimpl.
  apply in_grid_spec in Hg. unfold MAX_NUMBER_OF_GRIDS in Hg.
  rewrite !Z.mod_small by lia. reflexivity.
Qed.

Lemma GetGrid_index s x y loadOnlyMap r s' :
  GetGrid dataPath fs s x y loadOnlyMap = Ret (r, s') ->
  exists gx gy,
    F32.to_int (F32.of_int 32 - x / SIZE_OF_GRIDS)%f32 = Ret gx
    /\ F32.to_int (F32.of_int 32 - y / SIZE_OF_GRIDS)%f32 = Ret gy
    /\ in_grid gx gy = true.
Proof.
  unfold GetGrid. intros Hrun.
  apply bind_Ret in Hrun as (gx & Hx & Hrun).
  apply bind_Ret in Hrun as (gy & Hy & Hrun).
  apply bind_Ret in Hrun as (k & [_ Hg]%at_grid_Ret & _).
  eauto.
Qed.

(** X10. [GetGrid] without [loadOnlyMap] is idempotent: a second call for
    the same coordinates, with or without [loadOnlyMap], returns the same
    pointer and leaves the cache exactly as the first call left it; the
    tile file is not read a second time. *)
Theorem GetGrid_idempotent s (x y : float) r s' :
  GetGrid dataPath fs s x y false = Ret (r, s') ->
  forall loadOnlyMap, GetGrid dataPath fs s' x y loadOnlyMap = Ret (r, s').
Proof.
  intros Hrun lo.
  destruct (GetGrid_index _ _ _ _ _ _ Hrun) as (gx & gy & Hx & Hy & Hg).
  rewrite (GetGrid_at s x y false gx gy Hx Hy Hg) in Hrun.
  rewrite (GetGrid_at s' x y lo gx gy Hx Hy Hg).
  assert (Hdone : forall g s1,
             m_GridMaps s1 !! (gx, gy) = Some g -> m_fullyLoaded g = true ->
             match m_GridMaps (set_LoadAttempted s1 (gx, gy) true) !! (gx, gy) with
             | None =>
                 if LoadAttempted (set_LoadAttempted s1 (gx, gy) true) (gx, gy)
                 then Ret (None, set_LoadAttempted s1 (gx, gy) true)
                 else
                   '(pMap, s) ← LoadMapAndVMap dataPath fs
                                   (set_LoadAttempted s1 (gx, gy) true) gx gy lo;
                   Ret (pMap, set_LoadAttempted s (gx, gy) true)
             | Some pMap =>
                 if negb (IsFullyLoaded pMap) && negb lo then
                   '(pMap, s) ← LoadMapAndVMap dataPath fs
                                   (set_LoadAttempted s1 (gx, gy) true) gx gy lo;
                   Ret (pMap, set_LoadAttempted s (gx, gy) true)
                 else Ret (Some pMap, set_LoadAttempted s1 (gx, gy) true)
             end = Ret (Some g, set_LoadAttempted s1 (gx, gy) true)).
  { intros g s1 Hk Hf. cbn [m_GridMaps set_LoadAttempted set_m_GridMapsLoadAttempted].
    rewrite Hk. unfold IsFullyLoaded. now rewrite Hf. }
  destruct (m_GridMaps s !! (gx, gy)) as [pMap|] eqn:Hslot.
  - destruct (negb (IsFullyLoaded pMap) && negb false) eqn:Hfull.
    + apply bind_Ret in Hrun as ([p s1] & Hload & Hrun). cbn beta iota in Hrun.
      ret_inj Hrun.
      apply LoadMapAndVMap_full in Hload
        as [(Hal & -> & ->) | (Hal & g & -> & Hk & Hf)]; [| | assumption].
      * cbn [m_GridMaps set_LoadAttempted set_m_GridMapsLoadAttempted].
        rewrite Hslot.
        destruct (negb (IsFullyLoaded pMap) && negb lo); [|reflexivity].
        rewrite LoadMapAndVMap_nothing_to_load;
          [| assumption | unfold already in *; cbn; rewrite Hal; apply orb_true_r].
        msimpl. cbn [m_GridMaps set_LoadAttempted set_m_GridMapsLoadAttempted].
        rewrite Hslot. f_equal. f_equal.
        apply set_LoadAttempted_again. rewrite LoadAttempted_set.
        now rewrite bool_decide_eq_true_2.
      * now apply Hdone.
    + ret_inj Hrun. rewrite Hslot.
      apply andb_false_iff in Hfull as [Hfull | Hfull]; [|discriminate].
      now rewrite Hfull.
  - destruct (LoadAttempted s (gx, gy)) eqn:Hatt.
    + ret_inj Hrun. now rewrite Hslot, Hatt.
    + apply bind_Ret in Hrun as ([p s1] & Hload & Hrun). cbn beta iota in Hrun.
      ret_inj Hrun.
      apply LoadMapAndVMap_full in Hload
        as [(Hal & -> & ->) | (Hal & g & -> & Hk & Hf)]; [| | assumption].
      * cbn [m_GridMaps set_LoadAttempted set_m_GridMapsLoadAttempted].
        rewrite Hslot.
        change (LoadAttempted (set_LoadAttempted s (gx, gy) true) (gx, gy) = true
                -> _) || idtac.
        rewrite (LoadAttempted_set s (gx, gy) (gx, gy) true).
        now rewrite bool_decide_eq_true_2.
      * now apply Hdone.
Qed.

End SlotLife.

(** X10, witness: the world origin on a fresh cache whose providers have
    data, over an empty data directory. *)
Lemma GetGrid_idempotent_witness :
  let o := F32.of_int 0 in
  let s := Upstream.fresh_cache Upstream.with_data Upstream.with_data in
  exists r s',
    GetGrid (H2 := upstream_defines) "" (fun _ => None) s o o false = Ret (r, s')
    /\ GetGrid (H2 := upstream_defines) "" (fun _ => None) s' o o true = Ret (r, s').
Proof.
  intros o s.
  destruct (GetGrid (H2 := upstream_defines) "" (fun _ => None) s o o false)
    as [[r s']|f] eqn:Hrun.
  - exists r, s'. split; [reflexivity |].
    exact (GetGrid_idempotent (H2 := upstream_defines) "" (fun _ => None)
             s o o r s' Hrun true).
  - vm_compute in Hrun. discriminate Hrun.
Defined.

Section SlotInvariants.
Context {V M T : Type} `{IVMapManager V} `{MMapManager M} `{IntervalTimer T}.
Context `{GridDefines}.
Variable dataPath : string.
Variable fs : Stdio.filesystem.
Implicit Types s : TerrainInfo V M T.

Lemma Load_in_grid s x y mapOnly r s' :
  Load dataPath fs s x y mapOnly = Ret (r, s') -> in_grid x y = true.
Proof.
  unfold Load. intros Hrun.
  apply bind_Ret in Hrun as (? & _ & Hrun).
  apply bind_Ret in Hrun as (? & _ & Hrun).
  apply bind_Ret in Hrun as ([? ?] & _ & Hrun). cbn beta iota in Hrun.
  apply bind_Ret in Hrun as (k & [_ Hg]%at_grid_Ret & _). exact Hg.
Qed.

Lemma Load_eq s x y mapOnly :
  in_grid x y = true ->
  Load dataPath fs s x y mapOnly =
    let s1 := set_m_GridRef s (<[(x, y) := wrap16 (GridRef s (x, y) + 1)]> (m_GridRef s)) in
    match m_GridMaps s !! (x, y) with
    | None =>
        '(pMap, s2) ← LoadMapAndVMap dataPath fs s1 x y mapOnly;
        Ret (pMap, set_LoadAttempted s2 (x, y) true)
    | Some pMap => Ret (Some pMap, s1)
    end.
Proof.
  intros Hg. unfold Load.
  rewrite (assert_in_grid_l x y Hg), (assert_in_grid_r x y Hg). msimpl.
  rewrite (RefGrid_eq s x y Hg). msimpl. rewrite (at_grid_in x y Hg). msimpl.
  reflexivity.
Qed.

Lemma Unload_in_grid s x y s' : Unload s x y = Ret s' -> in_grid x y = true.
Proof.
  unfold Unload. intros Hrun.
  apply bind_Ret in Hrun as (? & _ & Hrun).
  apply bind_Ret in Hrun as (? & _ & Hrun).
  apply bind_Ret in Hrun as (k & [_ Hg]%at_grid_Ret & _). exact Hg.
Qed.

Lemma Unload_eq s x y :
  in_grid x y = true ->
  Unload s x y =
    match m_GridMaps s !! (x, y) with
    | Some _ =>
        if 0 <? GridRef s (x, y) then
          let r := wrap16 (GridRef s (x, y) - 1) in
          let s1 := set_m_GridRef s (<[(x, y) := r]> (m_GridRef s)) in
          Ret (if r =? 0 then set_LoadAttempted s1 (x, y) false else s1)
        else Ret (set_LoadAttempted s (x, y) false)
    | None => Ret s
    end.
Proof.
  intros Hg. unfold Unload.
  rewrite (assert_in_grid_l x y Hg), (assert_in_grid_r x y Hg). msimpl.
  rewrite (at_grid_in x y Hg). msimpl.
  destruct (m_GridMaps s !! (x, y)); [|reflexivity].
  rewrite (UnrefGrid_eq s x y Hg).
  destruct (0 <? GridRef s (x, y)); msimpl; cbn zeta.
  - now destruct (wrap16 (GridRef s (x, y) - 1) =? 0).
  - reflexivity.
Qed.

(** The sweep, cell by cell: [due] says whether the timer has passed. *)
Lemma CleanUpGrids_cells s (diff : Z) :
  let s' := CleanUpGrids s diff in
  let due := Passed (Update (i_timer s) diff) in
  m_mapId s' = m_mapId s
  /\ m_GridRef s' = m_GridRef s
  /\ (forall k, m_GridMaps s' !! k =
                if due && bool_decide (k ∈ grid_cells) && sweepable s k
                then None else m_GridMaps s !! k)
  /\ (forall k, LoadAttempted s' k =
                LoadAttempted s k
                && negb (due && bool_decide (k ∈ grid_cells) && sweepable s k))
  /\ (due = false ->
      s' = set_i_timer s (Update (i_timer s) diff)).
Proof.
  cbn zeta. unfold CleanUpGrids.
  set (s0 := set_i_timer s (Update (i_timer s) diff)).
  assert (Hsw0 : forall k, sweepable s0 k = sweepable s k) by reflexivity.
  destruct (CleanUpGrid_foldl grid_cells s0 grid_cells_NoDup)
    as (Hid & Href & _ & Hslot & Hatt & _).
  change (i_timer s0) with (Update (i_timer s) diff).
  change (m_mapId s0) with (m_mapId s) in Hid.
  change (m_GridRef s0) with (m_GridRef s) in Href.
  change (m_GridMaps s0) with (m_GridMaps s) in Hslot.
  change (m_GridMapsLoadAttempted s0) with (m_GridMapsLoadAttempted s) in Hatt.
  revert Hid Href Hslot Hatt.
  generalize (foldl CleanUpGrid s0 grid_cells).
  intros sf Hid Href Hslot Hatt.
  destruct (Passed (Update (i_timer s) diff)); cbn [negb andb].
  - split_and!; [exact Hid | exact Href | | | discriminate].
    + intros k. cbn. rewrite Hslot, Hsw0. reflexivity.
    + intros k. unfold LoadAttempted. cbn.
      destruct (bool_decide (k ∈ grid_cells) && sweepable s k) eqn:Hc.
      * rewrite andb_false_r. apply bool_decide_eq_false_2.
        rewrite Hatt, Hsw0. apply andb_true_iff in Hc as [Hin%bool_decide_eq_true_1 Hs].
        tauto.
      * rewrite andb_true_r. apply bool_decide_ext.
        rewrite Hatt, Hsw0. apply andb_false_iff in Hc as [Hin%bool_decide_eq_false_1|Hs];
          intuition congruence.
  - split_and!; try reflexivity.
    intros k. unfold LoadAttempted. cbn. now rewrite andb_true_r.
Qed.

(** A load of another tile leaves a given-up slot as it is. *)
Lemma given_up_LoadMapAndVMap s x y mapOnly p s1 k :
  (x, y) <> k ->
  given_up s k ->
  LoadMapAndVMap dataPath fs s x y mapOnly = Ret (p, s1) ->
  given_up (set_LoadAttempted s1 (x, y) true) k.
Proof.
  intros Hne [Hnone Hatt] Hrun.
  pose proof (LoadMapAndVMap_keeps _ _ _ _ _ _ _ _ Hrun) as (_ & Hatt' & _).
  apply LoadMapAndVMap_flag in Hrun as (_ & Hother & _).
  split.
  - cbn. rewrite Hother by congruence. exact Hnone.
  - rewrite LoadAttempted_set, bool_decide_eq_false_2 by congruence.
    unfold LoadAttempted in *. now rewrite Hatt'.
Qed.

(** X11. A slot that is empty with its [loadAttempted] flag set is given
    up: [GetGrid] for a point of that tile returns null and changes
    nothing, without looking at the file or the providers, and the slot
    stays given up through every [GetGrid] (of any tile), [Unload] (of any
    tile, its own included), [RefGrid], [UnrefGrid] and [CleanUpGrids];
    none of them clears the flag of an empty slot. *)
Theorem given_up_stays s (k : Z * Z) :
  given_up s k ->
  (forall fx fy loadOnlyMap gx gy,
      F32.to_int (F32.of_int 32 - fx / SIZE_OF_GRIDS)%f32 = Ret gx ->
      F32.to_int (F32.of_int 32 - fy / SIZE_OF_GRIDS)%f32 = Ret gy ->
      in_grid gx gy = true -> k = (gx, gy) ->
      GetGrid dataPath fs s fx fy loadOnlyMap = Ret (None, s))
  /\ (forall fx fy loadOnlyMap r s',
         GetGrid dataPath fs s fx fy loadOnlyMap = Ret (r, s') -> given_up s' k)
  /\ (forall x y s', Unload s x y = Ret s' -> given_up s' k)
  /\ (forall x y r s', RefGrid s x y = Ret (r, s') -> given_up s' k)
  /\ (forall x y r s', UnrefGrid s x y = Ret (r, s') -> given_up s' k)
  /\ (forall diff, given_up (CleanUpGrids s diff) k).
Proof.
  intros Hgu. pose proof Hgu as [Hnone Hatt]. split_and!.
  - intros fx fy lo gx gy Hx Hy Hg ->.
    rewrite (GetGrid_at dataPath fs s fx fy lo gx gy Hx Hy Hg).
    now rewrite Hnone, Hatt.
  - intros fx fy lo r s' Hrun.
    destruct (GetGrid_index _ _ _ _ _ _ _ _ Hrun) as (gx & gy & Hx & Hy & Hg).
    rewrite (GetGrid_at dataPath fs s fx fy lo gx gy Hx Hy Hg) in Hrun.
    destruct (decide ((gx, gy) = k)) as [<-|Hne].
    + rewrite Hnone, Hatt in Hrun. now ret_inj Hrun.
    + destruct (m_GridMaps s !! (gx, gy));
        [destruct (_ && _) | destruct (LoadAttempted s (gx, gy))];
        try (ret_inj Hrun; exact Hgu);
        apply bind_Ret in Hrun as ([p s1] & Hload & Hrun); cbn beta iota in Hrun;
        ret_inj Hrun; eapply given_up_LoadMapAndVMap; eassumption.
  - intros x y s' Hrun.
    pose proof (Unload_in_grid _ _ _ _ Hrun) as Hg.
    rewrite (Unload_eq s x y Hg) in Hrun.
    destruct (m_GridMaps s !! (x, y)) eqn:Hslot; [|now ret_inj Hrun].
    assert (Hne : k <> (x, y)) by (intros ->; congruence).
    destruct (0 <? GridRef s (x, y)); cbn zeta in Hrun;
      [destruct (wrap16 _ =? 0)|]; ret_inj Hrun; split;
      rewrite ?LoadAttempted_set, ?bool_decide_eq_false_2 by assumption;
      assumption.
  - intros x y r s' Hrun. unfold RefGrid in Hrun. inv_run Hrun. ret_inj Hrun.
    exact Hgu.
  - intros x y r s' Hrun. unfold UnrefGrid in Hrun. inv_run Hrun; ret_inj Hrun;
      exact Hgu.
  - intros diff.
    destruct (CleanUpGrids_cells s diff) as (_ & _ & Hslot & Hat & _).
    assert (Hsw : sweepable s k = false).
    { unfold sweepable. now rewrite Hnone. }
    split.
    + rewrite Hslot, Hsw, andb_false_r. exact Hnone.
    + rewrite Hat, Hsw, andb_false_r, andb_true_r. exact Hatt.
Qed.

Lemma Load_count s x y mapOnly r s' :
  Load dataPath fs s x y mapOnly = Ret (r, s') ->
  in_grid x y = true
  /\ r = m_GridMaps s' !! (x, y)
  /\ m_GridRef s' = <[(x, y) := wrap16 (GridRef s (x, y) + 1)]> (m_GridRef s)
  /\ (forall k, k <> (x, y) -> m_GridMaps s' !! k = m_GridMaps s !! k)
  /\ i_timer s' = i_timer s.
Proof.
  intros Hrun. pose proof (Load_in_grid _ _ _ _ _ _ Hrun) as Hg.
  rewrite (Load_eq s x y mapOnly Hg) in Hrun. cbn zeta in Hrun.
  split; [exact Hg |].
  destruct (m_GridMaps s !! (x, y)) eqn:Hslot.
  - ret_inj Hrun. cbn. now rewrite Hslot.
  - apply bind_Ret in Hrun as ([p s2] & Hload & Hrun). cbn beta iota in Hrun.
    ret_inj Hrun.
    pose proof (LoadMapAndVMap_keeps _ _ _ _ _ _ _ _ Hload) as (Href & _ & _ & Ht).
    apply LoadMapAndVMap_flag in Hload as (Hr & Hother & _).
    cbn. split_and!; auto.
Qed.

(** X12. [Load] works on one slot only. It returns what the slot holds
    afterwards and raises the slot's count by one (as an int16); every
    other slot keeps its store, its count and its [loadAttempted] flag.
    When the slot already holds a store, that store is returned as it is
    and neither the loader nor a provider is asked for anything, even if
    the store is not fully loaded and [mapOnly] is false. *)
Theorem Load_touches_one_slot s (x y : Z) (mapOnly : bool) r s' :
  Load dataPath fs s x y mapOnly = Ret (r, s') ->
  r = m_GridMaps s' !! (x, y)
  /\ GridRef s' (x, y) = wrap16 (GridRef s (x, y) + 1)
  /\ (forall k, k <> (x, y) ->
        m_GridMaps s' !! k = m_GridMaps s !! k
        /\ GridRef s' k = GridRef s k
        /\ LoadAttempted s' k = LoadAttempted s k)
  /\ (forall g, m_GridMaps s !! (x, y) = Some g ->
        r = Some g
        /\ m_GridMaps s' = m_GridMaps s
        /\ m_GridMapsLoadAttempted s' = m_GridMapsLoadAttempted s
        /\ m_vmgr s' = m_vmgr s
        /\ m_mmgr s' = m_mmgr s).
Proof.
  intros Hrun.
  pose proof (Load_count _ _ _ _ _ _ Hrun) as (Hg & Hr & Href & Hother & _).
  split_and!.
  - exact Hr.
  - unfold GridRef at 1. rewrite Href, lookup_insert_eq. reflexivity.
  - intros k Hne. split_and!.
    + now apply Hother.
    + unfold GridRef. rewrite Href, lookup_insert_ne by congruence. reflexivity.
    + rewrite (Load_eq s x y mapOnly Hg) in Hrun. cbn zeta in Hrun.
      destruct (m_GridMaps s !! (x, y)).
      * now ret_inj Hrun.
      * apply bind_Ret in Hrun as ([p s2] & Hload & Hrun). cbn beta iota in Hrun.
        ret_inj Hrun.
        apply LoadMapAndVMap_keeps in Hload as (_ & Hatt & _).
        rewrite LoadAttempted_set, bool_decide_eq_false_2 by assumption.
        unfold LoadAttempted. now rewrite Hatt.
  - intros g Hslot.
    rewrite (Load_eq s x y mapOnly Hg) in Hrun. cbn zeta in Hrun.
    rewrite Hslot in Hrun. ret_inj Hrun. now split_and!.
Qed.

(** X13. [Load] followed by [Unload] of the same tile, on a slot whose
    count is a non-negative int16 below 32767: [Unload] returns and the
    stores are those [Load] left. If [Load] returned a store, the count is
    back at its value before the pair. If [Load] returned null, [Unload]
    does nothing at all, and the count stays one higher than before: the
    reference taken by [Load] is not given back. The counts of the other
    slots are unchanged in both cases. *)
Theorem Load_Unload_balance s (x y : Z) (mapOnly : bool) r s1 :
  0 <= GridRef s (x, y) < 2 ^ 15 - 1 ->
  Load dataPath fs s x y mapOnly = Ret (r, s1) ->
  exists s2,
    Unload s1 x y = Ret s2
    /\ m_GridMaps s2 = m_GridMaps s1
    /\ (is_null r = false -> GridRef s2 (x, y) = GridRef s (x, y))
    /\ (is_null r = true -> s2 = s1 /\ GridRef s2 (x, y) = GridRef s (x, y) + 1)
    /\ (forall k, k <> (x, y) -> GridRef s2 k = GridRef s k).
Proof.
  intros Hc Hrun.
  pose proof (Load_count _ _ _ _ _ _ Hrun) as (Hg & Hr & Href & _ & _).
  assert (Hc1 : GridRef s1 (x, y) = GridRef s (x, y) + 1).
  { unfold GridRef at 1. rewrite Href, lookup_insert_eq. cbn.
    apply wrap16_id. lia. }
  assert (Hk : forall k, k <> (x, y) -> GridRef s1 k = GridRef s k).
  { intros k Hne. unfold GridRef. now rewrite Href, lookup_insert_ne by congruence. }
  rewrite (Unload_eq s1 x y Hg). rewrite <- Hr.
  destruct r as [g|].
  - destruct (Z.ltb_spec 0 (GridRef s1 (x, y))) as [_|]; [|lia].
    cbn zeta. eexists. split; [reflexivity |].
    rewrite Hc1. replace (GridRef s (x, y) + 1 - 1) with (GridRef s (x, y)) by lia.
    rewrite wrap16_id by lia.
    destruct (GridRef s (x, y) =? 0); cbn; split_and!; try reflexivity;
      try discriminate;
      try (intros _; unfold GridRef; cbn; now rewrite lookup_insert_eq);
      intros k Hne; rewrite <- (Hk k Hne); unfold GridRef; cbn;
      now rewrite lookup_insert_ne by congruence.
  - exists s1. split_and!; try reflexivity; try discriminate.
    + intros _. split; [reflexivity | exact Hc1].
    + exact Hk.
Qed.

(** X14. [CleanUpGrids] only removes. The stores and the set
    [loadAttempted] flags after it are among those before it, no count
    changes, and a slot whose count is not 0 (negative ones included)
    keeps its store and its flag. When the timer has not passed after the
    update, the timer is all that changes. *)
Theorem CleanUpGrids_only_removes s (diff : Z) :
  let s' := CleanUpGrids s diff in
  m_GridMaps s' ⊆ m_GridMaps s
  /\ m_GridMapsLoadAttempted s' ⊆ m_GridMapsLoadAttempted s
  /\ m_GridRef s' = m_GridRef s
  /\ (forall k, GridRef s k <> 0 ->
        m_GridMaps s' !! k = m_GridMaps s !! k
        /\ LoadAttempted s' k = LoadAttempted s k)
  /\ (Passed (Update (i_timer s) diff) = false ->
      s' = set_i_timer s (Update (i_timer s) diff)).
Proof.
  cbn zeta.
  destruct (CleanUpGrids_cells s diff) as (_ & Href & Hslot & Hatt & Hidle).
  split_and!.
  - apply map_subseteq_spec. intros k g. rewrite Hslot.
    now destruct (_ && _).
  - intros k Hin.
    assert (Hk : LoadAttempted (CleanUpGrids s diff) k = true)
      by now apply bool_decide_eq_true_2.
    rewrite Hatt in Hk. apply andb_true_iff in Hk as [Hk _].
    now apply bool_decide_eq_true_1 in Hk.
  - exact Href.
  - intros k Hne.
    assert (Hsw : sweepable s k = false).
    { unfold sweepable. destruct (Z.eqb_spec (GridRef s k) 0); [contradiction |].
      apply andb_false_r. }
    rewrite Hslot, Hatt, Hsw, !andb_false_r, andb_true_r. auto.
  - exact Hidle.
Qed.

(** X15. A tile obtained from [Load] is pinned: as long as the reference
    is held, no [CleanUpGrids] removes its store, whatever the time
    elapsed. Once the matching [Unload] has brought the count back to 0,
    the next [CleanUpGrids] whose timer has passed empties the slot and
    clears its [loadAttempted] flag. *)
Theorem Load_pins_tile s (x y : Z) (mapOnly : bool) g s1 :
  0 <= GridRef s (x, y) < 2 ^ 15 - 1 ->
  Load dataPath fs s x y mapOnly = Ret (Some g, s1) ->
  (forall diff, m_GridMaps (CleanUpGrids s1 diff) !! (x, y) = Some g)
  /\ (GridRef s (x, y) = 0 ->
      exists s2,
        Unload s1 x y = Ret s2
        /\ forall diff,
            Passed (Update (i_timer s2) diff) = true ->
            m_GridMaps (CleanUpGrids s2 diff) !! (x, y) = None
            /\ LoadAttempted (CleanUpGrids s2 diff) (x, y) = false).
Proof.
  intros Hc Hrun.
  pose proof (Load_count _ _ _ _ _ _ Hrun) as (Hg & Hr & Href & _ & _).
  assert (Hc1 : GridRef s1 (x, y) = GridRef s (x, y) + 1).
  { unfold GridRef at 1. rewrite Href, lookup_insert_eq. cbn.
    apply wrap16_id. lia. }
  split.
  - intros diff.
    destruct (CleanUpGrids_cells s1 diff) as (_ & _ & Hslot & _).
    rewrite Hslot. unfold sweepable.
    destruct (Z.eqb_spec (GridRef s1 (x, y)) 0); [lia |].
    rewrite !andb_false_r. now rewrite <- Hr.
  - intros Hzero. rewrite (Unload_eq s1 x y Hg), <- Hr.
    destruct (Z.ltb_spec 0 (GridRef s1 (x, y))) as [_|]; [|lia].
    cbn zeta. rewrite Hc1, Hzero. change (wrap16 (0 + 1 - 1)) with 0.
    change (0 =? 0) with true. cbn iota.
    eexists. split; [reflexivity |].
    intros diff Hdue.
    match goal with
    | |- context [CleanUpGrids ?a diff] =>
        destruct (CleanUpGrids_cells a diff) as (_ & _ & Hslot & Hatt & _);
        assert (Hsw : sweepable a (x, y) = true)
    end.
    { unfold sweepable, GridRef.
      cbn [m_GridMaps m_GridRef set_LoadAttempted set_m_GridRef
           set_m_GridMapsLoadAttempted].
      rewrite <- Hr, lookup_insert_eq. reflexivity. }
    rewrite Hslot, Hatt, Hdue, Hsw.
    rewrite bool_decide_eq_true_2 by apply grid_cells_elem, Hg.
    cbn. split; [reflexivity | apply andb_false_r].
Qed.

(** X16. What [GetGrid] without [loadOnlyMap] hands out, for a point whose
    tile is (gx, gy). A store it returns is the one in the slot, and it is
    fully loaded unless both providers already reported the tile loaded
    before the call. When it returns null the slot is given up
    afterwards, and either it was given up before or both providers
    reported the tile loaded while the slot was empty: in that case the
    tile file is never read. *)
Theorem GetGrid_result s (fx fy : float) (gx gy : Z) r s' :
  F32.to_int (F32.of_int 32 - fx / SIZE_OF_GRIDS)%f32 = Ret gx ->
  F32.to_int (F32.of_int 32 - fy / SIZE_OF_GRIDS)%f32 = Ret gy ->
  GetGrid dataPath fs s fx fy false = Ret (r, s') ->
  let both_loaded :=
    IsTileLoaded (m_vmgr s) (m_mapId s) gx gy
    && IsMMapIsLoaded (m_mmgr s) (m_mapId s) gx gy in
  match r with
  | Some g =>
      m_GridMaps s' !! (gx, gy) = Some g
      /\ (m_fullyLoaded g = true \/ both_loaded = true)
  | None =>
      given_up s' (gx, gy)
      /\ (given_up s (gx, gy)
          \/ (both_loaded = true /\ m_GridMaps s !! (gx, gy) = None))
  end.
Proof.
  intros Hx Hy Hrun both.
  destruct (GetGrid_index _ _ _ _ _ _ _ _ Hrun) as (gx' & gy' & Hx' & Hy' & Hg).
  assert (gx' = gx) as -> by congruence.
  assert (gy' = gy) as -> by congruence.
  rewrite (GetGrid_at dataPath fs s fx fy false gx gy Hx Hy Hg) in Hrun.
  assert (Hafter : forall p s1,
             LoadMapAndVMap dataPath fs s gx gy false = Ret (p, s1) ->
             match p with
             | Some g =>
                 m_GridMaps (set_LoadAttempted s1 (gx, gy) true) !! (gx, gy) = Some g
                 /\ (m_fullyLoaded g = true \/ both = true)
             | None =>
                 given_up (set_LoadAttempted s1 (gx, gy) true) (gx, gy)
                 /\ both = true /\ m_GridMaps s !! (gx, gy) = None
             end).
  { intros p s1 Hload.
    apply LoadMapAndVMap_full in Hload
      as [(Hal & -> & ->) | (Hal & g & -> & Hk & Hf)]; [| | assumption].
    - destruct (m_GridMaps s !! (gx, gy)) as [g|] eqn:Hslot.
      + split; [exact Hslot | right; exact Hal].
      + split_and!; [split | exact Hal | reflexivity].
        * exact Hslot.
        * rewrite LoadAttempted_set. now rewrite bool_decide_eq_true_2.
    - split; [exact Hk | left; exact Hf]. }
  destruct (m_GridMaps s !! (gx, gy)) as [pMap|] eqn:Hslot.
  - destruct (negb (IsFullyLoaded pMap) && negb false) eqn:Hfull.
    + apply bind_Ret in Hrun as ([p s1] & Hload & Hrun). cbn beta iota in Hrun.
      ret_inj Hrun. specialize (Hafter _ _ Hload).
      destruct r; [exact Hafter |].
      destruct Hafter as (_ & _ & Habs). discriminate Habs.
    + ret_inj Hrun. split; [exact Hslot |]. left.
      apply andb_false_iff in Hfull as [Hfull | Hfull]; [|discriminate].
      now apply negb_false_iff in Hfull.
  - destruct (LoadAttempted s (gx, gy)) eqn:Hatt.
    + ret_inj Hrun. split; [|left]; split; assumption.
    + apply bind_Ret in Hrun as ([p s1] & Hload & Hrun). cbn beta iota in Hrun.
      ret_inj Hrun. specialize (Hafter _ _ Hload).
      destruct r; [exact Hafter |].
      destruct Hafter as (Hgu & Hb & _). split; [exact Hgu | right; auto].
Qed.

End SlotInvariants.

(** X11, witness: slot (32, 32) of the cache over the preloaded providers,
    once its flag is set. *)
Lemma given_up_stays_witness :
  let o := F32.of_int 0 in
  let s := set_LoadAttempted preloaded_cache (32, 32) true in
  given_up s (32, 32)
  /\ GetGrid (H2 := upstream_defines) "" (fun _ => None) s o o false = Ret (None, s)
  /\ given_up (CleanUpGrids s 60000) (32, 32).
Proof.
  intros o s.
  assert (Hgu : given_up s (32, 32)) by (split; vm_compute; reflexivity).
  destruct (given_up_stays (H2 := upstream_defines) "" (fun _ => None) s (32, 32) Hgu)
    as (Hget & _ & _ & _ & _ & Hsweep).
  split_and!.
  - exact Hgu.
  - apply (Hget o o false 32 32); vm_compute; reflexivity.
  - apply Hsweep.
Defined.

(** X12, witness: the first load of tile (0, 0) of a fresh cache. *)
Lemma Load_touches_one_slot_witness :
  let s := Upstream.fresh_cache Upstream.with_data Upstream.with_data in
  exists r s',
    Load (H2 := upstream_defines) "" (fun _ => None) s 0 0 false = Ret (r, s')
    /\ GridRef s' (0, 0) = 1
    /\ GridRef s' (0, 1) = 0.
Proof.
  intros s.
  destruct (Load (H2 := upstream_defines) "" (fun _ => None) s 0 0 false)
    as [[r s']|f] eqn:Hrun.
  - destruct (Load_touches_one_slot (H2 := upstream_defines) "" (fun _ => None)
                s 0 0 false r s' Hrun) as (_ & Hown & Hother & _).
    exists r, s'. split_and!.
    + reflexivity.
    + rewrite Hown. reflexivity.
    + destruct (Hother (0, 1) ltac:(discriminate)) as (_ & Hc & _).
      rewrite Hc. reflexivity.
  - vm_compute in Hrun. discriminate Hrun.
Defined.

(** X13, witness: a load and an unload of tile (0, 0) of a fresh cache. *)
Lemma Load_Unload_balance_witness :
  let s := Upstream.fresh_cache Upstream.with_data Upstream.with_data in
  exists r s1 s2,
    Load (H2 := upstream_defines) "" (fun _ => None) s 0 0 false = Ret (r, s1)
    /\ Unload s1 0 0 = Ret s2
    /\ m_GridMaps s2 = m_GridMaps s1.
Proof.
  intros s.
  assert (Hc : 0 <= GridRef s (0, 0) < 2 ^ 15 - 1)
    by (vm_compute; split; [discriminate | reflexivity]).
  destruct (Load (H2 := upstream_defines) "" (fun _ => None) s 0 0 false)
    as [[r s1]|f] eqn:Hrun.
  - destruct (Load_Unload_balance (H2 := upstream_defines) "" (fun _ => None)
                s 0 0 false r s1 Hc Hrun) as (s2 & Hun & Hmaps & _).
    exists r, s1, s2. auto.
  - vm_compute in Hrun. discriminate Hrun.
Defined.

(** X14, witness: a sweep of a fresh cache long before it is due. *)
Lemma CleanUpGrids_only_removes_witness :
  let s := Upstream.fresh_cache Upstream.with_data Upstream.with_data in
  CleanUpGrids s 1 = set_i_timer s (Update (i_timer s) 1).
Proof.
  intros s.
  destruct (CleanUpGrids_only_removes s 1) as (_ & _ & _ & _ & Hidle).
  apply Hidle. vm_compute. reflexivity.
Defined.

(** X16, witness: the world origin on the cache over the preloaded
    providers; no store is created and the slot is given up. *)
Lemma GetGrid_result_witness :
  let o := F32.of_int 0 in
  exists s',
    GetGrid (H2 := upstream_defines) "" (fun _ => None) preloaded_cache o o false
    = Ret (None, s')
    /\ given_up s' (32, 32).
Proof.
  intros o.
  destruct (GetGrid (H2 := upstream_defines) "" (fun _ => None) preloaded_cache o o false)
    as [[r s']|f] eqn:Hrun.
  - pose proof (GetGrid_result (H2 := upstream_defines) "" (fun _ => None)
                  preloaded_cache o o 32 32 r s'
                  ltac:(vm_compute; reflexivity) ltac:(vm_compute; reflexivity) Hrun)
      as Hres.
    destruct r as [g|].
    + vm_compute in Hrun. discriminate Hrun.
    + exists s'. split; [reflexivity | exact (proj1 Hres)].
  - vm_compute in Hrun. discriminate Hrun.
Defined.

(** X15, witness: tile (0, 0) of a fresh cache, loaded, swept a minute
    later while referenced, then unloaded and swept again. *)
Lemma Load_pins_tile_witness :
  let s := Upstream.fresh_cache Upstream.with_data Upstream.with_data in
  exists g s1 s2,
    Load (H2 := upstream_defines) "" (fun _ => None) s 0 0 false = Ret (Some g, s1)
    /\ m_GridMaps (CleanUpGrids s1 60000) !! (0, 0) = Some g
    /\ Unload s1 0 0 = Ret s2
    /\ m_GridMaps (CleanUpGrids s2 60000) !! (0, 0) = None.
Proof.
  intros s.
  assert (Hc : 0 <= GridRef s (0, 0) < 2 ^ 15 - 1)
    by (vm_compute; split; [discriminate | reflexivity]).
  destruct (Load (H2 := upstream_defines) "" (fun _ => None) s 0 0 false)
    as [[[g|] s1]|f] eqn:Hrun.
  - destruct (Load_pins_tile (H2 := upstream_defines) "" (fun _ => None)
                s 0 0 false g s1 Hc Hrun) as (Hpin & Hfree).
    destruct (Hfree eq_refl) as (s2 & Hun & Hsweep).
    exists g, s1, s2. split_and!.
    + reflexivity.
    + apply Hpin.
    + exact Hun.
    + apply Hsweep.
      pose proof (Load_count _ _ _ _ _ _ _ _ Hrun) as (_ & _ & _ & _ & Ht).
      assert (Ht2 : i_timer s2 = i_timer s1).
      { rewrite (Unload_eq s1 0 0 eq_refl) in Hun.
        destruct (m_GridMaps s1 !! (0, 0)); [|now ret_inj Hun].
        destruct (0 <? GridRef s1 (0, 0)); cbn zeta in Hun;
          [destruct (wrap16 _ =? 0)|]; now ret_inj Hun. }
      rewrite Ht2, Ht. vm_compute. reflexivity.
  - vm_compute in Hrun. discriminate Hrun.
  - vm_compute in Hrun. discriminate Hrun.
Defined.

(** ** The existence check and the loader *)

Lemma tag_of_field (bs : Mem.buffer) (n : nat) (off : Z) (t : Z) :
  0 <= off -> (Z.to_nat off + 4 <= n)%nat ->
  Mem.field (take n bs) off 4 = Ret t -> tag_at bs off = Some t.
Proof.
  intros Hoff Hn. unfold tag_at, Mem.field, Mem.bytes_at.
  destruct (Z.ltb_spec off 0); [lia |].
  rewrite <- (field_take bs n off 4 Hoff Hn).
  destruct (length (take 4 (drop (Z.to_nat off) bs)) =? 4)%nat; [|discriminate].
  now intros [= <-].
Qed.

Section Existence.
Context `{GridDefines}.


End Existence.


(** ** Outdoor groups *)

(** X18. [IsOutdoorWMO] looks at two bits of the group flags: a group is
    outdoor when bit 15 is set, and on map 530 also when bit 3 is set. So
    a group that is outdoor on some map is outdoor on map 530, and all
    maps other than 530 agree. *)
Theorem IsOutdoorWMO_bits (mogpFlags mapId : Z) :
  IsOutdoorWMO mogpFlags mapId
  = Z.testbit mogpFlags 15 || ((mapId =? 530) && Z.testbit mogpFlags 3).
Proof.
  unfold IsOutdoorWMO.
  destruct (mapId =? 530); cbn [andb].
  - change 0x8008 with (Z.lor (2 ^ 15) (2 ^ 3)).
    rewrite Z.land_lor_distr_r.
    rewrite <- (land_pow2 mogpFlags 15), <- (land_pow2 mogpFlags 3) by lia.
    destruct (Z.eqb_spec (Z.land mogpFlags (2 ^ 15)) 0) as [-> | H15]; cbn [negb orb].
    + rewrite Z.lor_0_l. reflexivity.
    + destruct (Z.eqb_spec (Z.lor (Z.land mogpFlags (2 ^ 15)) (Z.land mogpFlags (2 ^ 3))) 0)
        as [Hz | _]; [|reflexivity].
      apply Z.lor_eq_0_iff in Hz. tauto.
  - rewrite orb_false_r. change 0x8000 with (2 ^ 15). apply land_pow2. lia.
Qed.

(** ** From the bytes of the file to the answers of the queries *)

Lemma le_val_nonneg (bs : list Mem.byte) : 0 <= Mem.le_val bs.
Proof.
  induction bs as [|b bs IH]; cbn [Mem.le_val]; [lia |].
  unfold Mem.byte_val. lia.
Qed.

Lemma root_field_nonneg (bs : Mem.buffer) (i t : Z) : root_field bs i = Some t -> 0 <= t.
Proof.
  unfold root_field, tag_at.
  destruct (40 <=? length bs)%nat; [|discriminate].
  destruct (length _ =? 4)%nat; [|discriminate].
  intros [= <-]. apply le_val_nonneg.
Qed.

Lemma field_length (buf : Mem.buffer) (off : Z) (w : nat) (v : Z) :
  (0 < w)%nat -> Mem.field buf off w = Ret v ->
  0 <= off /\ (Z.to_nat off + w <= length buf)%nat.
Proof.
  intros Hw. unfold Mem.field, Mem.bytes_at.
  destruct (Z.ltb_spec off 0); [discriminate |].
  destruct (Nat.eqb_spec (length (take w (drop (Z.to_nat off) buf))) w) as [Hl|];
    [|discriminate].
  intros _. rewrite length_take, length_drop in Hl. lia.
Qed.

(** A uint16 or uint32 member of a header that was read whole is the
    element of the file at that place. *)
Lemma field_read_u16 (buf : Mem.buffer) (n : nat) (i v : Z) :
  0 <= i -> (Z.to_nat (2 * i) + 2 <= n)%nat ->
  Mem.field (take n buf) (2 * i) 2 = Ret v -> Mem.read_u16 buf i = Ret v.
Proof.
  intros Hi Hn. unfold Mem.field, Mem.read_u16, Mem.bytes_at.
  destruct (Z.ltb_spec (2 * i) 0); [lia |].
  rewrite <- (field_take buf n (2 * i) 2) by lia.
  destruct (length _ =? 2)%nat; [|discriminate].
  now intros [= <-].
Qed.

Lemma field_read_u32 (buf : Mem.buffer) (n : nat) (i v : Z) :
  0 <= i -> (Z.to_nat (4 * i) + 4 <= n)%nat ->
  Mem.field (take n buf) (4 * i) 4 = Ret v -> Mem.read_u32 buf i = Ret v.
Proof.
  intros Hi Hn. unfold Mem.field, Mem.read_u32, Mem.bytes_at.
  destruct (Z.ltb_spec (4 * i) 0); [lia |].
  rewrite <- (field_take buf n (4 * i) 4) by lia.
  destruct (length _ =? 4)%nat; [|discriminate].
  now intros [= <-].
Qed.

(** Reading inside a table that was cut out of a longer buffer. *)
Lemma read_u16_take (buf : Mem.buffer) (n : nat) (i : Z) :
  0 <= i -> (Z.to_nat (2 * i) + 2 <= n)%nat ->
  Mem.read_u16 (take n buf) i = Mem.read_u16 buf i.
Proof.
  intros Hi Hn. unfold Mem.read_u16, Mem.bytes_at.
  destruct (Z.ltb_spec (2 * i) 0); [lia |].
  now rewrite <- (field_take buf n (2 * i) 2) by lia.
Qed.

Section FileLayout.
Context `{GridDefines}.

Lemma loadAreaData_layout in_ (off : Z) g g' in' :
  0 <= off ->
  loadAreaData in_ off g = Ret (true, g', in') ->
  let block := drop (Z.to_nat off) (Stdio.contents in_) in
  exists flags gridArea,
    Mem.read_u16 block 2 = Ret flags
    /\ Mem.read_u16 block 3 = Ret gridArea
    /\ m_gridArea g' = gridArea
    /\ m_area_map g' =
         if Z.land flags MAP_AREA_NO_AREA =? 0
         then Some (take 512 (drop (Z.to_nat (off + 8)) (Stdio.contents in_)))
         else m_area_map g.
Proof.
  intros Hoff Hrun block.
  unfold loadAreaData, Stdio.fread, Stdio.fseek in Hrun.
  cbn beta iota zeta in Hrun. cbn [Stdio.contents Stdio.position] in Hrun.
  fold block in Hrun.
  change (sizeof_GridMapAreaHeader * 1)%nat with 8%nat in Hrun.
  apply bind_Ret in Hrun as (fourcc & _ & Hrun).
  destruct (negb (fourcc =? magic32 MAP_AREA_MAGIC));
    [apply Ret_inj in Hrun; congruence |].
  apply bind_Ret in Hrun as (gridArea & Harea & Hrun).
  apply bind_Ret in Hrun as (flags & Hflags & Hrun).
  pose proof (field_length _ 6 2 _ ltac:(lia) Harea) as [_ Hlen].
  assert (Hhdr : length (take 8 block) = 8%nat).
  { pose proof (length_take_le block 8) as Hle.
    rewrite length_take in *. change (Z.to_nat 6) with 6%nat in Hlen. lia. }
  rewrite Hhdr in Hrun.
  exists flags, gridArea. split_and!.
  - apply (field_read_u16 block 8 2 flags); [lia | cbn; lia | exact Hflags].
  - apply (field_read_u16 block 8 3 gridArea); [lia | cbn; lia | exact Harea].
  - destruct (Z.land flags MAP_AREA_NO_AREA =? 0); now ret_inj Hrun.
  - destruct (Z.land flags MAP_AREA_NO_AREA =? 0); ret_inj Hrun; reflexivity.
Qed.

Lemma liquid_section_area hdr fo in_ g ok g' in' :
  load_section loadGridMapLiquidData hdr fo in_ g = Ret (ok, g', in') ->
  m_gridArea g' = m_gridArea g.
Proof.
  intros [[= -> -> ->]|[off Hrun]]%load_section_inv; [reflexivity |].
  loader_paths; reflexivity.
Qed.

(** X19. The area block, from the file to [getArea]. Let a tile file with
    the right root tags name an area block at offset [off], and let
    [loadData] succeed on it, from any store. Then the block holds, as
    its uint16 number 2 and 3, the flags and the area of the tile, and
    [getArea] at a point whose cell is (lx, ly) answers the tile's area
    when the flags say there is no area grid, and otherwise the uint16
    number [lx * 16 + ly] of the file behind the 8 bytes of the block
    header (faulting when the file ends before it). *)
Theorem area_block_round_trip (fs : Stdio.filesystem) (filename : string)
    (bs : Mem.buffer) (off : Z) (g0 g : GridMap) (x y : float) (xi yi : Z) :
  fs filename = Some bs ->
  root_field bs 0 = Some (magic32 MAP_MAGIC) ->
  root_field bs 1 = Some (magic32 MAP_VERSION_MAGIC) ->
  root_field bs 2 = Some off -> off <> 0 ->
  loadData fs filename g0 = Ret (true, g) ->
  F32.to_int (cell_coord 16 x) = Ret xi ->
  F32.to_int (cell_coord 16 y) = Ret yi ->
  exists flags gridArea,
    Mem.read_u16 (drop (Z.to_nat off) bs) 2 = Ret flags
    /\ Mem.read_u16 (drop (Z.to_nat off) bs) 3 = Ret gridArea
    /\ getArea g x y =
         if Z.land flags MAP_AREA_NO_AREA =? 0
         then Mem.read_u16 (drop (Z.to_nat (off + 8)) bs)
                (Z.land xi 15 * 16 + Z.land yi 15)
         else Ret gridArea.
Proof.
  intros Hfs Hm Hv Hoff Hne Hload Hx Hy.
  pose proof (root_field_nonneg _ _ _ Hoff) as Hpos.
  rewrite (loadData_sections fs filename g0 bs Hfs Hm Hv) in Hload.
  rewrite fread_root_header in Hload. cbn beta iota in Hload.
  change 8 with (4 * 2) in Hload.
  rewrite (load_section_present loadAreaData bs 2 off _ _ Hoff Hne ltac:(lia)) in Hload.
  apply bind_Ret in Hload as ([[ok1 g1] in1] & Ha & Hload). cbn beta iota in Hload.
  destruct ok1; cbn [negb] in Hload; [|apply Ret_inj in Hload; congruence].
  apply (loadAreaData_layout _ off _ _ _ Hpos) in Ha.
  cbn zeta in Ha. cbn [Stdio.contents] in Ha.
  destruct Ha as (flags & gridArea & Hflags & Harea & Hga & Hmap).
  apply bind_Ret in Hload as ([[ok2 g2] in2] & Hh & Hload). cbn beta iota in Hload.
  apply holes_section_frame in Hh as (_ & Hga2 & Hmap2 & _).
  destruct ok2; cbn [negb] in Hload; [|apply Ret_inj in Hload; congruence].
  apply bind_Ret in Hload as ([[ok3 g3] in3] & Hg & Hload). cbn beta iota in Hload.
  apply height_section_frame in Hg as (_ & Hga3 & Hmap3 & _).
  destruct ok3; cbn [negb] in Hload; [|apply Ret_inj in Hload; congruence].
  apply bind_Ret in Hload as ([[ok4 g4] in4] & Hl & Hload). cbn beta iota in Hload.
  pose proof (liquid_section_area _ _ _ _ _ _ _ Hl) as Hga4.
  apply liquid_section_frame in Hl as (_ & Hmap4 & _).
  destruct ok4; cbn [negb] in Hload; apply Ret_inj in Hload; [|congruence].
  apply pair_equal_spec in Hload as [_ <-].
  exists flags, gridArea. split_and!; [exact Hflags | exact Harea |].
  unfold getArea. rewrite Hmap4, Hmap3, Hmap2, Hmap.
  destruct (Z.land flags MAP_AREA_NO_AREA =? 0).
  - rewrite Hx. msimpl. rewrite Hy. msimpl.
    pose proof (land_15 xi). pose proof (land_15 yi).
    apply read_u16_take; lia.
  - change (m_area_map (unloadData g0)) with (@None Mem.buffer).
    rewrite Hga4, Hga3, Hga2, Hga. reflexivity.
Qed.

(** The position after a read that may have been cut short by the end
    of the file. *)
Lemma drop_after_read (l : Mem.buffer) (o n : nat) :
  drop (o + length (take n (drop o l))) l = drop (o + n) l.
Proof.
  rewrite length_take, length_drop.
  destruct (Nat.le_gt_cases n (length l - o)) as [Hle|Hgt].
  - now rewrite Nat.min_l by exact Hle.
  - rewrite Nat.min_r by lia.
    rewrite !drop_ge by lia. reflexivity.
Qed.

Lemma read_position (l : Mem.buffer) (p : Z) (n : nat) :
  0 <= p ->
  drop (Z.to_nat (p + Z.of_nat (length (take n (drop (Z.to_nat p) l))))) l
  = drop n (drop (Z.to_nat p) l).
Proof.
  intros Hp. rewrite Z2Nat.inj_add, Nat2Z.id by lia.
  rewrite drop_after_read. now rewrite drop_drop.
Qed.

Lemma field_f32_read (buf : Mem.buffer) (n : nat) (i : Z) (v : float) :
  0 <= i -> (Z.to_nat (4 * i) + 4 <= n)%nat ->
  Mem.field_f32 (take n buf) (4 * i) = Ret v -> Mem.read_f32 buf i = Ret v.
Proof.
  intros Hi Hn. unfold Mem.field_f32. intros Hrun.
  apply bind_Ret in Hrun as (w & Hw & Hrun). apply Ret_inj in Hrun as <-.
  apply (field_read_u32 buf n i w Hi Hn) in Hw.
  unfold Mem.read_u32 in Hw. unfold Mem.read_f32.
  destruct (Mem.bytes_at buf (4 * i) 4); [|discriminate].
  apply Ret_inj in Hw as <-. reflexivity.
Qed.

(** The samples a height block with samples leaves in the store, for
    samples of [w] bytes. *)
Lemma height_samples (l : Mem.buffer) (p : Z) (w n9 n8 : nat) :
  0 <= p ->
  let '(v9, _, in1) :=
    Stdio.fread {| Stdio.contents := l; Stdio.position := p |} w n9 in
  let '(v8, _, _) := Stdio.fread in1 w n8 in
  v9 = take (w * n9) (drop (Z.to_nat p) l)
  /\ v8 = take (w * n8) (drop (w * n9) (drop (Z.to_nat p) l)).
Proof.
  intros Hp. unfold Stdio.fread. cbn [Stdio.contents Stdio.position].
  split; [reflexivity |]. now rewrite read_position.
Qed.

Lemma loadHeightData_layout in_ (off : Z) g g' in' :
  0 <= off ->
  loadHeightData in_ off g = Ret (true, g', in') ->
  let block := drop (Z.to_nat off) (Stdio.contents in_) in
  exists flags h,
    Mem.read_u32 block 1 = Ret flags
    /\ Mem.read_f32 block 2 = Ret h
    /\ m_gridHeight g' = h
    /\ if Z.land flags MAP_HEIGHT_NO_HEIGHT =? 0 then
         let w := sample_width flags in
         m_V9 g' = Some (take (w * (129 * 129)) (drop 16 block))
         /\ m_V8 g' = Some (take (w * (128 * 128)) (drop (w * (129 * 129)) (drop 16 block)))
         /\ m_gridGetHeight g' = sample_strategy flags
         /\ (w <> 4%nat ->
             exists hmax,
               Mem.read_f32 block 3 = Ret hmax
               /\ m_gridIntHeightMultiplier g' =
                    ((hmax - h) / F32.of_int (if Nat.eqb w 2 then 65535 else 255))%f32)
       else
         m_gridGetHeight g' = getHeightFromFlat_ptr
         /\ m_V9 g' = m_V9 g /\ m_V8 g' = m_V8 g.
Proof.
  intros Hoff Hrun block.
  unfold loadHeightData in Hrun.
  set (in0 := Stdio.fseek in_ off) in Hrun.
  unfold Stdio.fread at 1 in Hrun. cbn beta iota zeta in Hrun.
  change (Stdio.contents in0) with (Stdio.contents in_) in Hrun.
  change (Stdio.position in0) with off in Hrun.
  fold block in Hrun.
  change (sizeof_GridMapHeightHeader * 1)%nat with 16%nat in Hrun.
  apply bind_Ret in Hrun as (fourcc & _ & Hrun).
  destruct (negb (fourcc =? magic32 MAP_HEIGHT_MAGIC));
    [apply Ret_inj in Hrun; congruence |].
  apply bind_Ret in Hrun as (h & Hh & Hrun).
  apply bind_Ret in Hrun as (flags & Hflags & Hrun).
  exists flags, h.
  pose proof (field_read_u32 block 16 1 flags ltac:(lia) ltac:(cbn; lia) Hflags) as Hf.
  pose proof (field_f32_read block 16 2 h ltac:(lia) ltac:(cbn; lia) Hh) as Hh'.
  split; [exact Hf |]. split; [exact Hh' |].
  assert (Hpos : drop (Z.to_nat (off + Z.of_nat (length (take 16 block))))
                   (Stdio.contents in_) = drop 16 block).
  { apply read_position, Hoff. }
  unfold sample_width, sample_strategy.
  destruct (Z.land flags MAP_HEIGHT_NO_HEIGHT =? 0); [|now ret_inj Hrun].
  set (p := off + Z.of_nat (length (take 16 block))) in *.
  assert (Hp : 0 <= p) by (unfold p; lia).
  destruct (negb (Z.land flags MAP_HEIGHT_AS_INT16 =? 0));
    [|destruct (negb (Z.land flags MAP_HEIGHT_AS_INT8 =? 0))].
  - pose proof (height_samples (Stdio.contents in_) p 2 (129 * 129) (128 * 128) Hp)
      as Hs.
    change {| Stdio.contents := Stdio.contents in_; Stdio.position := p |}
      with {| Stdio.contents := Stdio.contents in_;
              Stdio.position := off + Z.of_nat (length (take 16 block)) |} in Hs.
    destruct (Stdio.fread _ 2 (129 * 129)) as [[v9 n9] in1].
    destruct (Stdio.fread in1 2 (128 * 128)) as [[v8 n8] in2].
    destruct Hs as [-> ->]. rewrite Hpos in Hrun.
    apply bind_Ret in Hrun as (hmax & Hmax & Hrun). ret_inj Hrun.
    split_and!; try reflexivity.
    intros _. exists hmax. split; [|reflexivity].
    apply (field_f32_read block 16 3 hmax); [lia | cbn; lia | exact Hmax].
  - pose proof (height_samples (Stdio.contents in_) p 1 (129 * 129) (128 * 128) Hp)
      as Hs.
    change {| Stdio.contents := Stdio.contents in_; Stdio.position := p |}
      with {| Stdio.contents := Stdio.contents in_;
              Stdio.position := off + Z.of_nat (length (take 16 block)) |} in Hs.
    destruct (Stdio.fread _ 1 (129 * 129)) as [[v9 n9] in1].
    destruct (Stdio.fread in1 1 (128 * 128)) as [[v8 n8] in2].
    destruct Hs as [-> ->]. rewrite Hpos in Hrun.
    apply bind_Ret in Hrun as (hmax & Hmax & Hrun). ret_inj Hrun.
    split_and!; try reflexivity.
    intros _. exists hmax. split; [|reflexivity].
    apply (field_f32_read block 16 3 hmax); [lia | cbn; lia | exact Hmax].
  - pose proof (height_samples (Stdio.contents in_) p 4 (129 * 129) (128 * 128) Hp)
      as Hs.
    change {| Stdio.contents := Stdio.contents in_; Stdio.position := p |}
      with {| Stdio.contents := Stdio.contents in_;
              Stdio.position := off + Z.of_nat (length (take 16 block)) |} in Hs.
    destruct (Stdio.fread _ 4 (129 * 129)) as [[v9 n9] in1].
    destruct (Stdio.fread in1 4 (128 * 128)) as [[v8 n8] in2].
    destruct Hs as [-> ->]. rewrite Hpos in Hrun.
    ret_inj Hrun.
    split_and!; try reflexivity.
    intros Hw. now contradiction Hw.
Qed.

Lemma liquid_section_height hdr fo in_ g ok g' in' :
  load_section loadGridMapLiquidData hdr fo in_ g = Ret (ok, g', in') ->
  m_gridHeight g' = m_gridHeight g
  /\ m_gridIntHeightMultiplier g' = m_gridIntHeightMultiplier g.
Proof.
  intros [[= -> -> ->]|[off Hrun]]%load_section_inv; [split; reflexivity |].
  loader_paths; split; reflexivity.
Qed.

(** X20. The height block, from the file to the store. Let a tile file
    with the right root tags name a height block at offset [off], and let
    [loadData] succeed on it, from any store. The block holds its flags
    as uint32 number 1 and the base height of the tile as float number 2.
    When the flags say there are no samples the store is flat: it has no
    sample tables and [getHeight] answers the base height everywhere.
    Otherwise the flags select the sample width (2 bytes for int16, else 1
    for int8, else 4 for float) and the matching strategy; the corner
    table is the 129 * 129 samples of the file behind the 16 bytes of the
    block header and the centre table the 128 * 128 samples behind those
    (both shorter when the file ends early), and for integer samples the
    multiplier is (max - base) / 65535 or / 255, with max the float
    number 3 of the block. *)
Theorem height_block_layout (fs : Stdio.filesystem) (filename : string)
    (bs : Mem.buffer) (off : Z) (g0 g : GridMap) :
  fs filename = Some bs ->
  root_field bs 0 = Some (magic32 MAP_MAGIC) ->
  root_field bs 1 = Some (magic32 MAP_VERSION_MAGIC) ->
  root_field bs 4 = Some off -> off <> 0 ->
  loadData fs filename g0 = Ret (true, g) ->
  let block := drop (Z.to_nat off) bs in
  exists flags h,
    Mem.read_u32 block 1 = Ret flags
    /\ Mem.read_f32 block 2 = Ret h
    /\ m_gridHeight g = h
    /\ if Z.land flags MAP_HEIGHT_NO_HEIGHT =? 0 then
         let w := sample_width flags in
         m_V9 g = Some (take (w * (129 * 129)) (drop 16 block))
         /\ m_V8 g = Some (take (w * (128 * 128)) (drop (w * (129 * 129)) (drop 16 block)))
         /\ m_gridGetHeight g = sample_strategy flags
         /\ (w <> 4%nat ->
             exists hmax,
               Mem.read_f32 block 3 = Ret hmax
               /\ m_gridIntHeightMultiplier g =
                    ((hmax - h) / F32.of_int (if Nat.eqb w 2 then 65535 else 255))%f32)
       else
         m_V9 g = None /\ m_V8 g = None
         /\ forall x y, getHeight g x y = Ret h.
Proof.
  intros Hfs Hm Hv Hoff Hne Hload block.
  pose proof (root_field_nonneg _ _ _ Hoff) as Hpos.
  rewrite (loadData_sections fs filename g0 bs Hfs Hm Hv) in Hload.
  rewrite fread_root_header in Hload. cbn beta iota in Hload.
  apply bind_Ret in Hload as ([[ok1 g1] in1] & Ha & Hload). cbn beta iota in Hload.
  apply area_section_frame in Ha as (Hc1 & Ha9 & Ha8 & _).
  destruct ok1; cbn [negb] in Hload; [|apply Ret_inj in Hload; congruence].
  apply bind_Ret in Hload as ([[ok2 g2] in2] & Hh & Hload). cbn beta iota in Hload.
  apply holes_section_frame in Hh as (Hc2 & _ & _ & Hh9 & Hh8 & _).
  destruct ok2; cbn [negb] in Hload; [|apply Ret_inj in Hload; congruence].
  change 16 with (4 * 4) in Hload at 1.
  rewrite (load_section_present loadHeightData bs 4 off _ _ Hoff Hne ltac:(lia)) in Hload.
  apply bind_Ret in Hload as ([[ok3 g3] in3] & Hg & Hload). cbn beta iota in Hload.
  destruct ok3; cbn [negb] in Hload; [|apply Ret_inj in Hload; congruence].
  apply (loadHeightData_layout _ off _ _ _ Hpos) in Hg. cbn zeta in Hg.
  rewrite Hc2, Hc1 in Hg. cbn [Stdio.contents] in Hg. fold block in Hg.
  destruct Hg as (flags & h & Hflags & Hbase & Hgh & Hrest).
  apply bind_Ret in Hload as ([[ok4 g4] in4] & Hl & Hload). cbn beta iota in Hload.
  pose proof (liquid_section_height _ _ _ _ _ _ _ Hl) as (Hlh & Hlm).
  apply liquid_section_frame in Hl as (_ & _ & Hl9 & Hl8 & Hls & _).
  destruct ok4; cbn [negb] in Hload; apply Ret_inj in Hload; [|congruence].
  apply pair_equal_spec in Hload as [_ <-].
  exists flags, h. split; [exact Hflags |]. split; [exact Hbase |].
  split; [congruence |].
  destruct (Z.land flags MAP_HEIGHT_NO_HEIGHT =? 0).
  - cbn zeta in Hrest. destruct Hrest as (H9 & H8 & Hs & Hmul). cbn zeta.
    rewrite Hl9, Hl8, Hls, Hlm. auto.
  - destruct Hrest as (Hs & H9 & H8).
    rewrite Hl9, Hl8, H9, H8, Hh9, Hh8, Ha9, Ha8.
    split; [reflexivity |]. split; [reflexivity |].
    intros x y. unfold getHeight. rewrite Hls, Hs.
    unfold getHeightFromFlat. congruence.
Qed.

Lemma field_read_u8 (buf : Mem.buffer) (n : nat) (i v : Z) :
  0 <= i -> (Z.to_nat i + 1 <= n)%nat ->
  Mem.field (take n buf) i 1 = Ret v -> Mem.read_u8 buf i = Ret v.
Proof.
  intros Hi Hn. unfold Mem.field, Mem.read_u8, Mem.bytes_at.
  destruct (Z.ltb_spec i 0); [lia |].
  rewrite <- (field_take buf n i 1) by lia.
  destruct (length _ =? 1)%nat; [|discriminate].
  now intros [= <-].
Qed.

Lemma loadGridMapLiquidData_layout in_ (off : Z) g g' in' :
  0 <= off ->
  loadGridMapLiquidData in_ off g = Ret (true, g', in') ->
  let block := drop (Z.to_nat off) (Stdio.contents in_) in
  exists flags,
    Mem.read_u8 block 4 = Ret flags
    /\ Mem.read_u8 block 5 = Ret (m_liquidGlobalFlags g')
    /\ Mem.read_u16 block 3 = Ret (m_liquidGlobalEntry g')
    /\ Mem.read_u8 block 8 = Ret (m_liquid_offX g')
    /\ Mem.read_u8 block 9 = Ret (m_liquid_offY g')
    /\ Mem.read_u8 block 10 = Ret (m_liquid_width g')
    /\ Mem.read_u8 block 11 = Ret (m_liquid_height g')
    /\ Mem.read_f32 block 3 = Ret (m_liquidLevel g')
    /\ let types := Z.land flags MAP_LIQUID_NO_TYPE =? 0 in
       m_liquidEntry g' =
         (if types then Some (take (2 * (16 * 16)) (drop 16 block)) else m_liquidEntry g)
       /\ m_liquidFlags g' =
         (if types
          then Some (take (1 * (16 * 16)) (drop (2 * (16 * 16)) (drop 16 block)))
          else m_liquidFlags g)
       /\ m_liquid_map g' =
         (if Z.land flags MAP_LIQUID_NO_HEIGHT =? 0
          then Some (take (4 * Z.to_nat (m_liquid_width g' * m_liquid_height g'))
                       (if types
                        then drop (1 * (16 * 16)) (drop (2 * (16 * 16)) (drop 16 block))
                        else drop 16 block))
          else m_liquid_map g).
Proof.
  intros Hoff Hrun block.
  unfold loadGridMapLiquidData in Hrun.
  set (in0 := Stdio.fseek in_ off) in Hrun.
  unfold Stdio.fread at 1 in Hrun. cbn beta iota zeta in Hrun.
  change (Stdio.contents in0) with (Stdio.contents in_) in Hrun.
  change (Stdio.position in0) with off in Hrun.
  fold block in Hrun.
  change (sizeof_GridMapLiquidHeader * 1)%nat with 16%nat in Hrun.
  apply bind_Ret in Hrun as (fourcc & _ & Hrun).
  destruct (negb (fourcc =? magic32 MAP_LIQUID_MAGIC));
    [apply Ret_inj in Hrun; congruence |].
  apply bind_Ret in Hrun as (liquidType & Htype & Hrun).
  apply bind_Ret in Hrun as (liquidFlags & Hlf & Hrun).
  apply bind_Ret in Hrun as (offsetX & Hox & Hrun).
  apply bind_Ret in Hrun as (offsetY & Hoy & Hrun).
  apply bind_Ret in Hrun as (width & Hwd & Hrun).
  apply bind_Ret in Hrun as (height & Hht & Hrun).
  apply bind_Ret in Hrun as (liquidLevel & Hlev & Hrun).
  apply bind_Ret in Hrun as (flags & Hflags & Hrun).
  apply (field_read_u16 block 16 3) in Htype; [| lia | cbn; lia].
  apply (field_read_u8 block 16 5) in Hlf; [| lia | cbn; lia].
  apply (field_read_u8 block 16 8) in Hox; [| lia | cbn; lia].
  apply (field_read_u8 block 16 9) in Hoy; [| lia | cbn; lia].
  apply (field_read_u8 block 16 10) in Hwd; [| lia | cbn; lia].
  apply (field_read_u8 block 16 11) in Hht; [| lia | cbn; lia].
  apply (field_f32_read block 16 3) in Hlev; [| lia | cbn; lia].
  apply (field_read_u8 block 16 4) in Hflags; [| lia | cbn; lia].
  assert (Hpos : drop (Z.to_nat (off + Z.of_nat (length (take 16 block))))
                   (Stdio.contents in_) = drop 16 block).
  { apply read_position, Hoff. }
  set (p := off + Z.of_nat (length (take 16 block))) in *.
  assert (Hp : 0 <= p) by (unfold p; lia).
  exists flags.
  destruct (Z.land flags MAP_LIQUID_NO_TYPE =? 0).
  - unfold Stdio.fread in Hrun. cbn beta iota zeta in Hrun.
    cbn [Stdio.contents Stdio.position] in Hrun. cbn [mbind outcome_bind mret outcome_ret] in Hrun.
    cbn [Stdio.contents Stdio.position] in Hrun.
    assert (Hq : 0 <= p + Z.of_nat (length (take (2 * (16 * 16))
                                             (drop (Z.to_nat p) (Stdio.contents in_)))))
      by lia.
    try rewrite (read_position (Stdio.contents in_) _ (1 * (16 * 16)) Hq) in Hrun.
    rewrite (read_position (Stdio.contents in_) p (2 * (16 * 16)) Hp) in Hrun.
    rewrite Hpos in Hrun.
    destruct (Z.land flags MAP_LIQUID_NO_HEIGHT =? 0);
      ret_inj Hrun; cbn zeta; split_and!; try assumption; reflexivity.
  - cbn [mbind outcome_bind mret outcome_ret] in Hrun.
    destruct (Z.land flags MAP_LIQUID_NO_HEIGHT =? 0).
    + unfold Stdio.fread in Hrun. cbn beta iota zeta in Hrun.
      cbn [Stdio.contents Stdio.position] in Hrun.
      rewrite Hpos in Hrun.
      ret_inj Hrun. cbn zeta. split_and!; try assumption; reflexivity.
    + ret_inj Hrun. cbn zeta. split_and!; try assumption; reflexivity.
Qed.

(** X21. The liquid block, from the file to the store. Let a tile file
    with the right root tags name a liquid block at offset [off], and let
    [loadData] succeed on it, from any store. The 16 bytes of the block
    header give the store its global liquid entry and flags, the window
    (offsets, width, height) and the liquid level. When the flags do not
    say there is no type grid, the store holds the 16 * 16 uint16 of the
    entry grid and behind them the 16 * 16 bytes of the flag grid; when
    they do not say there is no height grid it holds the width * height
    floats that follow (directly behind the header when there is no type
    grid). A table the flags rule out is null. *)
Theorem liquid_block_layout (fs : Stdio.filesystem) (filename : string)
    (bs : Mem.buffer) (off : Z) (g0 g : GridMap) :
  fs filename = Some bs ->
  root_field bs 0 = Some (magic32 MAP_MAGIC) ->
  root_field bs 1 = Some (magic32 MAP_VERSION_MAGIC) ->
  root_field bs 6 = Some off -> off <> 0 ->
  loadData fs filename g0 = Ret (true, g) ->
  let block := drop (Z.to_nat off) bs in
  exists flags,
    Mem.read_u8 block 4 = Ret flags
    /\ Mem.read_u8 block 5 = Ret (m_liquidGlobalFlags g)
    /\ Mem.read_u16 block 3 = Ret (m_liquidGlobalEntry g)
    /\ Mem.read_u8 block 8 = Ret (m_liquid_offX g)
    /\ Mem.read_u8 block 9 = Ret (m_liquid_offY g)
    /\ Mem.read_u8 block 10 = Ret (m_liquid_width g)
    /\ Mem.read_u8 block 11 = Ret (m_liquid_height g)
    /\ Mem.read_f32 block 3 = Ret (m_liquidLevel g)
    /\ let types := Z.land flags MAP_LIQUID_NO_TYPE =? 0 in
       m_liquidEntry g =
         (if types then Some (take (2 * (16 * 16)) (drop 16 block)) else None)
       /\ m_liquidFlags g =
         (if types
          then Some (take (1 * (16 * 16)) (drop (2 * (16 * 16)) (drop 16 block)))
          else None)
       /\ m_liquid_map g =
         (if Z.land flags MAP_LIQUID_NO_HEIGHT =? 0
          then Some (take (4 * Z.to_nat (m_liquid_width g * m_liquid_height g))
                       (if types
                        then drop (1 * (16 * 16)) (drop (2 * (16 * 16)) (drop 16 block))
                        else drop 16 block))
          else None).
Proof.
  intros Hfs Hm Hv Hoff Hne Hload block.
  pose proof (root_field_nonneg _ _ _ Hoff) as Hpos.
  rewrite (loadData_sections fs filename g0 bs Hfs Hm Hv) in Hload.
  rewrite fread_root_header in Hload. cbn beta iota in Hload.
  apply bind_Ret in Hload as ([[ok1 g1] in1] & Ha & Hload). cbn beta iota in Hload.
  apply area_section_frame in Ha as (Hc1 & _ & _ & Hae & Haf & Ham & _).
  destruct ok1; cbn [negb] in Hload; [|apply Ret_inj in Hload; congruence].
  apply bind_Ret in Hload as ([[ok2 g2] in2] & Hh & Hload). cbn beta iota in Hload.
  apply holes_section_frame in Hh as (Hc2 & _ & _ & _ & _ & Hhe & Hhf & Hhm & _).
  destruct ok2; cbn [negb] in Hload; [|apply Ret_inj in Hload; congruence].
  apply bind_Ret in Hload as ([[ok3 g3] in3] & Hg & Hload). cbn beta iota in Hload.
  apply height_section_frame in Hg as (Hc3 & _ & _ & Hge & Hgf & Hgm & _).
  destruct ok3; cbn [negb] in Hload; [|apply Ret_inj in Hload; congruence].
  change 24 with (4 * 6) in Hload at 1.
  rewrite (load_section_present loadGridMapLiquidData bs 6 off _ _ Hoff Hne ltac:(lia))
    in Hload.
  apply bind_Ret in Hload as ([[ok4 g4] in4] & Hl & Hload). cbn beta iota in Hload.
  destruct ok4; cbn [negb] in Hload; apply Ret_inj in Hload; [|congruence].
  apply pair_equal_spec in Hload as [_ <-].
  apply (loadGridMapLiquidData_layout _ off _ _ _ Hpos) in Hl. cbn zeta in Hl.
  rewrite Hc3, Hc2, Hc1 in Hl. cbn [Stdio.contents] in Hl. fold block in Hl.
  rewrite Hge, Hgf, Hgm, Hhe, Hhf, Hhm, Hae, Haf, Ham in Hl.
  exact Hl.
Qed.

Lemma read_u16_app (l tail : Mem.buffer) (i : Z) :
  0 <= i -> (Z.to_nat (2 * i) + 2 <= length l)%nat ->
  Mem.read_u16 (l ++ tail) i = Mem.read_u16 l i.
Proof.
  intros Hi Hl. unfold Mem.read_u16, Mem.bytes_at.
  destruct (Z.ltb_spec (2 * i) 0); [lia |].
  rewrite drop_app_le by lia.
  rewrite take_app_le by (rewrite length_drop; lia).
  reflexivity.
Qed.

Lemma loadHolesData_layout in_ (off : Z) g g' in' :
  0 <= off ->
  loadHolesData in_ off g = Ret (true, g', in') ->
  let table := take 512 (drop (Z.to_nat off) (Stdio.contents in_)) in
  length table = 512%nat
  /\ m_holes g' = table ++ drop 512 (m_holes g).
Proof.
  intros Hoff Hrun table.
  unfold loadHolesData, Stdio.fread, Stdio.fseek in Hrun.
  cbn beta iota zeta in Hrun. cbn [Stdio.contents Stdio.position] in Hrun.
  change (sizeof_holes * 1)%nat with 512%nat in Hrun.
  change (Z.of_nat sizeof_holes) with 512 in Hrun.
  fold table in Hrun.
  assert (Hlen : length table = 512%nat).
  { destruct (Z.eqb_spec (Z.of_nat (length table) / 512) 1) as [Hn|Hn];
      cbn [negb] in Hrun; [|apply Ret_inj in Hrun; congruence].
    assert (length table <= 512)%nat by (unfold table; rewrite length_take; lia).
    assert (512 <= Z.of_nat (length table)) by (Z.div_mod_to_equations; lia).
    lia. }
  split; [exact Hlen |].
  destruct (negb _); ret_inj Hrun; cbn [m_holes set_m_holes]; now rewrite Hlen.
Qed.

(** X22. The holes block, from the file to [isHole]. Let a tile file with
    the right root tags name a holes block at offset [off], and let
    [loadData] succeed on it, from any store. Then the file holds all 512
    bytes of the block, and for every cell of the tile [isHole] answers
    bit [hole_bit row col] of the uint16 number [row / 8 * 16 + col / 8]
    of the block. *)
Theorem holes_block_round_trip (fs : Stdio.filesystem) (filename : string)
    (bs : Mem.buffer) (off : Z) (g0 g : GridMap) (row col : Z) :
  fs filename = Some bs ->
  root_field bs 0 = Some (magic32 MAP_MAGIC) ->
  root_field bs 1 = Some (magic32 MAP_VERSION_MAGIC) ->
  root_field bs 8 = Some off -> off <> 0 ->
  loadData fs filename g0 = Ret (true, g) ->
  0 <= row < 128 -> 0 <= col < 128 ->
  exists hole,
    Mem.read_u16 (drop (Z.to_nat off) bs) (row / 8 * 16 + col / 8) = Ret hole
    /\ isHole g row col = Ret (Z.testbit hole (hole_bit row col)).
Proof.
  intros Hfs Hm Hv Hoff Hne Hload Hrow Hcol.
  pose proof (root_field_nonneg _ _ _ Hoff) as Hpos.
  rewrite (loadData_sections fs filename g0 bs Hfs Hm Hv) in Hload.
  rewrite fread_root_header in Hload. cbn beta iota in Hload.
  apply bind_Ret in Hload as ([[ok1 g1] in1] & Ha & Hload). cbn beta iota in Hload.
  apply area_section_frame in Ha as (Hc1 & _).
  destruct ok1; cbn [negb] in Hload; [|apply Ret_inj in Hload; congruence].
  change 32 with (4 * 8) in Hload at 1.
  rewrite (load_section_present loadHolesData bs 8 off _ _ Hoff Hne ltac:(lia)) in Hload.
  apply bind_Ret in Hload as ([[ok2 g2] in2] & Hh & Hload). cbn beta iota in Hload.
  destruct ok2; cbn [negb] in Hload; [|apply Ret_inj in Hload; congruence].
  apply (loadHolesData_layout _ off _ _ _ Hpos) in Hh. cbn zeta in Hh.
  rewrite Hc1 in Hh. cbn [Stdio.contents] in Hh. destruct Hh as [Hlen Hholes].
  apply bind_Ret in Hload as ([[ok3 g3] in3] & Hg & Hload). cbn beta iota in Hload.
  apply height_section_holes in Hg.
  destruct ok3; cbn [negb] in Hload; [|apply Ret_inj in Hload; congruence].
  apply bind_Ret in Hload as ([[ok4 g4] in4] & Hl & Hload). cbn beta iota in Hload.
  apply liquid_section_holes in Hl.
  destruct ok4; cbn [negb] in Hload; apply Ret_inj in Hload; [|congruence].
  apply pair_equal_spec in Hload as [_ <-].
  assert (0 <= row / 8 < 16) by (Z.div_mod_to_equations; lia).
  assert (0 <= col / 8 < 16) by (Z.div_mod_to_equations; lia).
  set (i := row / 8 * 16 + col / 8).
  assert (Hi : 0 <= i < 256) by (unfold i; lia).
  assert (Hread : Mem.read_u16 (m_holes g4) i
                  = Mem.read_u16 (drop (Z.to_nat off) bs) i).
  { rewrite Hl, Hg, Hholes.
    rewrite read_u16_app by (rewrite ?Hlen; lia).
    apply read_u16_take; lia. }
  destruct (read_u16_total (drop (Z.to_nat off) bs) i) as [hole Hhole]; [lia | |].
  { rewrite length_take in Hlen. lia. }
  exists hole. split; [exact Hhole |].
  apply isHole_mask_bit; [assumption | assumption |].
  fold i. now rewrite Hread.
Qed.

End FileLayout.

(** X19, witness: the world origin on the tile of the area grid file. *)
Lemma area_block_round_trip_witness :
  getArea (H := upstream_defines) (Examples.tile_of area_grid_file)
    (F32.of_int 0) (F32.of_int 0) = Ret 257.
Proof.
  destruct (area_block_round_trip (H := upstream_defines)
              (Examples.directory area_grid_file) "maps/0000000.map"
              area_grid_file 40 (GridMap_new (H := upstream_defines))
              (Examples.tile_of area_grid_file) (F32.of_int 0) (F32.of_int 0) 512 512
              eq_refl eq_refl eq_refl eq_refl ltac:(discriminate)
              ltac:(vm_compute; reflexivity) ltac:(vm_compute; reflexivity)
              ltac:(vm_compute; reflexivity))
    as (flags & gridArea & Hf & _ & Hget).
  vm_compute in Hf. apply Ret_inj in Hf as <-.
  rewrite Hget. vm_compute. reflexivity.
Defined.

(** X20, witness: the tile file with 8-bit samples. *)
Lemma height_block_layout_witness :
  m_gridGetHeight (Examples.tile_of holed_uint8_file) = getHeightFromUint8_ptr.
Proof.
  destruct (height_block_layout (H := upstream_defines)
              (Examples.directory holed_uint8_file) "maps/0000000.map"
              holed_uint8_file 552 (GridMap_new (H := upstream_defines))
              (Examples.tile_of holed_uint8_file)
              eq_refl eq_refl eq_refl eq_refl ltac:(discriminate)
              ltac:(vm_compute; reflexivity))
    as (flags & h & Hf & _ & _ & Hrest).
  vm_compute in Hf. apply Ret_inj in Hf as <-.
  destruct (Z.land 4 MAP_HEIGHT_NO_HEIGHT =? 0) eqn:E; [|vm_compute in E; discriminate E].
  destruct Hrest as (_ & _ & Hs & _).
  rewrite Hs. vm_compute. reflexivity.
Defined.

(** X21, witness: the pond file, whose liquid block has neither grid. *)
Lemma liquid_block_layout_witness :
  Mem.read_f32 (drop 40 Examples.pond_file) 3 = Ret (m_liquidLevel Examples.pond)
  /\ Mem.read_u8 (drop 40 Examples.pond_file) 10 = Ret (m_liquid_width Examples.pond).
Proof.
  destruct (liquid_block_layout (H := upstream_defines)
              (Examples.directory Examples.pond_file) "maps/0000000.map"
              Examples.pond_file 40 (GridMap_new (H := upstream_defines))
              Examples.pond
              eq_refl eq_refl eq_refl eq_refl ltac:(discriminate)
              ltac:(vm_compute; reflexivity))
    as (flags & _ & _ & _ & _ & _ & Hw & _ & Hlev & _).
  split; [exact Hlev | exact Hw].
Defined.

(** X22, witness: the flat tile file whose holes block is all ones. *)
Lemma holes_block_round_trip_witness :
  isHole Examples.holed_flat 77 5 = Ret true.
Proof.
  destruct (holes_block_round_trip (H := upstream_defines)
              (Examples.directory Examples.holed_flat_file) "maps/0000000.map"
              Examples.holed_flat_file 40 (GridMap_new (H := upstream_defines))
              Examples.holed_flat 77 5
              eq_refl eq_refl eq_refl eq_refl ltac:(discriminate)
              ltac:(vm_compute; reflexivity) ltac:(lia) ltac:(lia))
    as (hole & Hhole & Hres).
  vm_compute in Hhole. apply Ret_inj in Hhole as <-.
  rewrite Hres. vm_compute. reflexivity.
Defined.

(** ** Stores stay what they are *)

Section Stability.
Context {V M T : Type} `{IVMapManager V} `{MMapManager M} `{IntervalTimer T}.
Context `{GridDefines}.
Variable dataPath : string.
Variable fs : Stdio.filesystem.
Implicit Types s : TerrainInfo V M T.

Lemma LoadMapAndVMap_stable s x y mapOnly r s' k g :
  LoadMapAndVMap dataPath fs s x y mapOnly = Ret (r, s') ->
  m_GridMaps s !! k = Some g ->
  exists g', m_GridMaps s' !! k = Some g' /\ same_data g g'.
Proof.
  unfold LoadMapAndVMap. intros Hrun Hk.
  apply bind_Ret in Hrun as (k0 & [-> Hg]%at_grid_Ret & Hrun).
  destruct (_ || _).
  { ret_inj Hrun. exists g. split; [exact Hk | now left]. }
  apply bind_Ret in Hrun as (s1 & Hmap & Hrun).
  apply LoadMapAndVMap_map_spec in Hmap
    as (_ & _ & _ & Hother & g1 & Hg1 & _ & Hsame).
  assert (Hk1 : m_GridMaps s1 !! k = Some g).
  { destruct (decide (k = (x, y))) as [->|Hne].
    - rewrite Hg1. f_equal. now apply Hsame.
    - now rewrite Hother. }
  destruct mapOnly.
  { ret_inj Hrun. exists g. split; [exact Hk1 | now left]. }
  ret_inj Hrun.
  destruct (LoadMapAndVMap_vmap_spec dataPath s1 x y) as (_ & _ & Hv & _).
  destruct (LoadMapAndVMap_mmap_spec (LoadMapAndVMap_vmap dataPath s1 x y) x y)
    as (_ & _ & Hm & _).
  cbn zeta in Hv, Hm.
  assert (Hg2 : m_GridMaps (LoadMapAndVMap_mmap (LoadMapAndVMap_vmap dataPath s1 x y) x y)
                !! (x, y) = Some g1) by now rewrite Hm, Hv.
  destruct (LoadMapAndVMap_mark_spec _ x y g1 Hg2) as (_ & _ & Hmark).
  rewrite Hmark, Hm, Hv.
  destruct (decide (k = (x, y))) as [->|Hne].
  - rewrite lookup_insert_eq. exists (SetFullyLoaded g1). split; [reflexivity |].
    right. f_equal. rewrite Hg1 in Hk1. congruence.
  - rewrite lookup_insert_ne by congruence. exists g. split; [exact Hk1 | now left].
Qed.

(** X23. The data of a tile, once its store is in the cache, are never
    loaded again nor changed in place: through [LoadMapAndVMap],
    [GetGrid], [Load], [Unload], [RefGrid] and [UnrefGrid], for any tile
    and with any arguments, the slot keeps its store, with at most the
    [fullyLoaded] flag set. Only [CleanUpGrids] takes a store away, and it
    never replaces one. *)
Theorem stores_stay s (k : Z * Z) (g : GridMap) :
  m_GridMaps s !! k = Some g ->
  (forall x y mapOnly r s',
      LoadMapAndVMap dataPath fs s x y mapOnly = Ret (r, s') ->
      exists g', m_GridMaps s' !! k = Some g' /\ same_data g g')
  /\ (forall fx fy loadOnlyMap r s',
         GetGrid dataPath fs s fx fy loadOnlyMap = Ret (r, s') ->
         exists g', m_GridMaps s' !! k = Some g' /\ same_data g g')
  /\ (forall x y mapOnly r s',
         Load dataPath fs s x y mapOnly = Ret (r, s') ->
         exists g', m_GridMaps s' !! k = Some g' /\ same_data g g')
  /\ (forall x y s', Unload s x y = Ret s' -> m_GridMaps s' !! k = Some g)
  /\ (forall x y r s', RefGrid s x y = Ret (r, s') -> m_GridMaps s' !! k = Some g)
  /\ (forall x y r s', UnrefGrid s x y = Ret (r, s') -> m_GridMaps s' !! k = Some g)
  /\ (forall diff,
         m_GridMaps (CleanUpGrids s diff) !! k = Some g
         \/ m_GridMaps (CleanUpGrids s diff) !! k = None).
Proof.
  intros Hk. split_and!.
  - intros x y mapOnly r s' Hrun. eapply LoadMapAndVMap_stable; eassumption.
  - intros fx fy lo r s' Hrun.
    destruct (GetGrid_index _ _ _ _ _ _ _ _ Hrun) as (gx & gy & Hx & Hy & Hg).
    rewrite (GetGrid_at dataPath fs s fx fy lo gx gy Hx Hy Hg) in Hrun.
    destruct (m_GridMaps s !! (gx, gy));
      [destruct (_ && _) | destruct (LoadAttempted s (gx, gy))];
      try (ret_inj Hrun; exists g; split; [exact Hk | now left]);
      apply bind_Ret in Hrun as ([p s1] & Hload & Hrun); cbn beta iota in Hrun;
      ret_inj Hrun;
      change (m_GridMaps (set_LoadAttempted ?a ?b ?c)) with (m_GridMaps a);
      eapply LoadMapAndVMap_stable; eassumption.
  - intros x y mapOnly r s' Hrun.
    pose proof (Load_in_grid _ _ _ _ _ _ _ _ Hrun) as Hg.
    rewrite (Load_eq dataPath fs s x y mapOnly Hg) in Hrun. cbn zeta in Hrun.
    destruct (m_GridMaps s !! (x, y)).
    + ret_inj Hrun. exists g. split; [exact Hk | now left].
    + apply bind_Ret in Hrun as ([p s1] & Hload & Hrun). cbn beta iota in Hrun.
      ret_inj Hrun.
      change (m_GridMaps (set_LoadAttempted ?a ?b ?c)) with (m_GridMaps a).
      eapply LoadMapAndVMap_stable; [eassumption | exact Hk].
  - intros x y s' Hrun.
    pose proof (Unload_in_grid _ _ _ _ Hrun) as Hg.
    rewrite (Unload_eq s x y Hg) in Hrun.
    destruct (m_GridMaps s !! (x, y)); [|now ret_inj Hrun].
    destruct (0 <? GridRef s (x, y)); cbn zeta in Hrun;
      [destruct (wrap16 _ =? 0)|]; ret_inj Hrun; exact Hk.
  - intros x y r s' Hrun. apply RefGrid_maps in Hrun. now rewrite Hrun.
  - intros x y r s' Hrun. apply UnrefGrid_maps in Hrun. now rewrite Hrun.
  - intros diff.
    destruct (CleanUpGrids_cells s diff) as (_ & _ & Hslot & _).
    rewrite Hslot. destruct (_ && _); auto.
Qed.

End Stability.

(** X23, witness: a load of the tile whose store the cache holds. *)
Lemma stores_stay_witness :
  exists r s',
    Load (H2 := upstream_defines) "" (fun _ => None) one_store_cache 1 2 false
    = Ret (r, s')
    /\ exists g', m_GridMaps s' !! (1, 2) = Some g'
                  /\ same_data (GridMap_new (H := upstream_defines)) g'.
Proof.
  destruct (Load (H2 := upstream_defines) "" (fun _ => None) one_store_cache 1 2 false)
    as [[r s']|f] eqn:Hrun.
  - exists r, s'. split; [reflexivity |].
    destruct (stores_stay (H2 := upstream_defines) "" (fun _ => None)
                one_store_cache (1, 2) (GridMap_new (H := upstream_defines))
                ltac:(vm_compute; reflexivity))
      as (_ & _ & Hload & _).
    exact (Hload 1 2 false r s' Hrun).
  - vm_compute in Hrun. discriminate Hrun.
Defined.

(** ** The static height *)

Section StaticHeightFacts.
Context {V M T : Type} `{IVMapManager V} `{MMapManager M} `{IntervalTimer T}.
Context `{GridDefines} `{HeightDefines} `{VMapHeight V}.
Variable dataPath : string.
Variable fs : Stdio.filesystem.
Implicit Types s : TerrainInfo V M T.

(** Whatever the searches find, it is an answer of the provider. *)
Lemma GetHeightStatic_vmap_answer (vmgr : V) (mapId : Z)
    (x y z mapHeight maxSearchDist : float) :
  exists zq d,
    GetHeightStatic_vmap vmgr mapId x y z mapHeight maxSearchDist
    = VMAP_getHeight vmgr mapId x y zq d.
Proof.
  unfold GetHeightStatic_vmap. cbn zeta.
  repeat match goal with
         | |- context [if ?c then _ else _] => destruct c
         end; eexists _, _; reflexivity.
Qed.

Lemma GetHeightStatic_select_cases (z mapHeight vmapHeight : float) :
  GetHeightStatic_select z mapHeight vmapHeight = mapHeight
  \/ (GetHeightStatic_select z mapHeight vmapHeight = vmapHeight
      /\ (vmapHeight >? INVALID_HEIGHT)%f32 = true).
Proof.
  unfold GetHeightStatic_select.
  destruct (vmapHeight >? INVALID_HEIGHT)%f32; [|now left].
  destruct (mapHeight >? INVALID_HEIGHT)%f32; [|now right].
  destruct (_ || _); [now right | now left].
Qed.

(** X24. What [GetHeightStatic] answers, when the sentinel
    [VMAP_INVALID_HEIGHT_VALUE] is not above [INVALID_HEIGHT]. It leaves
    the cache as [GetGrid] for the point leaves it. Its terrain height is
    that of the tile, or the sentinel when there is no tile. Without
    [useVmaps], or when the provider has height calculation disabled, the
    answer is the terrain height. In every case the answer is either the
    terrain height or a height the collision-mesh provider reported for
    the point that is above [INVALID_HEIGHT]: no other value is ever
    returned. *)
Theorem GetHeightStatic_answers s (x y z : float) (useVmaps : bool)
    (maxSearchDist : float) (h : float) s' :
  (VMAP_INVALID_HEIGHT_VALUE >? INVALID_HEIGHT)%f32 = false ->
  GetHeightStatic dataPath fs s x y z useVmaps maxSearchDist = Ret (h, s') ->
  exists r mapHeight,
    GetGrid dataPath fs s x y false = Ret (r, s')
    /\ match r with
       | Some g => getHeight g x y
       | None => Ret VMAP_INVALID_HEIGHT_VALUE
       end = Ret mapHeight
    /\ (useVmaps = false \/ isHeightCalcEnabled (m_vmgr s') = false -> h = mapHeight)
    /\ (h = mapHeight
        \/ exists zq d,
             h = VMAP_getHeight (m_vmgr s') (m_mapId s') x y zq d
             /\ (h >? INVALID_HEIGHT)%f32 = true).
Proof.
  intros Hconst Hrun. unfold GetHeightStatic in Hrun. cbn zeta in Hrun.
  apply bind_Ret in Hrun as ([r s1] & Hgrid & Hrun). cbn beta iota in Hrun.
  apply bind_Ret in Hrun as (mapHeight & Hmap & Hrun).
  ret_inj Hrun. exists r, mapHeight.
  split; [exact Hgrid |]. split; [exact Hmap |].
  assert (Hnone : GetHeightStatic_select z mapHeight VMAP_INVALID_HEIGHT_VALUE
                  = mapHeight).
  { unfold GetHeightStatic_select. now rewrite Hconst. }
  split.
  - intros [-> | Hoff]; [exact Hnone |].
    rewrite Hoff. now destruct useVmaps.
  - destruct useVmaps; [|left; exact Hnone].
    destruct (isHeightCalcEnabled (m_vmgr s')); [|left; exact Hnone].
    destruct (GetHeightStatic_vmap_answer (m_vmgr s') (m_mapId s') x y z
                mapHeight maxSearchDist) as (zq & d & Hv).
    destruct (GetHeightStatic_select_cases z mapHeight
                (GetHeightStatic_vmap (m_vmgr s') (m_mapId s') x y z
                   mapHeight maxSearchDist)) as [Hm | [Hs Hvalid]].
    + left. exact Hm.
    + right. exists zq, d. rewrite Hs. split; [exact Hv | exact Hvalid].
Qed.

End StaticHeightFacts.

(** X24, witness: the world origin, 100 above a provider's floor at
    height 50, on a fresh cache over an empty data directory. *)
Lemma GetHeightStatic_answers_witness :
  let o := F32.of_int 0 in
  let s := Upstream.fresh_cache Upstream.with_data Upstream.with_data in
  exists s',
    GetHeightStatic (H2 := upstream_defines) (H3 := upstream_height_defines)
      (H4 := floor_at_50) "" (fun _ => None) s o o (F32.of_int 100) true (F32.of_int 10)
    = Ret (F32.of_int 50, s').
Proof.
  intros o s.
  destruct (GetHeightStatic (H2 := upstream_defines) (H3 := upstream_height_defines)
              (H4 := floor_at_50) "" (fun _ => None) s o o (F32.of_int 100) true
              (F32.of_int 10)) as [[h s']|f] eqn:Hrun.
  - destruct (GetHeightStatic_answers (H2 := upstream_defines)
                (H3 := upstream_height_defines) (H4 := floor_at_50)
                "" (fun _ => None) s o o (F32.of_int 100) true (F32.of_int 10) h s'
                ltac:(vm_compute; reflexivity) Hrun)
      as (r & mapHeight & _ & _ & _ & Hans).
    exists s'. f_equal. f_equal.
    pose proof (f_equal (fun m => match m with Ret (a, _) => Some a | Fault _ => None end)
                  Hrun) as Hh.
    vm_compute in Hh. now apply (inj Some) in Hh as <-.
  - vm_compute in Hrun. discriminate Hrun.
Defined.

(** ** Malformed sub-blocks *)

Lemma field_total (buf : Mem.buffer) (off : Z) (w : nat) :
  0 <= off -> (Z.to_nat off + w <= length buf)%nat ->
  exists v, Mem.field buf off w = Ret v.
Proof.
  intros Hoff Hlen. unfold Mem.field.
  destruct (bytes_at_total buf off w Hoff ltac:(lia)) as [bs ->]. eauto.
Qed.

Lemma load_section_absent
    (load : Stdio.FILE -> Z -> GridMap -> outcome (bool * GridMap * Stdio.FILE))
    (bs : Mem.buffer) (i : Z) in_ g :
  root_field bs i = Some 0 -> 0 <= i < 10 ->
  load_section load (take 40 bs) (4 * i) in_ g = Ret (true, g, in_).
Proof.
  intros Hoff Hi. unfold load_section.
  rewrite (root_field_read bs i 0 Hi Hoff). reflexivity.
Qed.

Section Malformed.
Context `{GridDefines}.

(** An area block whose header is whole and carries the right tag is
    accepted. *)
Lemma loadAreaData_good_tag in_ (off : Z) g :
  0 <= off ->
  tag_at (Stdio.contents in_) off = Some (magic32 MAP_AREA_MAGIC) ->
  off + 8 <= Z.of_nat (length (Stdio.contents in_)) ->
  exists g' in', loadAreaData in_ off g = Ret (true, g', in').
Proof.
  intros Hoff Htag Hlen.
  unfold loadAreaData, Stdio.fread, Stdio.fseek.
  cbn beta iota zeta. cbn [Stdio.contents Stdio.position].
  change (sizeof_GridMapAreaHeader * 1)%nat with 8%nat.
  rewrite (tag_at_header _ off 8 _ Htag) by lia. msimpl.
  rewrite Z.eqb_refl. cbn [negb].
  set (hdr := take 8 (drop (Z.to_nat off) (Stdio.contents in_))).
  assert (Hhdr : length hdr = 8%nat).
  { unfold hdr. rewrite length_take, length_drop. lia. }
  destruct (field_total hdr 6 2 ltac:(lia) ltac:(rewrite Hhdr; cbn; lia)) as [a ->].
  msimpl.
  destruct (field_total hdr 4 2 ltac:(lia) ltac:(rewrite Hhdr; cbn; lia)) as [fl ->].
  msimpl.
  destruct (Z.land fl MAP_AREA_NO_AREA =? 0); eauto.
Qed.

(** C2 (as amended). On a file whose root magic and version are right,
    [loadData] returns failure when it reaches a present sub-block whose
    tag is wrong, and it does not roll anything back: the store is then as
    the sub-blocks loaded before it (in the order area, holes, height,
    liquid) left it. So a wrong area tag leaves no sub-block populated; a
    wrong height tag leaves the area grid as the area block set it and no
    height or liquid buffer; a wrong liquid tag leaves the area grid and
    the height buffers as their blocks set them and no liquid buffer. Of
    the sub-blocks that are malformed in another way, a holes block cut
    short by the end of the file makes [loadData] fail in the same manner,
    keeping what the area block stored; an area block whose grid is cut
    short by the end of the file is not detected: [loadData] returns
    success and the store holds the shortened grid. *)
Theorem loadData_bad_sub_block_tag fs filename g bs hdr n in0 :
  fs filename = Some bs ->
  Stdio.fread {| Stdio.contents := bs; Stdio.position := 0 |} sizeof_GridMapFileHeader 1
  = (hdr, n, in0) ->
  root_field bs 0 = Some (magic32 MAP_MAGIC) ->
  root_field bs 1 = Some (magic32 MAP_VERSION_MAGIC) ->
  let g0 := unloadData g in
  (forall off t,
      root_field bs 2 = Some off -> off <> 0 ->
      tag_at bs off = Some t -> t <> magic32 MAP_AREA_MAGIC ->
      loadData fs filename g = Ret (false, g0) /\ no_sub_blocks g0)
  /\ (forall g1 in1 g2 in2 off t,
         load_section loadAreaData hdr 8 in0 g0 = Ret (true, g1, in1) ->
         load_section loadHolesData hdr 32 in1 g1 = Ret (true, g2, in2) ->
         root_field bs 4 = Some off -> off <> 0 ->
         tag_at bs off = Some t -> t <> magic32 MAP_HEIGHT_MAGIC ->
         loadData fs filename g = Ret (false, g2)
         /\ m_area_map g2 = m_area_map g1 /\ m_gridArea g2 = m_gridArea g1
         /\ m_V9 g2 = None /\ m_V8 g2 = None
         /\ m_liquidEntry g2 = None /\ m_liquidFlags g2 = None
         /\ m_liquid_map g2 = None)
  /\ (forall g1 in1 g2 in2 g3 in3 off t,
         load_section loadAreaData hdr 8 in0 g0 = Ret (true, g1, in1) ->
         load_section loadHolesData hdr 32 in1 g1 = Ret (true, g2, in2) ->
         load_section loadHeightData hdr 16 in2 g2 = Ret (true, g3, in3) ->
         root_field bs 6 = Some off -> off <> 0 ->
         tag_at bs off = Some t -> t <> magic32 MAP_LIQUID_MAGIC ->
         loadData fs filename g = Ret (false, g3)
         /\ m_area_map g3 = m_area_map g1 /\ m_gridArea g3 = m_gridArea g1
         /\ m_liquidEntry g3 = None /\ m_liquidFlags g3 = None
         /\ m_liquid_map g3 = None)
  /\ (forall g1 in1 off,
         load_section loadAreaData hdr 8 in0 g0 = Ret (true, g1, in1) ->
         root_field bs 8 = Some off -> off <> 0 ->
         Z.of_nat (length bs) < off + 512 ->
         exists g2,
           loadData fs filename g = Ret (false, g2)
           /\ m_area_map g2 = m_area_map g1 /\ m_gridArea g2 = m_gridArea g1
           /\ m_V9 g2 = None /\ m_V8 g2 = None
           /\ m_liquidEntry g2 = None /\ m_liquidFlags g2 = None
           /\ m_liquid_map g2 = None)
  /\ (forall off flags,
         root_field bs 2 = Some off -> off <> 0 ->
         tag_at bs off = Some (magic32 MAP_AREA_MAGIC) ->
         Mem.read_u16 (drop (Z.to_nat off) bs) 2 = Ret flags ->
         Z.land flags MAP_AREA_NO_AREA = 0 ->
         off + 8 <= Z.of_nat (length bs) < off + 8 + 512 ->
         root_field bs 4 = Some 0 -> root_field bs 6 = Some 0 ->
         root_field bs 8 = Some 0 ->
         exists g',
           loadData fs filename g = Ret (true, g')
           /\ m_area_map g' = Some (drop (Z.to_nat (off + 8)) bs)
           /\ (length (drop (Z.to_nat (off + 8)) bs) < 512)%nat).
Proof.
  intros Hfs Hread Hm Hv g0.
  destruct (loadData_bad_tag_paths fs filename g bs hdr n in0 Hfs Hread Hm Hv)
    as (Harea & Hheight & Hliquid).
  fold g0 in Harea, Hheight, Hliquid.
  pose proof (loadData_sections fs filename g bs Hfs Hm Hv) as Hload.
  rewrite Hread in Hload. cbn beta iota in Hload.
  rewrite fread_root_header in Hread.
  apply pair_equal_spec in Hread as [Hread Hin0].
  apply pair_equal_spec in Hread as [Hhdr _].
  assert (Hc0 : Stdio.contents in0 = bs) by now subst in0.
  clear Hin0. subst hdr. fold g0 in Hload.
  destruct (unloadData_no_sub_blocks g) as ((N1 & N2 & N3 & N4 & N5 & N6) & _).
  fold g0 in N1, N2, N3, N4, N5, N6.
  split_and!; [exact Harea | exact Hheight | exact Hliquid | |].
  - intros g1 in1 off Ha Hoff Hne Hshort.
    pose proof (root_field_nonneg _ _ _ Hoff) as Hpos.
    destruct (area_section_frame _ _ _ _ _ _ _ Ha)
      as (Hc1 & H9 & H8 & Hle & Hlf & Hlm & _).
    rewrite Hload, Ha. msimpl. cbn [negb].
    change 32 with (4 * 8).
    rewrite (load_section_present loadHolesData bs 8 off in1 g1 Hoff Hne ltac:(lia)).
    unfold loadHolesData, Stdio.fread, Stdio.fseek.
    cbn beta iota zeta. cbn [Stdio.contents Stdio.position].
    rewrite Hc1, Hc0.
    change (sizeof_holes * 1)%nat with 512%nat.
    change (Z.of_nat sizeof_holes) with 512.
    set (table := take 512 (drop (Z.to_nat off) bs)).
    assert (Hlen : Z.of_nat (length table) < 512).
    { unfold table. rewrite length_take, length_drop. lia. }
    rewrite (Z.div_small (Z.of_nat (length table)) 512) by lia.
    change (negb (0 =? 1)) with true. cbn iota. msimpl. cbn [negb].
    eexists. split; [reflexivity |].
    cbn [m_area_map m_gridArea m_V9 m_V8 m_liquidEntry m_liquidFlags m_liquid_map
         set_m_holes].
    split_and!; congruence.
  - intros off flags Hoff Hne Htag Hflags Hgrid Hlen Hh0 Hl0 Hho0.
    pose proof (root_field_nonneg _ _ _ Hoff) as Hpos.
    rewrite <- Hc0 in Htag.
    destruct (loadAreaData_good_tag in0 off g0 Hpos Htag ltac:(rewrite Hc0; lia))
      as (g1 & in1 & Ha).
    pose proof (loadAreaData_frame _ _ _ _ _ _ Ha) as (Hc1 & _).
    pose proof (loadAreaData_layout _ _ _ _ _ Hpos Ha) as Hlay. cbn zeta in Hlay.
    rewrite Hc0 in Hlay.
    destruct Hlay as (flags' & gridArea & Hflags' & _ & _ & Hmap).
    rewrite Hflags in Hflags'. apply Ret_inj in Hflags' as <-.
    rewrite Hgrid in Hmap. change (0 =? 0) with true in Hmap. cbn iota in Hmap.
    assert (Hsmall : (length (drop (Z.to_nat (off + 8)) bs) < 512)%nat)
      by (rewrite length_drop; lia).
    rewrite take_ge in Hmap by lia.
    exists g1. split_and!; [| exact Hmap | exact Hsmall].
    rewrite Hload. change 8 with (4 * 2) at 1.
    rewrite (load_section_present loadAreaData bs 2 off in0 g0 Hoff Hne ltac:(lia)).
    rewrite Ha. msimpl. cbn [negb].
    change 32 with (4 * 8).
    rewrite (load_section_absent loadHolesData bs 8 in1 g1 Hho0 ltac:(lia)).
    msimpl. cbn [negb].
    change 16 with (4 * 4).
    rewrite (load_section_absent loadHeightData bs 4 in1 g1 Hh0 ltac:(lia)).
    msimpl. cbn [negb].
    change 24 with (4 * 6).
    rewrite (load_section_absent loadGridMapLiquidData bs 6 in1 g1 Hl0 ltac:(lia)).
    reflexivity.
Qed.

End Malformed.

(** C2, witness: the file with a good area block and a wrong height tag,
    the file whose holes block is cut short, and the file whose area grid
    is cut short. *)
Lemma loadData_bad_sub_block_tag_witness :
  let D := upstream_defines in
  let g1 := set_m_area_map (set_m_gridArea (unloadData GridMap_new) 7)
              (Some (replicate 512 Byte.x01)) in
  loadData (Examples.directory Examples.bad_height_tag_file) "maps/0000000.map"
    GridMap_new = Ret (false, g1)
  /\ (exists g2,
        loadData (Examples.directory short_holes_file) "maps/0000000.map" GridMap_new
        = Ret (false, g2))
  /\ (exists g',
        loadData (Examples.directory short_area_grid_file) "maps/0000000.map" GridMap_new
        = Ret (true, g')
        /\ m_area_map g' = Some (drop (Z.to_nat (40 + 8)) short_area_grid_file)).
Proof.
  intros D g1. split_and!.
  - pose (in1 := {| Stdio.contents := Examples.bad_height_tag_file;
                    Stdio.position := 560 |}).
    destruct (loadData_bad_sub_block_tag (H := D)
                (Examples.directory Examples.bad_height_tag_file) "maps/0000000.map"
                GridMap_new Examples.bad_height_tag_file _ _ _
                eq_refl (fread_root_header _) eq_refl eq_refl) as (_ & Hheight & _).
    destruct (Hheight g1 in1 g1 in1 560 (magic32 "XXXX")
                ltac:(vm_compute; reflexivity) ltac:(vm_compute; reflexivity)
                eq_refl ltac:(discriminate) eq_refl ltac:(discriminate)) as [Hres _].
    exact Hres.
  - destruct (loadData_bad_sub_block_tag (H := D)
                (Examples.directory short_holes_file) "maps/0000000.map"
                GridMap_new short_holes_file _ _ _
                eq_refl (fread_root_header _) eq_refl eq_refl)
      as (_ & _ & _ & Hholes & _).
    destruct (Hholes (unloadData (GridMap_new (H := D)))
                {| Stdio.contents := short_holes_file; Stdio.position := 40 |} 40
                ltac:(vm_compute; reflexivity) eq_refl ltac:(discriminate)
                ltac:(vm_compute; reflexivity)) as (g2 & Hres & _).
    exists g2. exact Hres.
  - destruct (loadData_bad_sub_block_tag (H := D)
                (Examples.directory short_area_grid_file) "maps/0000000.map"
                GridMap_new short_area_grid_file _ _ _
                eq_refl (fread_root_header _) eq_refl eq_refl)
      as (_ & _ & _ & _ & Hgrid).
    destruct (Hgrid 40 0 eq_refl ltac:(discriminate) eq_refl
                ltac:(vm_compute; reflexivity) eq_refl
                ltac:(vm_compute; split; [discriminate | reflexivity])
                eq_refl eq_refl eq_refl) as (g' & Hres & Hmap & _).
    exists g'. split; [exact Hres | exact Hmap].
Defined.

(** C2, counterexample: a file with the right root tags, a good area
    block and a height block with the tag XXXX makes [loadData] fail and
    leaves the area grid and the tile-wide area id of the file in the
    store; and a file whose area block ends after 100 of the 512 bytes of
    its grid is loaded with success. *)
Lemma failed_load_keeps_area_short_grid_loads :
  let D := upstream_defines in
  root_field Examples.bad_height_tag_file 0 = Some (magic32 MAP_MAGIC)
  /\ root_field Examples.bad_height_tag_file 1 = Some (magic32 MAP_VERSION_MAGIC)
  /\ tag_at Examples.bad_height_tag_file 560 = Some (magic32 "XXXX")
  /\ ('(ok, g) ← loadData (Examples.directory Examples.bad_height_tag_file)
                   "maps/0000000.map" GridMap_new;
      Ret (ok, m_area_map g, m_gridArea g))
     = Ret (false, Some (replicate 512 Byte.x01), 7)
  /\ root_field short_area_grid_file 0 = Some (magic32 MAP_MAGIC)
  /\ root_field short_area_grid_file 1 = Some (magic32 MAP_VERSION_MAGIC)
  /\ tag_at short_area_grid_file 40 = Some (magic32 MAP_AREA_MAGIC)
  /\ length short_area_grid_file = 148%nat
  /\ ('(ok, g) ← loadData (Examples.directory short_area_grid_file)
                   "maps/0000000.map" GridMap_new;
      Ret (ok, m_area_map g, m_gridArea g))
     = Ret (true, Some (replicate 100 Byte.x01), 7).
Proof. vm_compute. repeat split. Qed.
